(** * go-isbn: a shallow embedding of pkg/isbn (isbn.go, range_parser.go)

    Go strings are byte strings; they are modelled by [string] (a list of
    8-bit [ascii] values).  Go's [int] is the 64-bit integer of the usual
    targets and [int32] wraps around; both are modelled in [Z] with the
    wrap-around written out.  A Go function that returns [(T, error)] is
    modelled as returning [T * option error] ([None] is [nil]); a function
    that can stop with a run-time panic (an index or a slice bound out of
    range) returns in the [go] monad below. *)

From Stdlib Require Import ZArith String Ascii List Lia Bool DecimalString.
From stdpp Require Import base option list strings gmap.

Open Scope string_scope.
Open Scope Z_scope.

(** ** Run-time panics *)

Inductive go (A : Type) : Type :=
| Normal (a : A)
| Panic.
Arguments Normal {A} a.
Arguments Panic {A}.

#[global] Instance go_ret : MRet go := fun _ a => Normal a.
#[global] Instance go_bind : MBind go := fun _ _ f m =>
  match m with
  | Normal a => f a
  | Panic => Panic
  end.

(** ** Errors

    [errors.New msg] is [New msg]; the only other errors in the package are
    the [*strconv.NumError] values of [strconv.Atoi]. *)

Inductive numErr : Type := ErrSyntax | ErrRange.

Inductive error : Type :=
| New (msg : string)
| NumError (func num : string) (err : numErr).

#[global] Instance numErr_eq_dec : EqDecision numErr.
Proof. solve_decision. Defined.
#[global] Instance error_eq_dec : EqDecision error.
Proof. solve_decision. Defined.

Definition errLength : error := New "ISBN length is incorrect".
Definition errCharacter : error := New "Invalid character found in ISBN".
Definition errCheckCharacter : error := New "invalid character found in check digit".
Definition errCheckDigit : error := New "ISBN check digit is incorrect".
Definition errNoRangeData : error :=
  New "no range data for parsing ISBNs (perhaps you did not LoadRangeData)".

(** The error kinds named by the specification. *)
Definition InvalidLength (e : error) : Prop := e = errLength.
Definition InvalidCharacter (e : error) : Prop :=
  e = errCharacter \/ e = errCheckCharacter.

(** ** Strings, bytes and integers as Go has them *)

Definition len (s : string) : Z := Z.of_nat (String.length s).

Definition code (c : ascii) : Z := Z.of_N (N_of_ascii c).

(** [s[i]]: panics unless [0 <= i < len s]. *)
Definition index (s : string) (i : Z) : go ascii :=
  if (i <? 0) || (len s <=? i) then Panic
  else match String.get (Z.to_nat i) s with
       | Some c => Normal c
       | None => Panic
       end.

(** [s[i:]] and [s[:j]]: panic unless the bound lies in [0 .. len s]. *)
Definition slice_from (s : string) (i : Z) : go string :=
  if (i <? 0) || (len s <? i) then Panic
  else Normal (String.substring (Z.to_nat i) (String.length s - Z.to_nat i) s).

Definition slice_to (s : string) (j : Z) : go string :=
  if (j <? 0) || (len s <? j) then Panic
  else Normal (String.substring 0 (Z.to_nat j) s).

(** [string(b)] for a byte [b]: the UTF-8 encoding of the code point [b]
    (one byte below 0x80, two bytes from 0x80 on). *)
Definition string_of_byte (b : ascii) : string :=
  let n := N_of_ascii b in
  if (n <? 128)%N then String b ""
  else String (ascii_of_N (N.lor 192 (N.shiftr n 6)))
         (String (ascii_of_N (N.lor 128 (N.land n 63))) "").

(** [append(buf, digit)] followed by [string(buf[:])]. *)
Definition append (buf : string) (digit : ascii) : string :=
  buf +:+ String digit "".

Definition is_digit (c : ascii) : bool := (48 <=? code c) && (code c <=? 57).

(** [int32(z)]: conversion with wrap-around. *)
Definition int32 (z : Z) : Z := (z + 2 ^ 31) mod 2 ^ 32 - 2 ^ 31.

(** ** strconv.Atoi and strconv.Itoa (base 10, 64-bit int) *)

Fixpoint digits_value (s : string) (acc : Z) : option Z :=
  match s with
  | "" => Some acc
  | String c t =>
      if is_digit c then digits_value t (acc * 10 + (code c - 48)) else None
  end.

Definition Atoi (s : string) : Z * option error :=
  let '(neg, body) :=
    match s with
    | String "+" t => (false, t)
    | String "-" t => (true, t)
    | _ => (false, s)
    end in
  if decide (body = "") then (0, Some (NumError "Atoi" s ErrSyntax))
  else match digits_value body 0 with
       | None => (0, Some (NumError "Atoi" s ErrSyntax))
       | Some n =>
           let v := if neg : bool then - n else n in
           if v <? - 2 ^ 63 then (- 2 ^ 63, Some (NumError "Atoi" s ErrRange))
           else if 2 ^ 63 - 1 <? v then (2 ^ 63 - 1, Some (NumError "Atoi" s ErrRange))
           else (v, None)
       end.

Definition Itoa (z : Z) : string := NilZero.string_of_int (Z.to_int z).

(** ** isbn.go: normalisation and the structural checks *)

Definition p978 : string := "978".

(** [strings.ToUpper] on ASCII text: [a..z] go to [A..Z].  Bytes from 0x80
    on, where Go maps whole code points, are left as they are: no code
    point outside ASCII is mapped to a digit, an [X], white space or a
    hyphen, so such an input is rejected by the length or the character
    check in Go as it is here. *)
Definition upper (c : ascii) : ascii :=
  if (97 <=? code c) && (code c <=? 122) then ascii_of_N (N_of_ascii c - 32) else c.

Fixpoint ToUpper (s : string) : string :=
  match s with
  | "" => ""
  | String c t => String (upper c) (ToUpper t)
  end.

(** The class [[\s-]] of Go's regexp: tab, line feed, form feed, carriage
    return, space and the hyphen. *)
Definition is_space_or_hyphen (c : ascii) : bool :=
  let n := code c in
  (n =? 9) || (n =? 10) || (n =? 12) || (n =? 13) || (n =? 32) || (n =? 45).

(** [r.ReplaceAllString(s, "")] for [r = [\s-]]. *)
Fixpoint remove_matches (s : string) : string :=
  match s with
  | "" => ""
  | String c t =>
      if is_space_or_hyphen c then remove_matches t else String c (remove_matches t)
  end.

Definition stripISBN (isbn : string) : string := remove_matches (ToUpper isbn).

Definition chkLength (isbn : string) : bool * option error :=
  if negb (len isbn =? 10) && negb (len isbn =? 13) then (false, Some errLength)
  else (true, None).

(** [regexp.Match("[^0-9]", b)]: some byte is not a digit. *)
Fixpoint match_non_digit (s : string) : bool :=
  match s with
  | "" => false
  | String c t => negb (is_digit c) || match_non_digit t
  end.

(** [regexp.Match("[^0-9X]", b)]: some byte is neither a digit nor [X]. *)
Fixpoint match_non_digit_X (s : string) : bool :=
  match s with
  | "" => false
  | String c t => negb (is_digit c || (code c =? 88)) || match_non_digit_X t
  end.

Definition chkCharacters (isbn : string) : go (bool * option error) :=
  mainDigits ← slice_to isbn (len isbn - 1);
  checkDigit ← slice_from isbn (len isbn - 1);
  if match_non_digit mainDigits then mret (false, Some errCharacter)
  else if match_non_digit_X checkDigit then mret (false, Some errCheckCharacter)
  else mret (true, None).

(** ** isbn.go: the check digits *)

(** The body of [for i = 0; i < 9; i++] in [CalcCheckDigit10], run [n] more
    times from index [i]; the result is the sum, or the error of the first
    [Atoi] that fails. *)
Fixpoint sum10 (n : nat) (isbn : string) (i sum : Z) : go (Z * option error) :=
  match n with
  | O => mret (sum, None)
  | S n' =>
      c ← index isbn i;
      let '(v1, err) := Atoi (string_of_byte c) in
      match err with
      | Some e => mret (sum, Some e)
      | None => sum10 n' isbn (int32 (i + 1))
                  (int32 (sum + int32 (int32 (10 - i) * int32 v1)))
      end
  end.

Definition CalcCheckDigit10 (isbn : string) : go (string * option error) :=
  '(sum, err) ← sum10 9 isbn 0 0;
  match err with
  | Some e => mret ("", Some e)
  | None =>
      let rem := Z.rem (int32 (11 - Z.rem sum 11)) 11 in
      mret (if rem =? 10 then "X" else Itoa rem, None)
  end.

(** The body of [for i = 0; i < 12; i += 2] in [CalcCheckDigit13]. *)
Fixpoint sum13 (n : nat) (isbn : string) (i sum : Z) : go (Z * option error) :=
  match n with
  | O => mret (sum, None)
  | S n' =>
      c1 ← index isbn i;
      let '(v1, err) := Atoi (string_of_byte c1) in
      match err with
      | Some e => mret (sum, Some e)
      | None =>
          c2 ← index isbn (int32 (i + 1));
          let '(v2, err) := Atoi (string_of_byte c2) in
          match err with
          | Some e => mret (sum, Some e)
          | None => sum13 n' isbn (int32 (i + 2))
                      (int32 (sum + int32 (int32 v1 + int32 (3 * int32 v2))))
          end
      end
  end.

Definition CalcCheckDigit13 (isbn : string) : go (string * option error) :=
  '(sum, err) ← sum13 6 isbn 0 0;
  match err with
  | Some e => mret ("", Some e)
  | None =>
      let rem := Z.rem (int32 (10 - Z.rem sum 10)) 10 in
      mret (Itoa rem, None)
  end.

Definition chkCheckDigit (isbn : string) : go (bool * option error) :=
  checkDigit ← slice_from isbn (len isbn - 1);
  match chkLength isbn with
  | (_, Some e) => mret (false, Some e)
  | (_, None) =>
      '(testDigit, err) ←
        (if len isbn =? 10 then CalcCheckDigit10 isbn
         else if len isbn =? 13 then CalcCheckDigit13 isbn
         else mret ("", None));
      match err with
      | Some e => mret (false, Some e)
      | None =>
          if decide (testDigit = checkDigit) then mret (true, None)
          else mret (false, Some errCheckDigit)
      end
  end.

Definition CalcCheckDigit (isbn : string) : go (string * option error) :=
  let isbn := stripISBN isbn in
  match chkLength isbn with
  | (_, Some e) => mret ("", Some e)
  | (_, None) =>
      '(_, err) ← chkCharacters isbn;
      match err with
      | Some e => mret ("", Some e)
      | None =>
          if len isbn =? 10 then CalcCheckDigit10 isbn else CalcCheckDigit13 isbn
      end
  end.

Definition ValidateCheckDigit (isbn : string) : go bool :=
  let isbn := stripISBN isbn in
  provided ← slice_from isbn (len isbn - 1);
  '(calculated, _) ← CalcCheckDigit isbn;
  mret (bool_decide (provided = calculated)).

(** ** range_parser.go: the range table

    A range is the three-element slice [[rStart, rEnd, rLen]] that
    [LoadRangeData] builds with [make([]int, 3)]; no other code writes the
    table, so a range is modelled as a record of its three elements. *)

Record rng : Type := mkRange { rStart : Z; rEnd : Z; rLen : Z }.

#[global] Instance rng_eq_dec : EqDecision rng.
Proof. solve_decision. Defined.

Module registrant.

Record t : Type := mk { Agency : string; Ranges : list rng }.

(** The zero value of the struct. *)
Definition zero : t := {| Agency := ""; Ranges := [] |}.

End registrant.

(** [type rangeData map[string]map[string]registrant]; the package variable
    [rmd] is passed explicitly to the functions that read it. *)
Abbreviation rangeData := (gmap string (gmap string registrant.t)).

Definition HasRangeData (rmd : rangeData) : bool := 0 <? Z.of_nat (size rmd).

(** [rmd[prefix][group]] with the [ok] flag: indexing a missing prefix gives
    the nil inner map, in which every lookup fails. *)
Definition lookup_group (rmd : rangeData) (prefix group : string)
  : option registrant.t :=
  default ∅ (rmd !! prefix) !! group.

(** ** isbn.go: the parsed record *)

Record ISBN : Type := mkISBN {
  Prefix : string;
  RegistrationGroup : string;
  Registrant : string;
  Publication : string;
  Agency : string;
  CheckDigit10 : string;
  CheckDigit13 : string;
  IsValid : bool
}.

Definition zeroISBN : ISBN := mkISBN "" "" "" "" "" "" "" false.

Definition set_Prefix (v : string) (x : ISBN) : ISBN :=
  mkISBN v (RegistrationGroup x) (Registrant x) (Publication x) (Agency x)
    (CheckDigit10 x) (CheckDigit13 x) (IsValid x).
Definition set_RegistrationGroup (v : string) (x : ISBN) : ISBN :=
  mkISBN (Prefix x) v (Registrant x) (Publication x) (Agency x)
    (CheckDigit10 x) (CheckDigit13 x) (IsValid x).
Definition set_Registrant (v : string) (x : ISBN) : ISBN :=
  mkISBN (Prefix x) (RegistrationGroup x) v (Publication x) (Agency x)
    (CheckDigit10 x) (CheckDigit13 x) (IsValid x).
Definition set_Publication (v : string) (x : ISBN) : ISBN :=
  mkISBN (Prefix x) (RegistrationGroup x) (Registrant x) v (Agency x)
    (CheckDigit10 x) (CheckDigit13 x) (IsValid x).
Definition set_Agency (v : string) (x : ISBN) : ISBN :=
  mkISBN (Prefix x) (RegistrationGroup x) (Registrant x) (Publication x) v
    (CheckDigit10 x) (CheckDigit13 x) (IsValid x).
Definition set_CheckDigit10 (v : string) (x : ISBN) : ISBN :=
  mkISBN (Prefix x) (RegistrationGroup x) (Registrant x) (Publication x)
    (Agency x) v (CheckDigit13 x) (IsValid x).
Definition set_CheckDigit13 (v : string) (x : ISBN) : ISBN :=
  mkISBN (Prefix x) (RegistrationGroup x) (Registrant x) (Publication x)
    (Agency x) (CheckDigit10 x) v (IsValid x).
Definition set_IsValid (v : bool) (x : ISBN) : ISBN :=
  mkISBN (Prefix x) (RegistrationGroup x) (Registrant x) (Publication x)
    (Agency x) (CheckDigit10 x) (CheckDigit13 x) v.

(** ** isbn.go: ParseISBN *)

(** The local variables of [ParseISBN] that the digit loop reads and
    writes. *)
Record locals : Type := mkLocals {
  ret : ISBN;
  pfx : string;
  grp : string;
  reg : string;
  pub : string;
  rs : registrant.t
}.

(** The condition of the inner loop over [rs.Ranges]. *)
Definition in_range (reg : string) (chk : Z) (rg : rng) : bool :=
  (len reg =? rLen rg) && (rStart rg <=? chk) && (chk <=? rEnd rg).

(** [for _, rg := range rs.Ranges { if ... { ret.Registrant = string(reg) } }] *)
Definition scan_ranges (reg : string) (chk : Z) (ranges : list rng) (x : ISBN)
  : ISBN :=
  fold_left (fun x rg => if in_range reg chk rg then set_Registrant reg x else x)
    ranges x.

(** One turn of [for _, digit := range rg]: the new locals, or the
    [return ret, err] of the loop body. *)
Definition step (rmd : rangeData) (st : locals) (digit : ascii)
  : locals + ISBN * error :=
  if decide (Prefix (ret st) = "") then
    let pfx' := append (pfx st) digit in
    match rmd !! pfx' with
    | Some _ =>
        inl (mkLocals (set_Prefix pfx' (ret st)) pfx' (grp st) (reg st) (pub st) (rs st))
    | None =>
        inl (mkLocals (ret st) pfx' (grp st) (reg st) (pub st) (rs st))
    end
  else if decide (RegistrationGroup (ret st) = "") then
    let grp' := append (grp st) digit in
    match lookup_group rmd (Prefix (ret st)) grp' with
    | Some rs' =>
        inl (mkLocals
               (set_Agency (registrant.Agency rs') (set_RegistrationGroup grp' (ret st)))
               (pfx st) grp' (reg st) (pub st) rs')
    | None =>
        inl (mkLocals (ret st) (pfx st) grp' (reg st) (pub st) (rs st))
    end
  else if decide (Registrant (ret st) = "") then
    let reg' := append (reg st) digit in
    match Atoi reg' with
    | (_, Some err) => inr (ret st, err)
    | (chk, None) =>
        inl (mkLocals (scan_ranges reg' chk (registrant.Ranges (rs st)) (ret st))
               (pfx st) (grp st) reg' (pub st) (rs st))
    end
  else
    let pub' := append (pub st) digit in
    inl (mkLocals (set_Publication pub' (ret st)) (pfx st) (grp st) (reg st) pub' (rs st)).

(** The whole loop over the bytes of [rg]. *)
Fixpoint scan (rmd : rangeData) (rg : string) (st : locals) : locals + ISBN * error :=
  match rg with
  | "" => inl st
  | String digit rest =>
      match step rmd st digit with
      | inl st' => scan rmd rest st'
      | inr r => inr r
      end
  end.

(** The locals when the loop starts: [ret.Prefix] is [p978] for a 10-digit
    input, the buffers are empty and [rs] is the zero value. *)
Definition start (isbn : string) : locals :=
  mkLocals (if len isbn =? 10 then set_Prefix p978 zeroISBN else zeroISBN)
    "" "" "" "" registrant.zero.

(** The part of [ParseISBN] after the loop ("Check the check digit"). *)
Definition finish (isbn : string) (ret : ISBN) : go (ISBN * option error) :=
  if len isbn =? 10 then
    cd ← slice_from isbn (len isbn - 1);
    let ret := set_CheckDigit10 cd ret in
    '(chk, _) ← CalcCheckDigit10 isbn;
    let ret := set_IsValid (bool_decide (CheckDigit10 ret = chk)) ret in
    if IsValid ret then
      '(cd13, _) ← CalcCheckDigit13 (p978 +:+ isbn);
      mret (set_CheckDigit13 cd13 ret, None)
    else mret (ret, None)
  else if len isbn =? 13 then
    cd ← slice_from isbn (len isbn - 1);
    let ret := set_CheckDigit13 cd ret in
    '(chk, _) ← CalcCheckDigit13 isbn;
    let ret := set_IsValid (bool_decide (CheckDigit13 ret = chk)) ret in
    if IsValid ret && bool_decide (Prefix ret = p978) then
      let s := RegistrationGroup ret +:+ Registrant ret +:+ Publication ret +:+ "X" in
      '(cd10, _) ← CalcCheckDigit10 s;
      mret (set_CheckDigit10 cd10 ret, None)
    else mret (ret, None)
  else mret (ret, None).

(** The part of [ParseISBN] after [isbn = stripISBN(isbn)]. *)
Definition parse_stripped (rmd : rangeData) (isbn : string) : go (ISBN * option error) :=
  match chkLength isbn with
  | (_, Some err) => mret (zeroISBN, Some err)
  | (_, None) =>
  '(_, err) ← chkCharacters isbn;
  match err with
  | Some err => mret (zeroISBN, Some err)
  | None =>
  '(_, err) ← chkCheckDigit isbn;
  match err with
  | Some err => mret (zeroISBN, Some err)
  | None =>
  if negb (HasRangeData rmd) then mret (zeroISBN, Some errNoRangeData)
  else
    rg ← slice_to isbn (len isbn - 1);
    match scan rmd rg (start isbn) with
    | inr (x, err) => mret (x, Some err)
    | inl st => finish isbn (ret st)
    end
  end end end.

Definition ParseISBN (rmd : rangeData) (isbn : string) : go (ISBN * option error) :=
  parse_stripped rmd (stripISBN isbn).

(** ** isbn.go: the conversions *)

Definition ISBN13 (x : ISBN) : string :=
  if IsValid x then
    Prefix x +:+ RegistrationGroup x +:+ Registrant x +:+ Publication x
      +:+ CheckDigit13 x
  else "".

Definition ISBN10 (x : ISBN) : string :=
  if decide (Prefix x = p978) then
    RegistrationGroup x +:+ Registrant x +:+ Publication x +:+ CheckDigit10 x
  else "".

(** [strings.Join(a, "-")] *)
Fixpoint Join (a : list string) (sep : string) : string :=
  match a with
  | [] => ""
  | [s] => s
  | s :: t => s +:+ sep +:+ Join t sep
  end.

(** The [String] method of the [Stringer] interface. *)
Definition String_ (x : ISBN) : string :=
  if IsValid x then
    let out := Join [Prefix x; RegistrationGroup x; Registrant x; Publication x;
                     CheckDigit13 x] "-" in
    if decide (Prefix x = p978) then
      out +:+ " (" +:+
        Join [RegistrationGroup x; Registrant x; Publication x; CheckDigit10 x] "-"
        +:+ ")"
    else out
  else "".

(** ** A small range table

    Two registration groups of the 978 prefix with some of their ranges, in
    the form [LoadRangeData] stores them. *)

Definition english : registrant.t :=
  registrant.mk "English language"
    [mkRange 0 19 2; mkRange 200 227 3; mkRange 229 368 3; mkRange 370 638 3;
     mkRange 656 699 3; mkRange 7000 8499 4; mkRange 85000 89999 5].

Definition italy : registrant.t :=
  registrant.mk "Italy"
    [mkRange 0 19 2; mkRange 200 311 3; mkRange 910 926 3; mkRange 6000 8499 4].

Definition sample_rmd : rangeData :=
  {[ "978" := {[ "0" := english; "88" := italy ]} ]}.

(** ** The check-digit formulas as the specification words them *)

(** [digit(i)]: the value of the decimal digit at index [i]. *)
Definition digit (s : string) (i : nat) : Z :=
  match String.get i s with
  | Some c => code c - 48
  | None => 0
  end.

Definition sumZ (l : list Z) : Z := fold_right Z.add 0 l.

(** checksum = sum over i = 0..8 of (10 - i) * digit(i) *)
Definition spec_checksum10 (s : string) : Z :=
  sumZ (map (fun i => (10 - Z.of_nat i) * digit s i) (seq 0 9)).

(** check digit = (11 - checksum mod 11) mod 11 *)
Definition spec_check10 (s : string) : Z := (11 - spec_checksum10 s mod 11) mod 11.

(** checksum = sum over i = 0, 2, .., 10 of digit(i) + 3 * digit(i+1) *)
Definition spec_checksum13 (s : string) : Z :=
  sumZ (map (fun j => digit s (2 * j) + 3 * digit s (2 * j + 1)) (seq 0 6)).

(** check digit = (10 - checksum mod 10) mod 10 *)
Definition spec_check13 (s : string) : Z := (10 - spec_checksum13 s mod 10) mod 10.

(** A single decimal digit as text. *)
Definition decimal_digit (v : Z) : string := String (ascii_of_N (Z.to_N (48 + v))) "".

(** ["X"] when the value is 10, otherwise a single decimal digit. *)
Definition spec_render10 (v : Z) : string := if v =? 10 then "X" else decimal_digit v.

(** Every byte is a decimal digit. *)
Definition all_digits (s : string) : Prop := match_non_digit s = false.

(** Bytes [k .. k+n-1] of [s] exist and are decimal digits. *)
Definition digits_at (s : string) (k n : nat) : Prop :=
  forall j, (k <= j < k + n)%nat ->
            exists c, String.get j s = Some c /\ is_digit c = true.

(** The check digit of a string of length 10 or 13, by the formula for its
    length. *)
Definition expected_check_digit (isbn : string) : string :=
  if len isbn =? 10 then spec_render10 (spec_check10 isbn)
  else decimal_digit (spec_check13 isbn).

(** A string in normal form: decimal digits, then a last byte that is a
    decimal digit or [X]. *)
Definition normalized (isbn : string) : Prop :=
  exists body c, isbn = body +:+ String c ""
                 /\ all_digits body /\ (is_digit c = true \/ c = "X"%char).

(** ** The state of the digit loop

    [phase p0 done st]: the locals [st] after the loop has consumed the
    digits [done], where [p0] is the prefix assigned before the loop (empty
    for a 13-digit input, [978] for a 10-digit one).  The four cases are the
    four branches of the loop body: the element being resolved. *)

Definition fields (x : ISBN) : string :=
  Prefix x +:+ RegistrationGroup x +:+ Registrant x +:+ Publication x.

Inductive phase (p0 done : string) (st : locals) : Prop :=
| resolving_prefix :
    p0 = "" -> Prefix (ret st) = "" -> RegistrationGroup (ret st) = "" ->
    Registrant (ret st) = "" -> Publication (ret st) = "" ->
    pfx st = done -> grp st = "" -> reg st = "" -> pub st = "" ->
    phase p0 done st
| resolving_group :
    Prefix (ret st) = p0 +:+ pfx st -> Prefix (ret st) <> "" ->
    RegistrationGroup (ret st) = "" ->
    Registrant (ret st) = "" -> Publication (ret st) = "" ->
    pfx st +:+ grp st = done -> reg st = "" -> pub st = "" ->
    phase p0 done st
| resolving_registrant :
    Prefix (ret st) = p0 +:+ pfx st -> Prefix (ret st) <> "" ->
    RegistrationGroup (ret st) = grp st -> grp st <> "" ->
    Registrant (ret st) = "" -> Publication (ret st) = "" ->
    pfx st +:+ grp st +:+ reg st = done -> pub st = "" ->
    phase p0 done st
| filling_publication :
    Prefix (ret st) = p0 +:+ pfx st -> Prefix (ret st) <> "" ->
    RegistrationGroup (ret st) = grp st -> grp st <> "" ->
    Registrant (ret st) = reg st -> reg st <> "" ->
    Publication (ret st) = pub st ->
    pfx st +:+ grp st +:+ reg st +:+ pub st = done ->
    phase p0 done st.

(** [same_elements x y]: the loop's results are carried over unchanged. *)
Definition same_elements (x y : ISBN) : Prop :=
  Prefix y = Prefix x /\ RegistrationGroup y = RegistrationGroup x
  /\ Registrant y = Registrant x /\ Publication y = Publication x
  /\ Agency y = Agency x.

(** The locals with another prefix buffer. *)
Definition with_pfx (a : string) (st : locals) : locals :=
  mkLocals (ret st) a (grp st) (reg st) (pub st) (rs st).

(** ** Statements about the package, to be settled below *)

(** The four fields of an accepted 13-digit input spell its first twelve
    digits. *)
Definition fields_cover_digits (rmd : rangeData) (isbn : string) : Prop :=
  forall x, ParseISBN rmd isbn = Normal (x, None) ->
            len (stripISBN isbn) = 13 ->
            slice_to (stripISBN isbn) 12 = Normal (fields x).

(** Converting an accepted 978 input to ISBN-10 and parsing that gives back
    the input as ISBN-13. *)
Definition round_trips (rmd : rangeData) (s : string) : Prop :=
  forall x, ParseISBN rmd s = Normal (x, None) ->
            len (stripISBN s) = 13 -> Prefix x = p978 ->
            exists y e, ParseISBN rmd (ISBN10 x) = Normal (y, e) /\ ISBN13 y = s.


(** An invalid record has no ISBN-10. *)
Definition no_ISBN10_when_invalid (x : ISBN) : Prop :=
  IsValid x = false -> ISBN10 x = "".


(** The parse fails with [InvalidCharacter]. *)
Definition fails_with_InvalidCharacter (rmd : rangeData) (isbn : string) : Prop :=
  exists x e, ParseISBN rmd isbn = Normal (x, Some e) /\ InvalidCharacter e.

(** The string handed to [CalcCheckDigit10] in the 13-to-10 branch has at
    least nine bytes. *)
Definition cross_input_long (rmd : rangeData) (isbn : string) : Prop :=
  forall x, ParseISBN rmd isbn = Normal (x, None) ->
            len (stripISBN isbn) = 13 -> IsValid x = true -> Prefix x = p978 ->
            9 <= len (RegistrationGroup x +:+ Registrant x +:+ Publication x +:+ "X").

(** [ValidateCheckDigit] returns a boolean. *)
Definition validate_returns (isbn : string) : Prop :=
  exists b, ValidateCheckDigit isbn = Normal b.

(** ** range_parser.go: loading and unloading the table

    The model starts where [dec.Decode(&doc)] has succeeded: the document is
    the list of its [RegistrationGroups.Group] records, each with the text
    of its [Prefix], its [Agency] and its rules.  [toInt] is not among the
    sources; it is taken as a parameter.  What [log.Println] prints is kept
    as a list of errors. *)

Module xml.

Record Rule : Type := mkRule { Range : string; Length : string }.

Record Group : Type := mkGroup { Prefix : string; Agency : string; Rules : list Rule }.

End xml.

(** [strings.Split(s, "-")]: the pieces of [s] between the hyphens, at least
    one piece. *)
Fixpoint Split (s : string) : list string :=
  match s with
  | "" => [""]
  | String c t =>
      if Ascii.eqb c "-" then "" :: Split t
      else match Split t with
           | h :: r => String c h :: r
           | [] => [String c ""]
           end
  end.

(** [tokens[i]]: panics unless [i < len(tokens)]. *)
Definition token (tokens : list string) (i : nat) : go string :=
  match tokens !! i with
  | Some t => Normal t
  | None => Panic
  end.

(** [UnloadRangeData]: the new value of [rmd] and the results. *)
Definition UnloadRangeData (rmd : rangeData) : rangeData * (bool * option error) :=
  let rmd := (∅ : rangeData) in
  if 0 <? Z.of_nat (size rmd)
  then (rmd, (false, Some (New "range data did not unload")))
  else (rmd, (true, None)).

Section Loader.

Context (toInt : string -> Z * option error).

(** One turn of the loop over [rg.Rules.Rule]: the registrant built so far
    and the log. *)
Definition load_rule (st : registrant.t * list error) (rule : xml.Rule)
  : go (registrant.t * list error) :=
  let '(reg, log) := st in
  match toInt (xml.Length rule) with
  | (_, Some err) => mret (reg, (log ++ [err])%list)
  | (rLen, None) =>
      if 0 <? rLen then
        let tokens := Split (xml.Range rule) in
        t0 ← token tokens 0;
        s0 ← slice_to t0 rLen;
        match toInt s0 with
        | (_, Some err) => mret (reg, (log ++ [err])%list)
        | (rStart, None) =>
            t1 ← token tokens 1;
            s1 ← slice_to t1 rLen;
            match toInt s1 with
            | (_, Some err) => mret (reg, (log ++ [err])%list)
            | (rEnd, None) =>
                if rEnd =? 0 then mret (reg, log)
                else mret (registrant.mk (registrant.Agency reg)
                             (registrant.Ranges reg ++ [mkRange rStart rEnd rLen])%list,
                           log)
            end
        end
      else mret (reg, log)
  end.

Fixpoint load_rules (st : registrant.t * list error) (rules : list xml.Rule)
  : go (registrant.t * list error) :=
  match rules with
  | [] => mret st
  | rule :: rest => st' ← load_rule st rule; load_rules st' rest
  end.

(** One turn of the loop over [doc.RegistrationGroups.Group]. *)
Definition load_group (st : rangeData * list error) (rg : xml.Group)
  : go (rangeData * list error) :=
  let '(rmd, log) := st in
  let tokens := Split (xml.Prefix rg) in
  prefix ← token tokens 0;
  group ← token tokens 1;
  '(reg, log) ← load_rules (registrant.mk (xml.Agency rg) [], log) (xml.Rules rg);
  mret (<[prefix := <[group := reg]> (default ∅ (rmd !! prefix))]> rmd, log).

Fixpoint load_groups (st : rangeData * list error) (groups : list xml.Group)
  : go (rangeData * list error) :=
  match groups with
  | [] => mret st
  | rg :: rest => st' ← load_group st rg; load_groups st' rest
  end.

(** [LoadRangeData] from the decoded document on: the new table, the log
    and the results. *)
Definition LoadRangeData (rmd : rangeData) (doc : list xml.Group)
  : go (rangeData * list error * (bool * option error)) :=
  match UnloadRangeData rmd with
  | (rmd, (_, Some err)) => mret (rmd, [], (false, Some err))
  | (rmd, (_, None)) =>
      '(rmd, log) ← load_groups (rmd, []) doc;
      mret (rmd, log, (true, None))
  end.

End Loader.

(** A document with one group of three rules, the last one unused. *)
Definition sample_doc : list xml.Group :=
  [xml.mkGroup "978-0" "English language"
     [xml.mkRule "0000000-1999999" "2"; xml.mkRule "2000000-2279999" "3";
      xml.mkRule "0000000-0000000" "0"];
   xml.mkGroup "978-88" "Italy" [xml.mkRule "0000000-1999999" "2"]].

(** ** Further notions used below *)

(** Every byte of [s] satisfies [P]. *)
Definition every_byte (P : ascii -> Prop) (s : string) : Prop :=
  Forall P (list_ascii_of_string s).


(** The three checks [ParseISBN] runs before it asks for range data. *)
Definition passes_checks (isbn : string) : Prop :=
  chkLength isbn = (true, None)
  /\ chkCharacters isbn = Normal (true, None)
  /\ chkCheckDigit isbn = Normal (true, None).

(** The tests of the three resolving branches of the digit loop, on a
    candidate buffer: [rmd[q]] exists, [rmd[prefix][q]] exists, some range
    of the rule set has the length of [q] and holds its value. *)
Definition is_prefix_key (rmd : rangeData) (q : string) : bool :=
  bool_decide (is_Some (rmd !! q)).

Definition is_group_key (rmd : rangeData) (prefix q : string) : bool :=
  bool_decide (is_Some (lookup_group rmd prefix q)).

Definition fits (rs : registrant.t) (q : string) : bool :=
  match Atoi q with
  | (chk, None) => existsb (in_range q chk) (registrant.Ranges rs)
  | (_, Some _) => false
  end.

(** No non-empty initial segment of [buf] passes the test. *)
Definition unmatched (test : string -> bool) (buf : string) : Prop :=
  forall q r, q <> "" -> buf = q +:+ r -> test q = false.

(** [buf] passes the test and no shorter non-empty initial segment does. *)
Definition first_match (test : string -> bool) (buf : string) : Prop :=
  test buf = true
  /\ forall q r, q <> "" -> r <> "" -> buf = q +:+ r -> test q = false.

(** What the digit loop has established about its buffers: each resolved
    element is the first match of its test, each buffer still being filled
    has not matched yet. *)
Inductive resolution (rmd : rangeData) (p0 : string) (st : locals) : Prop :=
| unresolved_prefix :
    Prefix (ret st) = "" ->
    unmatched (is_prefix_key rmd) (pfx st) ->
    Agency (ret st) = "" ->
    resolution rmd p0 st
| unresolved_group :
    Prefix (ret st) <> "" -> RegistrationGroup (ret st) = "" ->
    (p0 = "" -> first_match (is_prefix_key rmd) (pfx st)) ->
    unmatched (is_group_key rmd (Prefix (ret st))) (grp st) ->
    Agency (ret st) = "" ->
    resolution rmd p0 st
| unresolved_registrant :
    Prefix (ret st) <> "" -> RegistrationGroup (ret st) <> "" ->
    Registrant (ret st) = "" ->
    (p0 = "" -> first_match (is_prefix_key rmd) (pfx st)) ->
    first_match (is_group_key rmd (Prefix (ret st))) (grp st) ->
    lookup_group rmd (Prefix (ret st)) (grp st) = Some (rs st) ->
    Agency (ret st) = registrant.Agency (rs st) ->
    unmatched (fits (rs st)) (reg st) ->
    resolution rmd p0 st
| resolved_registrant :
    Prefix (ret st) <> "" -> RegistrationGroup (ret st) <> "" ->
    Registrant (ret st) <> "" ->
    (p0 = "" -> first_match (is_prefix_key rmd) (pfx st)) ->
    first_match (is_group_key rmd (Prefix (ret st))) (grp st) ->
    lookup_group rmd (Prefix (ret st)) (grp st) = Some (rs st) ->
    Agency (ret st) = registrant.Agency (rs st) ->
    first_match (fits (rs st)) (reg st) ->
    resolution rmd p0 st.

(** The sum of the digit values of [s] weighted by [ws], position by
    position. *)
Fixpoint weighted_sum (ws : list Z) (s : string) : Z :=
  match ws, s with
  | w :: ws', String c s' => w * (code c - 48) + weighted_sum ws' s'
  | _, _ => 0
  end.

Definition weights10 : list Z := [10; 9; 8; 7; 6; 5; 4; 3; 2].
Definition weights13 : list Z := [1; 3; 1; 3; 1; 3; 1; 3; 1; 3; 1; 3].

(** A table with a second prefix: group 10 of 979 beside the groups of
    [sample_rmd]. *)
Definition france : registrant.t :=
  registrant.mk "France"
    [mkRange 0 19 2; mkRange 200 699 3; mkRange 7000 8999 4;
     mkRange 90000 97599 5; mkRange 976000 999999 6].

Definition sample_rmd_979 : rangeData :=
  {[ "978" := {[ "0" := english; "88" := italy ]}; "979" := {[ "10" := france ]} ]}.

(** The table [LoadRangeData] builds from [sample_doc], with [strconv.Atoi]
    for [toInt]. *)
Definition sample_loaded : rangeData :=
  match LoadRangeData Atoi ∅ sample_doc with
  | Normal (rmd, _, _) => rmd
  | Panic => ∅
  end.

(** The table key a group record is stored under: the first two pieces of
    its prefix text. *)
Definition group_key (rg : xml.Group) (prefix group : string) : Prop :=
  exists rest, Split (xml.Prefix rg) = prefix :: group :: rest.

(** The range [r] is what the rule contributes to its registrant: the
    rule's length is positive, the bounds are read from the first [rLen]
    bytes of the two halves of the range text, and the upper bound is not
    zero. *)
Definition rule_range (toInt : string -> Z * option error)
    (rule : xml.Rule) (r : rng) : Prop :=
  toInt (xml.Length rule) = (rLen r, None)
  /\ 0 < rLen r
  /\ rEnd r <> 0
  /\ exists lo hi rest s0 s1,
       Split (xml.Range rule) = lo :: hi :: rest
       /\ slice_to lo (rLen r) = Normal s0 /\ toInt s0 = (rStart r, None)
       /\ slice_to hi (rLen r) = Normal s1 /\ toInt s1 = (rEnd r, None).

(** The registrant [reg] is built from the group record [rg]. *)
Definition built_from (toInt : string -> Z * option error)
    (rg : xml.Group) (reg : registrant.t) : Prop :=
  registrant.Agency reg = xml.Agency rg
  /\ Forall (fun r => exists rule, In rule (xml.Rules rg) /\ rule_range toInt rule r)
       (registrant.Ranges reg).

(** * Properties *)

(** Case analysis over the 256 bytes, and over the values of a small
    interval. *)
Ltac all_bytes c := destruct c as [[] [] [] [] [] [] [] []].

Ltac small_cases v :=
  let D := fresh "D" in
  assert (v = 0 \/ v = 1 \/ v = 2 \/ v = 3 \/ v = 4 \/ v = 5 \/ v = 6
          \/ v = 7 \/ v = 8 \/ v = 9 \/ v = 10) as D by lia;
  repeat (destruct D as [-> | D]); [.. | subst v].

(** ** Strings and slices *)

Lemma append_cons (c : ascii) (s t : string) :
  String c s +:+ t = String c (s +:+ t).
Proof. reflexivity. Qed.

Lemma append_nil_l (s : string) : "" +:+ s = s.
Proof. reflexivity. Qed.

Lemma append_nil_r (s : string) : s +:+ "" = s.
Proof.
  induction s as [|c s IH]; [reflexivity |]. by rewrite append_cons, IH.
Qed.

Lemma append_assoc (a b c : string) : (a +:+ b) +:+ c = a +:+ (b +:+ c).
Proof.
  induction a as [|x a IH]; [reflexivity |]. by rewrite !append_cons, IH.
Qed.

Lemma length_append (a b : string) :
  String.length (a +:+ b) = (String.length a + String.length b)%nat.
Proof.
  induction a as [|x a IH]; [reflexivity |]. rewrite append_cons. simpl.
  by rewrite IH.
Qed.

Lemma len_append (a b : string) : len (a +:+ b) = len a + len b.
Proof. unfold len. rewrite length_append. lia. Qed.

Lemma len_nonneg (s : string) : 0 <= len s.
Proof. unfold len. lia. Qed.

Lemma len_zero (s : string) : len s = 0 -> s = "".
Proof. destruct s; [reflexivity | unfold len; simpl; lia]. Qed.

Lemma substring_all (s : string) : String.substring 0 (String.length s) s = s.
Proof. induction s as [|c s IH]; simpl; [reflexivity | by rewrite IH]. Qed.

Lemma substring_front (a b : string) :
  String.substring 0 (String.length a) (a +:+ b) = a.
Proof.
  induction a as [|x a IH].
  - by destruct b.
  - rewrite append_cons. simpl. by rewrite IH.
Qed.

Lemma substring_back (a b : string) :
  String.substring (String.length a) (String.length b) (a +:+ b) = b.
Proof.
  induction a as [|x a IH]; [apply substring_all |].
  rewrite append_cons. simpl. exact IH.
Qed.

Lemma slice_to_append (a b : string) : slice_to (a +:+ b) (len a) = Normal a.
Proof.
  unfold slice_to. rewrite len_append.
  pose proof (len_nonneg a); pose proof (len_nonneg b).
  replace ((len a <? 0) || (len a + len b <? len a)) with false
    by (symmetry; apply orb_false_iff; split; apply Z.ltb_ge; lia).
  unfold len. rewrite Nat2Z.id. by rewrite substring_front.
Qed.

Lemma slice_from_append (a b : string) : slice_from (a +:+ b) (len a) = Normal b.
Proof.
  unfold slice_from. rewrite len_append.
  pose proof (len_nonneg a); pose proof (len_nonneg b).
  replace ((len a <? 0) || (len a + len b <? len a)) with false
    by (symmetry; apply orb_false_iff; split; apply Z.ltb_ge; lia).
  unfold len. rewrite Nat2Z.id, length_append.
  replace (String.length a + String.length b - String.length a)%nat
    with (String.length b) by lia.
  by rewrite substring_back.
Qed.

(** A non-empty string is a front part followed by its last byte. *)
Lemma last_byte (s : string) :
  s <> "" -> exists front c, s = front +:+ String c "".
Proof.
  induction s as [|x s IH]; [done | intros _].
  destruct s as [|y s].
  - by exists "", x.
  - destruct IH as (front & c & E); [done |].
    exists (String x front), c. rewrite append_cons. by rewrite <- E.
Qed.

Lemma len_snoc (front : string) (c : ascii) :
  len (front +:+ String c "") - 1 = len front.
Proof. rewrite len_append. unfold len. simpl. lia. Qed.

Lemma slice_to_last (front : string) (c : ascii) :
  slice_to (front +:+ String c "") (len (front +:+ String c "") - 1) = Normal front.
Proof. rewrite len_snoc. apply slice_to_append. Qed.

Lemma slice_from_last (front : string) (c : ascii) :
  slice_from (front +:+ String c "") (len (front +:+ String c "") - 1)
  = Normal (String c "").
Proof. rewrite len_snoc. apply slice_from_append. Qed.

Lemma slice_from_empty : slice_from "" (len "" - 1) = Panic.
Proof. reflexivity. Qed.

Lemma get_append_l (a b : string) (k : nat) :
  (k < String.length a)%nat -> String.get k (a +:+ b) = String.get k a.
Proof.
  revert k. induction a as [|x a IH]; intros k Hk; simpl in Hk; [lia |].
  rewrite append_cons. destruct k; [reflexivity | simpl; apply IH; lia].
Qed.

Lemma get_Some_lt (s : string) (k : nat) (c : ascii) :
  String.get k s = Some c -> (k < String.length s)%nat.
Proof.
  revert k. induction s as [|x s IH]; intros k; simpl; [done |].
  destruct k; [lia |]. intros H. apply IH in H. lia.
Qed.

Lemma get_lt_Some (s : string) (k : nat) :
  (k < String.length s)%nat -> exists c, String.get k s = Some c.
Proof.
  revert k. induction s as [|x s IH]; intros k; simpl; [lia |].
  destruct k; [by exists x | intros H; apply IH; lia].
Qed.

Lemma index_get (s : string) (k : nat) (c : ascii) :
  String.get k s = Some c -> index s (Z.of_nat k) = Normal c.
Proof.
  intros H. pose proof (get_Some_lt _ _ _ H) as Hlt. unfold index, len.
  replace ((Z.of_nat k <? 0) || (Z.of_nat (String.length s) <=? Z.of_nat k))
    with false by (symmetry; apply orb_false_iff; split;
                   [apply Z.ltb_ge | apply Z.leb_gt]; lia).
  by rewrite Nat2Z.id, H.
Qed.

(** ** int32, Atoi and Itoa on the values the package meets *)

Lemma int32_small (z : Z) : - 2 ^ 31 <= z < 2 ^ 31 -> int32 z = z.
Proof. intros H. unfold int32. rewrite Z.mod_small; lia. Qed.

Lemma is_digit_code (c : ascii) : is_digit c = true <-> 48 <= code c <= 57.
Proof. unfold is_digit. rewrite andb_true_iff, !Z.leb_le. tauto. Qed.

Lemma Atoi_digit (c : ascii) :
  is_digit c = true -> Atoi (string_of_byte c) = (code c - 48, None).
Proof.
  all_bytes c; vm_compute; congruence.
Qed.

Lemma Atoi_non_digit (c : ascii) :
  is_digit c = false -> exists v e, Atoi (string_of_byte c) = (v, Some e).
Proof.
  all_bytes c; vm_compute; try congruence;
    intros _; eexists _, _; reflexivity.
Qed.

Lemma Itoa_digit (v : Z) : 0 <= v <= 9 -> Itoa v = decimal_digit v.
Proof.
  intros H. small_cases v; (reflexivity || lia).
Qed.

(** ** The summation loops *)

Lemma bind_Normal {A B : Type} (a : A) (f : A -> go B) : (Normal a ≫= f) = f a.
Proof. reflexivity. Qed.

Lemma bind_Panic {A B : Type} (f : A -> go B) : (Panic ≫= f) = Panic.
Proof. reflexivity. Qed.

Lemma digits_at_step (s : string) (k n : nat) :
  digits_at s k (S n) ->
  (exists c, String.get k s = Some c /\ is_digit c = true) /\ digits_at s (S k) n.
Proof.
  intros H. split; [apply H; lia |]. intros j Hj. apply H. lia.
Qed.

Lemma digit_bounds (s : string) (k : nat) (c : ascii) :
  String.get k s = Some c -> is_digit c = true ->
  digit s k = code c - 48 /\ 0 <= digit s k <= 9.
Proof.
  intros Hc Hd. unfold digit. rewrite Hc. apply is_digit_code in Hd. lia.
Qed.

Lemma sum10_digits (isbn : string) (n k : nat) (sum : Z) :
  (k + n <= 9)%nat -> digits_at isbn k n -> 0 <= sum <= 90 * Z.of_nat k ->
  sum10 n isbn (Z.of_nat k) sum
  = Normal (sum + sumZ (map (fun i => (10 - Z.of_nat i) * digit isbn i) (seq k n)),
            None).
Proof.
  revert k sum. induction n as [|n IH]; intros k sum Hk Hd Hs.
  - simpl. by rewrite Z.add_0_r.
  - apply digits_at_step in Hd as [(c & Hc & Hdc) Hd].
    destruct (digit_bounds _ _ _ Hc Hdc) as [Ev Hv].
    simpl. rewrite (index_get _ _ _ Hc), bind_Normal, (Atoi_digit _ Hdc).
    rewrite <- Ev.
    rewrite (int32_small (10 - Z.of_nat k)) by lia.
    rewrite (int32_small (digit isbn k)) by lia.
    rewrite (int32_small ((10 - Z.of_nat k) * digit isbn k)) by nia.
    rewrite (int32_small (sum + _)) by nia.
    rewrite (int32_small (Z.of_nat k + 1)) by lia.
    replace (Z.of_nat k + 1) with (Z.of_nat (S k)) by lia.
    rewrite IH; [| lia | done | nia].
    do 2 f_equal. lia.
Qed.

Lemma sum13_digits (isbn : string) (n k : nat) (sum : Z) :
  (k + n <= 6)%nat -> digits_at isbn (2 * k) (2 * n) ->
  0 <= sum <= 36 * Z.of_nat k ->
  sum13 n isbn (Z.of_nat (2 * k)) sum
  = Normal (sum + sumZ (map (fun j => digit isbn (2 * j) + 3 * digit isbn (2 * j + 1))
                          (seq k n)),
            None).
Proof.
  revert k sum. induction n as [|n IH]; intros k sum Hk Hd Hs.
  - simpl. by rewrite Z.add_0_r.
  - replace (2 * S n)%nat with (S (S (2 * n))) in Hd by lia.
    apply digits_at_step in Hd as [(c1 & Hc1 & Hd1) Hd].
    apply digits_at_step in Hd as [(c2 & Hc2 & Hd2) Hd].
    destruct (digit_bounds _ _ _ Hc1 Hd1) as [Ev1 Hv1].
    destruct (digit_bounds _ _ _ Hc2 Hd2) as [Ev2 Hv2].
    cbn [sum13].
    rewrite (index_get _ _ _ Hc1), bind_Normal, (Atoi_digit _ Hd1).
    rewrite (int32_small (Z.of_nat (2 * k) + 1)) by lia.
    replace (Z.of_nat (2 * k) + 1) with (Z.of_nat (S (2 * k))) by lia.
    rewrite (index_get _ _ _ Hc2), bind_Normal, (Atoi_digit _ Hd2).
    rewrite <- Ev1, <- Ev2.
    replace (S (2 * k)) with (2 * k + 1)%nat in * by lia.
    rewrite (int32_small (digit isbn (2 * k))) by lia.
    rewrite (int32_small (digit isbn (2 * k + 1))) by lia.
    rewrite (int32_small (3 * _)) by lia.
    rewrite (int32_small (digit isbn (2 * k) + _)) by lia.
    rewrite (int32_small (sum + _)) by lia.
    rewrite (int32_small (Z.of_nat (2 * k) + 2)) by (clear - Hk; lia).
    replace (Z.of_nat (2 * k) + 2) with (Z.of_nat (2 * S k)) by lia.
    rewrite IH; [| lia | | lia].
    + do 2 f_equal. change (seq k (S n)) with (k :: seq (S k) n).
      unfold sumZ. cbn [map fold_right]. lia.
    + replace (2 * S k)%nat with (S (2 * k + 1)) by lia. exact Hd.
Qed.

(** The loops never index out of bounds on a string that is long enough. *)
Lemma sum10_in_bounds (isbn : string) (n k : nat) (sum : Z) :
  (k + n <= 9)%nat -> (k + n <= String.length isbn)%nat ->
  exists r, sum10 n isbn (Z.of_nat k) sum = Normal r.
Proof.
  revert k sum. induction n as [|n IH]; intros k sum Hk Hl.
  - by eexists.
  - destruct (get_lt_Some isbn k) as [c Hc]; [lia |].
    simpl. rewrite (index_get _ _ _ Hc), bind_Normal.
    destruct (is_digit c) eqn:Hd.
    + rewrite (Atoi_digit _ Hd).
      rewrite (int32_small (Z.of_nat k + 1)) by lia.
      replace (Z.of_nat k + 1) with (Z.of_nat (S k)) by lia.
      apply IH; lia.
    + destruct (Atoi_non_digit _ Hd) as (v & e & ->). by eexists.
Qed.

Lemma sum13_in_bounds (isbn : string) (n k : nat) (sum : Z) :
  (k + n <= 6)%nat -> (2 * (k + n) <= String.length isbn)%nat ->
  exists r, sum13 n isbn (Z.of_nat (2 * k)) sum = Normal r.
Proof.
  revert k sum. induction n as [|n IH]; intros k sum Hk Hl.
  - by eexists.
  - destruct (get_lt_Some isbn (2 * k)) as [c1 Hc1]; [lia |].
    destruct (get_lt_Some isbn (S (2 * k))) as [c2 Hc2]; [lia |].
    cbn [sum13]. rewrite (index_get _ _ _ Hc1), bind_Normal.
    destruct (is_digit c1) eqn:Hd1.
    2:{ destruct (Atoi_non_digit _ Hd1) as (v & e & ->). by eexists. }
    rewrite (Atoi_digit _ Hd1).
    rewrite (int32_small (Z.of_nat (2 * k) + 1)) by lia.
    replace (Z.of_nat (2 * k) + 1) with (Z.of_nat (S (2 * k))) by lia.
    rewrite (index_get _ _ _ Hc2), bind_Normal.
    destruct (is_digit c2) eqn:Hd2.
    2:{ destruct (Atoi_non_digit _ Hd2) as (v & e & ->). by eexists. }
    rewrite (Atoi_digit _ Hd2).
    rewrite (int32_small (Z.of_nat (2 * k) + 2)) by lia.
    replace (Z.of_nat (2 * k) + 2) with (Z.of_nat (2 * S k)) by lia.
    apply IH; lia.
Qed.

(** [sum10] stops with the error of [Atoi] at the first byte that is not a
    digit, before it can reach the end of the string. *)
Lemma sum10_stops (isbn : string) (m : nat) (x : ascii) (n k : nat) (sum : Z) :
  String.get m isbn = Some x -> is_digit x = false ->
  (k + n <= 9)%nat -> (k <= m)%nat -> (m < k + n)%nat ->
  exists s e, sum10 n isbn (Z.of_nat k) sum = Normal (s, Some e).
Proof.
  intros Hm Hx. revert k sum. induction n as [|n IH]; intros k sum Hk Hkm Hmn.
  - lia.
  - pose proof (get_Some_lt _ _ _ Hm) as Hlt.
    destruct (get_lt_Some isbn k) as [c Hc]; [lia |].
    simpl. rewrite (index_get _ _ _ Hc), bind_Normal.
    destruct (is_digit c) eqn:Hd.
    + rewrite (Atoi_digit _ Hd).
      rewrite (int32_small (Z.of_nat k + 1)) by lia.
      replace (Z.of_nat k + 1) with (Z.of_nat (S k)) by lia.
      assert (k <> m) by (intros ->; congruence).
      apply IH; lia.
    + destruct (Atoi_non_digit _ Hd) as (v & e & ->). by eexists _, _.
Qed.

(** ** The check digits of digit strings *)

Lemma checksum10_bounds (isbn : string) (n k : nat) :
  (k + n <= 9)%nat -> digits_at isbn k n ->
  0 <= sumZ (map (fun i => (10 - Z.of_nat i) * digit isbn i) (seq k n))
    <= 90 * Z.of_nat n.
Proof.
  revert k. induction n as [|n IH]; intros k Hk Hd; [simpl; lia |].
  apply digits_at_step in Hd as [(c & Hc & Hdc) Hd].
  destruct (digit_bounds _ _ _ Hc Hdc) as [_ Hv].
  specialize (IH (S k) ltac:(lia) Hd).
  change (seq k (S n)) with (k :: seq (S k) n).
  unfold sumZ in *. cbn [map fold_right]. nia.
Qed.

Lemma checksum13_bounds (isbn : string) (n k : nat) :
  digits_at isbn (2 * k) (2 * n) ->
  0 <= sumZ (map (fun j => digit isbn (2 * j) + 3 * digit isbn (2 * j + 1)) (seq k n))
    <= 36 * Z.of_nat n.
Proof.
  revert k. induction n as [|n IH]; intros k Hd; [simpl; lia |].
  replace (2 * S n)%nat with (S (S (2 * n))) in Hd by lia.
  apply digits_at_step in Hd as [(c1 & Hc1 & Hd1) Hd].
  apply digits_at_step in Hd as [(c2 & Hc2 & Hd2) Hd].
  destruct (digit_bounds _ _ _ Hc1 Hd1) as [_ Hv1].
  destruct (digit_bounds _ _ _ Hc2 Hd2) as [_ Hv2].
  replace (S (2 * k)) with (2 * k + 1)%nat in * by lia.
  replace (S (2 * k + 1)) with (2 * S k)%nat in Hd by lia.
  specialize (IH (S k) Hd).
  change (seq k (S n)) with (k :: seq (S k) n).
  unfold sumZ in *. cbn [map fold_right]. lia.
Qed.

Lemma spec_check10_range (isbn : string) : 0 <= spec_check10 isbn <= 10.
Proof.
  unfold spec_check10.
  pose proof (Z.mod_pos_bound (11 - spec_checksum10 isbn mod 11) 11). lia.
Qed.

Lemma spec_check13_range (isbn : string) : 0 <= spec_check13 isbn <= 9.
Proof.
  unfold spec_check13.
  pose proof (Z.mod_pos_bound (10 - spec_checksum13 isbn mod 10) 10). lia.
Qed.

Lemma CalcCheckDigit10_digits (isbn : string) :
  digits_at isbn 0 9 ->
  CalcCheckDigit10 isbn = Normal (spec_render10 (spec_check10 isbn), None).
Proof.
  intros Hd. unfold CalcCheckDigit10.
  change 0 with (Z.of_nat 0) at 1.
  rewrite sum10_digits by (done || lia). rewrite bind_Normal. cbn beta iota.
  pose proof (checksum10_bounds isbn 9 0 ltac:(lia) Hd) as Hb.
  fold (spec_checksum10 isbn) in *. rewrite Z.add_0_l.
  pose proof (Z.mod_pos_bound (spec_checksum10 isbn) 11 ltac:(lia)) as Hm.
  rewrite (Z.rem_mod_nonneg (spec_checksum10 isbn) 11) by lia.
  rewrite int32_small by lia.
  rewrite Z.rem_mod_nonneg by lia.
  fold (spec_check10 isbn). pose proof (spec_check10_range isbn) as Hr.
  unfold spec_render10. destruct (spec_check10 isbn =? 10) eqn:E; [done |].
  apply Z.eqb_neq in E. rewrite Itoa_digit by lia. done.
Qed.

Lemma CalcCheckDigit13_digits (isbn : string) :
  digits_at isbn 0 12 ->
  CalcCheckDigit13 isbn = Normal (decimal_digit (spec_check13 isbn), None).
Proof.
  intros Hd. unfold CalcCheckDigit13.
  change 0 with (Z.of_nat (2 * 0)) at 1.
  rewrite sum13_digits by (done || lia). rewrite bind_Normal. cbn beta iota.
  pose proof (checksum13_bounds isbn 6 0 Hd) as Hb.
  fold (spec_checksum13 isbn) in *. rewrite Z.add_0_l.
  pose proof (Z.mod_pos_bound (spec_checksum13 isbn) 10 ltac:(lia)) as Hm.
  rewrite (Z.rem_mod_nonneg (spec_checksum13 isbn) 10) by lia.
  rewrite int32_small by lia.
  rewrite Z.rem_mod_nonneg by lia.
  fold (spec_check13 isbn). pose proof (spec_check13_range isbn) as Hr.
  by rewrite Itoa_digit by lia.
Qed.

(** The check digits depend on the leading digits only. *)
Lemma digit_append_l (a b : string) (k : nat) :
  (k < String.length a)%nat -> digit (a +:+ b) k = digit a k.
Proof. intros H. unfold digit. by rewrite get_append_l. Qed.

Lemma all_digits_cons (c : ascii) (s : string) :
  all_digits (String c s) <-> is_digit c = true /\ all_digits s.
Proof.
  unfold all_digits. simpl. rewrite orb_false_iff, negb_false_iff. tauto.
Qed.

Lemma all_digits_append (a b : string) :
  all_digits (a +:+ b) <-> all_digits a /\ all_digits b.
Proof.
  induction a as [|x a IH].
  - rewrite append_nil_l. unfold all_digits at 2. simpl. tauto.
  - rewrite append_cons, !all_digits_cons, IH. tauto.
Qed.

Lemma all_digits_get (s : string) (k : nat) :
  all_digits s -> (k < String.length s)%nat ->
  exists c, String.get k s = Some c /\ is_digit c = true.
Proof.
  revert k. induction s as [|x s IH]; intros k Hs Hk; simpl in Hk; [lia |].
  apply all_digits_cons in Hs as [Hx Hs].
  destruct k; [by exists x |]. simpl. apply IH; [done | lia].
Qed.

Lemma digits_at_front (body rest : string) (n : nat) :
  all_digits body -> (n <= String.length body)%nat ->
  digits_at (body +:+ rest) 0 n.
Proof.
  intros Hb Hn j Hj. rewrite get_append_l by lia.
  apply all_digits_get; [done | lia].
Qed.

(** ** Normalisation *)

Lemma digit_is_clean (c : ascii) :
  is_digit c = true \/ c = "X"%char ->
  upper c = c /\ is_space_or_hyphen c = false.
Proof.
  intros [H | ->]; [| by vm_compute].
  revert H. all_bytes c; vm_compute; (done || congruence).
Qed.

Lemma stripISBN_cons (c : ascii) (s : string) :
  stripISBN (String c s)
  = if is_space_or_hyphen (upper c) then stripISBN s
    else String (upper c) (stripISBN s).
Proof. reflexivity. Qed.

Lemma stripISBN_append (a b : string) :
  stripISBN (a +:+ b) = stripISBN a +:+ stripISBN b.
Proof.
  induction a as [|x a IH]; [reflexivity |].
  rewrite append_cons, !stripISBN_cons, IH.
  by destruct (is_space_or_hyphen (upper x)).
Qed.

Lemma stripISBN_clean_byte (c : ascii) :
  is_digit c = true \/ c = "X"%char -> stripISBN (String c "") = String c "".
Proof.
  intros H. destruct (digit_is_clean c H) as [Hu Hs].
  by rewrite stripISBN_cons, Hu, Hs.
Qed.

Lemma stripISBN_digits (s : string) : all_digits s -> stripISBN s = s.
Proof.
  induction s as [|c s IH]; intros H; [reflexivity |].
  apply all_digits_cons in H as [Hc Hs].
  destruct (digit_is_clean c (or_introl Hc)) as [Hu Hsp].
  by rewrite stripISBN_cons, Hu, Hsp, IH.
Qed.

Lemma stripISBN_normalized (isbn : string) : normalized isbn -> stripISBN isbn = isbn.
Proof.
  intros (body & c & -> & Hb & Hc).
  by rewrite stripISBN_append, stripISBN_digits, stripISBN_clean_byte.
Qed.

Lemma upper_idem (c : ascii) :
  upper (upper c) = upper c.
Proof. all_bytes c; by vm_compute. Qed.

Lemma stripISBN_idem (s : string) : stripISBN (stripISBN s) = stripISBN s.
Proof.
  induction s as [|c s IH]; [reflexivity |].
  rewrite stripISBN_cons. destruct (is_space_or_hyphen (upper c)) eqn:E; [done |].
  by rewrite stripISBN_cons, upper_idem, E, IH.
Qed.

(** ** The structural checks *)

Lemma chkLength_ok (isbn : string) :
  len isbn = 10 \/ len isbn = 13 -> chkLength isbn = (true, None).
Proof. unfold chkLength. intros [-> | ->]; reflexivity. Qed.

Lemma chkLength_err (isbn : string) :
  len isbn <> 10 -> len isbn <> 13 -> chkLength isbn = (false, Some errLength).
Proof.
  intros H1 H2. unfold chkLength.
  apply Z.eqb_neq in H1, H2. by rewrite H1, H2.
Qed.

Lemma chkLength_cases (isbn : string) :
  (chkLength isbn = (true, None) /\ (len isbn = 10 \/ len isbn = 13))
  \/ (chkLength isbn = (false, Some errLength) /\ len isbn <> 10 /\ len isbn <> 13).
Proof.
  destruct (decide (len isbn = 10)) as [H | H1].
  { left. split; [apply chkLength_ok |]; tauto. }
  destruct (decide (len isbn = 13)) as [H | H2].
  { left. split; [apply chkLength_ok |]; tauto. }
  right. split; [by apply chkLength_err | done].
Qed.

Lemma match_non_digit_X_byte (c : ascii) :
  match_non_digit_X (String c "") = false <-> is_digit c = true \/ c = "X"%char.
Proof.
  simpl. rewrite orb_false_r, negb_false_iff, orb_true_iff.
  split; (intros [H | H]; [by left | right]).
  - apply Z.eqb_eq in H. unfold code in H.
    rewrite <- (ascii_N_embedding c). change "X"%char with (ascii_of_N 88).
    f_equal. lia.
  - by subst.
Qed.

(** [chkCharacters] on a string with a last byte: it never panics, and it
    passes exactly on the strings in normal form. *)
Lemma chkCharacters_snoc (body : string) (c : ascii) :
  chkCharacters (body +:+ String c "")
  = Normal (if match_non_digit body then (false, Some errCharacter)
            else if match_non_digit_X (String c "") then (false, Some errCheckCharacter)
            else (true, None)).
Proof.
  unfold chkCharacters. rewrite slice_to_last, bind_Normal, slice_from_last, bind_Normal.
  by repeat case_match.
Qed.

Lemma chkCharacters_normalized (isbn : string) :
  normalized isbn -> chkCharacters isbn = Normal (true, None).
Proof.
  intros (body & c & -> & Hb & Hc). rewrite chkCharacters_snoc.
  unfold all_digits in Hb. rewrite Hb.
  apply match_non_digit_X_byte in Hc. by rewrite Hc.
Qed.

Lemma chkCharacters_pass (isbn : string) :
  isbn <> "" -> chkCharacters isbn = Normal (true, None) -> normalized isbn.
Proof.
  intros Hne H. destruct (last_byte isbn Hne) as (body & c & ->).
  rewrite chkCharacters_snoc in H. exists body, c. split; [done |].
  destruct (match_non_digit body) eqn:Hb; [done |].
  destruct (match_non_digit_X (String c "")) eqn:Hc; [done |].
  split; [done | by apply match_non_digit_X_byte].
Qed.

Lemma normalized_digits_at (isbn : string) (n : nat) :
  normalized isbn -> (Z.of_nat n < len isbn) -> digits_at isbn 0 n.
Proof.
  intros (body & c & -> & Hb & _) Hn. apply digits_at_front; [done |].
  rewrite len_append in Hn. unfold len in Hn. simpl in Hn. lia.
Qed.

Lemma CalcCheckDigit_normalized (isbn : string) :
  normalized isbn ->
  (len isbn = 10 ->
   CalcCheckDigit isbn = Normal (spec_render10 (spec_check10 isbn), None))
  /\ (len isbn = 13 ->
      CalcCheckDigit isbn = Normal (decimal_digit (spec_check13 isbn), None)).
Proof.
  intros Hn. split; intros Hl; unfold CalcCheckDigit;
    rewrite (stripISBN_normalized _ Hn), chkLength_ok by tauto;
    rewrite (chkCharacters_normalized _ Hn), bind_Normal; cbn beta iota;
    rewrite Hl; cbn [Z.eqb Pos.eqb].
  - apply CalcCheckDigit10_digits. apply normalized_digits_at; [done | lia].
  - apply CalcCheckDigit13_digits. apply normalized_digits_at; [done | lia].
Qed.

(** ** No panic in the check-digit functions *)

Lemma CalcCheckDigit10_in_bounds (isbn : string) :
  (9 <= String.length isbn)%nat -> exists r, CalcCheckDigit10 isbn = Normal r.
Proof.
  intros H. unfold CalcCheckDigit10.
  destruct (sum10_in_bounds isbn 9 0 0) as [[s e] E]; [lia | lia |].
  change (Z.of_nat 0) with 0 in E. rewrite E, bind_Normal.
  destruct e; by eexists.
Qed.

Lemma CalcCheckDigit13_in_bounds (isbn : string) :
  (12 <= String.length isbn)%nat -> exists r, CalcCheckDigit13 isbn = Normal r.
Proof.
  intros H. unfold CalcCheckDigit13.
  destruct (sum13_in_bounds isbn 6 0 0) as [[s e] E]; [lia | lia |].
  change (Z.of_nat (2 * 0)) with 0 in E. rewrite E, bind_Normal.
  destruct e; by eexists.
Qed.

Lemma get_append_r (a b : string) (k : nat) :
  String.get (String.length a + k) (a +:+ b) = String.get k b.
Proof.
  induction a as [|x a IH]; [reflexivity |]. rewrite append_cons. exact IH.
Qed.

(** On fewer than nine digits followed by [X], [CalcCheckDigit10] returns
    the empty digit with the error of [Atoi] at the [X]. *)
Lemma CalcCheckDigit10_short (body rest : string) :
  (String.length body < 9)%nat ->
  exists e, CalcCheckDigit10 (body +:+ String "X" rest) = Normal ("", Some e).
Proof.
  intros H. unfold CalcCheckDigit10.
  destruct (sum10_stops (body +:+ String "X" rest) (String.length body) "X" 9 0 0)
    as (s & e & E); [| done | lia | lia | lia |].
  { rewrite <- (Nat.add_0_r (String.length body)). by rewrite get_append_r. }
  change (Z.of_nat 0) with 0 in E. rewrite E, bind_Normal. by eexists.
Qed.

Lemma CalcCheckDigit10_X (body : string) :
  exists r, CalcCheckDigit10 (body +:+ "X") = Normal r.
Proof.
  destruct (decide (String.length body < 9)%nat) as [H | H].
  - destruct (CalcCheckDigit10_short body "" H) as [e E]. by eexists.
  - apply CalcCheckDigit10_in_bounds. rewrite length_append. lia.
Qed.

(** ** chkCheckDigit on strings in normal form *)

(** The check digit the package computes for a string in normal form. *)
Lemma CalcCheckDigit1x_normalized (isbn : string) :
  normalized isbn ->
  (len isbn = 10 ->
   CalcCheckDigit10 isbn = Normal (spec_render10 (spec_check10 isbn), None))
  /\ (len isbn = 13 ->
      CalcCheckDigit13 isbn = Normal (decimal_digit (spec_check13 isbn), None)).
Proof.
  intros Hn. split; intros Hl.
  - apply CalcCheckDigit10_digits. apply normalized_digits_at; [done | lia].
  - apply CalcCheckDigit13_digits. apply normalized_digits_at; [done | lia].
Qed.

Lemma chkCheckDigit_snoc (body : string) (c : ascii) (isbn : string) :
  isbn = body +:+ String c "" ->
  normalized isbn -> len isbn = 10 \/ len isbn = 13 ->
  chkCheckDigit isbn
  = Normal (if decide (expected_check_digit isbn = String c "")
            then (true, None) else (false, Some errCheckDigit)).
Proof.
  intros E Hn Hl. unfold chkCheckDigit.
  assert (slice_from isbn (len isbn - 1) = Normal (String c "")) as ->
    by (subst isbn; apply slice_from_last).
  rewrite bind_Normal, chkLength_ok by done.
  destruct (CalcCheckDigit1x_normalized isbn Hn) as [H10 H13].
  unfold expected_check_digit.
  destruct Hl as [Hl | Hl]; rewrite Hl; cbn [Z.eqb Pos.eqb].
  - rewrite (H10 Hl), bind_Normal. by case_decide.
  - rewrite (H13 Hl), bind_Normal. by case_decide.
Qed.

(** ** The inner loop over the ranges *)

Lemma set_Registrant_idem (v : string) (x : ISBN) :
  set_Registrant v (set_Registrant v x) = set_Registrant v x.
Proof. reflexivity. Qed.

Lemma scan_ranges_spec (reg : string) (chk : Z) (ranges : list rng) (x : ISBN) :
  scan_ranges reg chk ranges x
  = if existsb (in_range reg chk) ranges then set_Registrant reg x else x.
Proof.
  unfold scan_ranges. revert x.
  induction ranges as [|rg ranges IH]; intros x; [reflexivity |].
  cbn [fold_left existsb]. rewrite IH.
  destruct (in_range reg chk rg); [| reflexivity].
  cbn [orb]. by destruct (existsb _ ranges).
Qed.

Lemma append_not_empty (buf : string) (d : ascii) : append buf d <> "".
Proof. unfold append. by destruct buf. Qed.

(** ** The digit loop keeps the buffers and the fields in step *)

Section DigitLoop.

Context (rmd : rangeData).

Lemma step_phase (p0 done : string) (st st' : locals) (d : ascii) :
  phase p0 done st -> step rmd st d = inl st' -> phase p0 (append done d) st'.
Proof.
  intros Hph Hstep. unfold step in Hstep.
  destruct Hph as [Hp0 HP HG HR HPub Hpfx Hgrp Hreg Hpub
                  | HP HPne HG HR HPub Hdone Hreg Hpub
                  | HP HPne HG HGne HR HPub Hdone Hpub
                  | HP HPne HG HGne HR HRne HPub Hdone].
  - rewrite decide_True in Hstep by done.
    destruct (rmd !! append (pfx st) d) eqn:E; inversion Hstep; subst st'; clear Hstep.
    + apply resolving_group; cbn; try done.
      * by rewrite Hp0.
      * apply append_not_empty.
      * by rewrite Hgrp, append_nil_r, Hpfx.
    + apply resolving_prefix; cbn; try done. by rewrite Hpfx.
  - rewrite decide_False, decide_True in Hstep by done.
    destruct (lookup_group rmd (Prefix (ret st)) (append (grp st) d)) eqn:E;
      inversion Hstep; subst st'; clear Hstep.
    + apply resolving_registrant; cbn; try done.
      * apply append_not_empty.
      * rewrite Hreg, append_nil_r. unfold append. by rewrite <- append_assoc, Hdone.
    + apply resolving_group; cbn; try done.
      unfold append. by rewrite <- append_assoc, Hdone.
  - rewrite decide_False in Hstep by done.
    rewrite decide_False in Hstep by (rewrite HG; done).
    rewrite decide_True in Hstep by done.
    destruct (Atoi (append (reg st) d)) as [chk [e |]] eqn:E; [done |].
    inversion Hstep; subst st'; clear Hstep.
    rewrite scan_ranges_spec.
    destruct (existsb _ _).
    + apply filling_publication; cbn; try done.
      * apply append_not_empty.
      * by rewrite HPub, Hpub.
      * rewrite Hpub, append_nil_r. unfold append.
        by rewrite <- Hdone, !append_assoc.
    + apply resolving_registrant; cbn; try done.
      unfold append. by rewrite <- Hdone, !append_assoc.
  - rewrite decide_False in Hstep by done.
    rewrite decide_False in Hstep by (rewrite HG; done).
    rewrite decide_False in Hstep by (rewrite HR; done).
    inversion Hstep; subst st'; clear Hstep.
    apply filling_publication; cbn; try done.
    unfold append. by rewrite <- Hdone, !append_assoc.
Qed.

Lemma scan_phase (p0 : string) (l done : string) (st st' : locals) :
  phase p0 done st -> scan rmd l st = inl st' -> phase p0 (done +:+ l) st'.
Proof.
  revert done st. induction l as [|d l IH]; intros done st Hph Hscan.
  - simpl in Hscan. inversion Hscan; subst. by rewrite append_nil_r.
  - simpl in Hscan. destruct (step rmd st d) as [st1 |] eqn:E; [| done].
    replace (done +:+ String d l) with (append done d +:+ l)
      by (unfold append; by rewrite append_assoc).
    eapply IH; [| exact Hscan]. by eapply step_phase.
Qed.

Lemma start_phase (isbn : string) :
  phase (if len isbn =? 10 then p978 else "") "" (start isbn).
Proof.
  unfold start. destruct (len isbn =? 10).
  - by apply resolving_group.
  - by apply resolving_prefix.
Qed.

(** What the phase says about the four fields: they spell an initial
    segment of the digits, the whole of them once the registrant has
    resolved; until then the publication is empty. *)
Lemma phase_fields (p0 done : string) (st : locals) :
  phase p0 done st ->
  exists rest,
    p0 +:+ done = fields (ret st) +:+ rest
    /\ (Registrant (ret st) <> "" -> rest = "")
    /\ (Registrant (ret st) = "" -> Publication (ret st) = "").
Proof.
  unfold fields.
  intros [Hp0 HP HG HR HPub Hpfx Hgrp Hreg Hpub
         | HP HPne HG HR HPub Hdone Hreg Hpub
         | HP HPne HG HGne HR HPub Hdone Hpub
         | HP HPne HG HGne HR HRne HPub Hdone].
  - exists done. rewrite HP, HG, HR, HPub, Hp0. by repeat split.
  - exists (grp st). rewrite HP, HG, HR, HPub, <- Hdone, !append_nil_l, !append_assoc.
    by repeat split.
  - exists (reg st). rewrite HP, HG, HR, HPub, <- Hdone, !append_nil_l, !append_assoc.
    by repeat split.
  - exists "". rewrite HP, HG, HR, HPub, <- Hdone, !append_assoc, append_nil_r.
    by repeat split.
Qed.

(** ** The loop never leaves early on digits

    [strconv.Atoi] cannot fail on the registrant buffer: it holds decimal
    digits only, at most twelve of them. *)

Lemma digits_value_bounds (s : string) (acc : Z) :
  all_digits s -> 0 <= acc ->
  exists n, digits_value s acc = Some n
            /\ 0 <= n < (acc + 1) * 10 ^ Z.of_nat (String.length s).
Proof.
  revert acc. induction s as [|c s IH]; intros acc Hs Hacc.
  - exists acc. split; [reflexivity | simpl; lia].
  - apply all_digits_cons in Hs as [Hc Hs]. simpl digits_value. rewrite Hc.
    pose proof (proj1 (is_digit_code c) Hc) as Hcode.
    destruct (IH (acc * 10 + (code c - 48)) Hs ltac:(lia)) as (n & -> & Hn).
    exists n. split; [reflexivity |].
    cbn [String.length]. rewrite Nat2Z.inj_succ, Z.pow_succ_r by lia.
    assert (0 < 10 ^ Z.of_nat (String.length s)) by (apply Z.pow_pos_nonneg; lia).
    nia.
Qed.

Lemma Atoi_digits (s : string) :
  all_digits s -> s <> "" -> (String.length s <= 18)%nat ->
  exists v, Atoi s = (v, None).
Proof.
  intros Hs Hne Hlen. destruct s as [|c t]; [done |].
  destruct (digits_value_bounds _ 0 Hs ltac:(lia)) as (n & Hn & Hb).
  assert (10 ^ Z.of_nat (String.length (String c t)) <= 10 ^ 18) as Hpow
    by (apply Z.pow_le_mono_r; lia).
  assert (n < 2 ^ 63 - 1) as Hmax by (change (10 ^ 18) with 1000000000000000000 in Hpow; lia).
  apply all_digits_cons in Hs as [Hc _].
  assert (Atoi (String c t)
          = if decide (String c t = "") then (0, Some (NumError "Atoi" (String c t) ErrSyntax))
            else match digits_value (String c t) 0 with
                 | None => (0, Some (NumError "Atoi" (String c t) ErrSyntax))
                 | Some n =>
                     if n <? - 2 ^ 63
                     then (- 2 ^ 63, Some (NumError "Atoi" (String c t) ErrRange))
                     else if 2 ^ 63 - 1 <? n
                          then (2 ^ 63 - 1, Some (NumError "Atoi" (String c t) ErrRange))
                          else (n, None)
                 end) as ->.
  { revert Hc. clear. all_bytes c; (discriminate || reflexivity). }
  rewrite decide_False, Hn by done.
  replace (n <? - 2 ^ 63) with false by (symmetry; apply Z.ltb_ge; lia).
  replace (2 ^ 63 - 1 <? n) with false by (symmetry; apply Z.ltb_ge; lia).
  by exists n.
Qed.

Lemma step_digits (p0 done : string) (st : locals) (d : ascii) :
  phase p0 done st -> all_digits (append done d) ->
  (String.length done < 18)%nat ->
  exists st', step rmd st d = inl st'.
Proof.
  intros Hph Hd Hlen. unfold step.
  destruct Hph as [Hp0 HP HG HR HPub Hpfx Hgrp Hreg Hpub
                  | HP HPne HG HR HPub Hdone Hreg Hpub
                  | HP HPne HG HGne HR HPub Hdone Hpub
                  | HP HPne HG HGne HR HRne HPub Hdone].
  - rewrite decide_True by done. case_match; by eexists.
  - rewrite decide_False, decide_True by done. case_match; by eexists.
  - rewrite decide_False by done. rewrite decide_False by (by rewrite HG).
    rewrite decide_True by done.
    destruct (Atoi_digits (append (reg st) d)) as [v ->]; [| | | by eexists].
    + unfold append in *. rewrite <- Hdone, !append_assoc in Hd.
      by do 2 (apply all_digits_append in Hd as [_ Hd]).
    + apply append_not_empty.
    + unfold append. rewrite <- Hdone, !length_append in Hlen.
      rewrite length_append. simpl. lia.
  - rewrite decide_False by done. rewrite decide_False by (by rewrite HG).
    rewrite decide_False by (by rewrite HR). by eexists.
Qed.

Lemma scan_digits (p0 l done : string) (st : locals) :
  phase p0 done st -> all_digits (done +:+ l) ->
  (String.length (done +:+ l) <= 18)%nat ->
  exists st', scan rmd l st = inl st'.
Proof.
  revert done st. induction l as [|d l IH]; intros done st Hph Hd Hlen.
  - by eexists.
  - replace (done +:+ String d l) with (append done d +:+ l) in Hd, Hlen
      by (unfold append; by rewrite append_assoc).
    destruct (step_digits p0 done st d Hph) as [st1 Hst1].
    + by apply all_digits_append in Hd as [Hd _].
    + unfold append in Hlen. rewrite !length_append in Hlen. simpl in Hlen. lia.
    + simpl. rewrite Hst1. eapply IH; [| done..]. by eapply step_phase.
Qed.

End DigitLoop.

(** ** ParseISBN, case by case *)

Lemma finish_total (isbn : string) (x : ISBN) :
  exists y, finish isbn x = Normal (y, None).
Proof.
  unfold finish.
  destruct (len isbn =? 10) eqn:E10; [| destruct (len isbn =? 13) eqn:E13].
  - apply Z.eqb_eq in E10.
    destruct (last_byte isbn) as (body & c & E); [by intros -> |].
    assert (slice_from isbn (len isbn - 1) = Normal (String c "")) as ->
      by (subst isbn; apply slice_from_last).
    rewrite bind_Normal.
    destruct (CalcCheckDigit10_in_bounds isbn) as [[chk e] ->];
      [unfold len in E10; lia |].
    rewrite bind_Normal. cbn beta iota. destruct (IsValid _); [| by eexists].
    destruct (CalcCheckDigit13_in_bounds (p978 +:+ isbn)) as [[cd13 e'] ->].
    { rewrite length_append. unfold len in E10. simpl. lia. }
    rewrite bind_Normal. by eexists.
  - apply Z.eqb_eq in E13.
    destruct (last_byte isbn) as (body & c & E); [by intros -> |].
    assert (slice_from isbn (len isbn - 1) = Normal (String c "")) as ->
      by (subst isbn; apply slice_from_last).
    rewrite bind_Normal.
    destruct (CalcCheckDigit13_in_bounds isbn) as [[chk e] ->];
      [unfold len in E13; lia |].
    rewrite bind_Normal. cbn beta iota.
    destruct (_ && _); [| by eexists].
    match goal with
    | |- context [CalcCheckDigit10 ?s] =>
        replace s with ((RegistrationGroup x +:+ Registrant x +:+ Publication x) +:+ "X")
          by (by rewrite !append_assoc)
    end.
    destruct (CalcCheckDigit10_X (RegistrationGroup x +:+ Registrant x +:+ Publication x))
      as [[cd10 e'] ->].
    rewrite bind_Normal. by eexists.
  - by eexists.
Qed.

Lemma parse_stripped_cases (rmd : rangeData) (isbn : string) :
  (len isbn <> 10 /\ len isbn <> 13
   /\ parse_stripped rmd isbn = Normal (zeroISBN, Some errLength))
  \/ ((len isbn = 10 \/ len isbn = 13)
      /\ exists body c,
          isbn = body +:+ String c ""
          /\ ((match_non_digit body = true
               /\ parse_stripped rmd isbn = Normal (zeroISBN, Some errCharacter))
              \/ (match_non_digit body = false
                  /\ match_non_digit_X (String c "") = true
                  /\ parse_stripped rmd isbn = Normal (zeroISBN, Some errCheckCharacter))
              \/ (normalized isbn
                  /\ expected_check_digit isbn <> String c ""
                  /\ parse_stripped rmd isbn = Normal (zeroISBN, Some errCheckDigit))
              \/ (normalized isbn
                  /\ expected_check_digit isbn = String c ""
                  /\ HasRangeData rmd = false
                  /\ parse_stripped rmd isbn = Normal (zeroISBN, Some errNoRangeData))
              \/ (normalized isbn
                  /\ expected_check_digit isbn = String c ""
                  /\ HasRangeData rmd = true
                  /\ parse_stripped rmd isbn
                     = match scan rmd body (start isbn) with
                       | inr (x, err) => Normal (x, Some err)
                       | inl st => finish isbn (ret st)
                       end))).
Proof.
  unfold parse_stripped.
  destruct (chkLength_cases isbn) as [[-> Hl] | (-> & H1 & H2)]; [right | by left].
  split; [done |].
  destruct (last_byte isbn) as (body & c & E).
  { intros ->. by destruct Hl. }
  exists body, c. split; [done |].
  assert (chkCharacters isbn = _) as -> by (rewrite E; apply chkCharacters_snoc).
  rewrite bind_Normal.
  destruct (match_non_digit body) eqn:Hb; [by left |]. right.
  destruct (match_non_digit_X (String c "")) eqn:Hc; [by left |]. right.
  assert (normalized isbn) as Hn.
  { exists body, c. repeat split; [done.. |]. by apply match_non_digit_X_byte. }
  rewrite (chkCheckDigit_snoc body c isbn E Hn Hl), bind_Normal.
  case_decide as Hd; [right | by left].
  destruct (HasRangeData rmd) eqn:Hr; [right | by left].
  repeat split; [done.. |]. cbn [negb].
  assert (slice_to isbn (len isbn - 1) = Normal body) as ->
    by (subst isbn; apply slice_to_last).
  by rewrite bind_Normal.
Qed.

Lemma parse_stripped_total (rmd : rangeData) (isbn : string) :
  exists r, parse_stripped rmd isbn = Normal r.
Proof.
  destruct (parse_stripped_cases rmd isbn)
    as [(_ & _ & ->)
       | (_ & body & c & _ &
          [(_ & ->) | [(_ & _ & ->) | [(_ & _ & ->) | [(_ & _ & _ & ->)
          | (_ & _ & _ & ->)]]]])]; try by eexists.
  destruct (scan rmd body (start isbn)) as [st | [x e]]; [| by eexists].
  destruct (finish_total isbn (ret st)) as [y ->]. by eexists.
Qed.

(** An accepted input: what the parse went through. *)
Lemma parse_stripped_accepted (rmd : rangeData) (isbn : string) (x : ISBN) :
  parse_stripped rmd isbn = Normal (x, None) ->
  (len isbn = 10 \/ len isbn = 13)
  /\ exists body c st,
      isbn = body +:+ String c "" /\ normalized isbn
      /\ expected_check_digit isbn = String c ""
      /\ HasRangeData rmd = true
      /\ scan rmd body (start isbn) = inl st
      /\ finish isbn (ret st) = Normal (x, None).
Proof.
  intros H.
  destruct (parse_stripped_cases rmd isbn)
    as [(_ & _ & E)
       | (Hl & body & c & Hi &
          [(_ & E) | [(_ & _ & E) | [(_ & _ & E) | [(_ & _ & _ & E)
          | (Hn & Hd & Hr & E)]]]])]; rewrite E in H; try done.
  split; [done |]. exists body, c.
  destruct (scan rmd body (start isbn)) as [st | [y e]]; [| done].
  by exists st.
Qed.

(** ** The last part of ParseISBN on an accepted input *)

Lemma finish_13 (isbn body : string) (c : ascii) (x y : ISBN) :
  isbn = body +:+ String c "" -> normalized isbn -> len isbn = 13 ->
  expected_check_digit isbn = String c "" ->
  finish isbn x = Normal (y, None) ->
  same_elements x y /\ IsValid y = true /\ CheckDigit13 y = String c ""
  /\ (Prefix x = p978 ->
      exists e, CalcCheckDigit10 (RegistrationGroup x +:+ Registrant x
                                  +:+ Publication x +:+ "X")
                = Normal (CheckDigit10 y, e))
  /\ (Prefix x <> p978 -> CheckDigit10 y = CheckDigit10 x).
Proof.
  intros E Hn Hl Hd. unfold finish.
  assert (slice_from isbn (len isbn - 1) = Normal (String c "")) as ->
    by (subst isbn; apply slice_from_last).
  rewrite Hl. cbn [Z.eqb Pos.eqb]. rewrite bind_Normal.
  destruct (CalcCheckDigit1x_normalized isbn Hn) as [_ ->]; [| done].
  rewrite bind_Normal. cbn beta iota.
  unfold expected_check_digit in Hd. rewrite Hl in Hd. cbn [Z.eqb Pos.eqb] in Hd.
  rewrite Hd. cbn [CheckDigit13 set_CheckDigit13 set_IsValid IsValid Prefix].
  rewrite bool_decide_eq_true_2 by done. cbn [andb].
  cbn [RegistrationGroup Registrant Publication].
  destruct (decide (Prefix x = p978)) as [HP | HP].
  - rewrite bool_decide_eq_true_2 by done.
    destruct (CalcCheckDigit10 _) as [[cd10 e] |] eqn:E10; [| done].
    rewrite bind_Normal. intros [= <-]. cbn. unfold same_elements.
    repeat split; try done. intros _. by exists e.
  - rewrite bool_decide_eq_false_2 by done.
    intros [= <-]. cbn. unfold same_elements. by repeat split.
Qed.

Lemma digits_at_978 (isbn : string) :
  normalized isbn -> len isbn = 10 -> digits_at (p978 +:+ isbn) 0 12.
Proof.
  intros (body & c & -> & Hb & _) Hl.
  rewrite <- append_assoc. apply digits_at_front.
  - apply all_digits_append. split; [reflexivity | done].
  - rewrite len_append in Hl. unfold len in Hl. simpl in Hl.
    rewrite length_append. simpl. lia.
Qed.

Lemma finish_10 (isbn body : string) (c : ascii) (x y : ISBN) :
  isbn = body +:+ String c "" -> normalized isbn -> len isbn = 10 ->
  expected_check_digit isbn = String c "" ->
  finish isbn x = Normal (y, None) ->
  same_elements x y /\ IsValid y = true /\ CheckDigit10 y = String c ""
  /\ CheckDigit13 y = decimal_digit (spec_check13 (p978 +:+ isbn)).
Proof.
  intros E Hn Hl Hd. unfold finish.
  assert (slice_from isbn (len isbn - 1) = Normal (String c "")) as ->
    by (subst isbn; apply slice_from_last).
  rewrite Hl. cbn [Z.eqb Pos.eqb]. rewrite bind_Normal.
  destruct (CalcCheckDigit1x_normalized isbn Hn) as [-> _]; [| done].
  rewrite bind_Normal. cbn beta iota.
  unfold expected_check_digit in Hd. rewrite Hl in Hd. cbn [Z.eqb Pos.eqb] in Hd.
  rewrite Hd. cbn [CheckDigit10 set_CheckDigit10 set_IsValid IsValid].
  rewrite bool_decide_eq_true_2 by done.
  rewrite (CalcCheckDigit13_digits _ (digits_at_978 isbn Hn Hl)), bind_Normal.
  intros [= <-]. cbn. unfold same_elements. by repeat split.
Qed.

(** ** The check digits read the leading digits only *)

Lemma spec_check10_front (a b b' : string) :
  String.length a = 9%nat -> spec_check10 (a +:+ b) = spec_check10 (a +:+ b').
Proof.
  intros H. unfold spec_check10, spec_checksum10. do 4 f_equal.
  apply map_ext_in. intros i Hi. apply in_seq in Hi.
  by rewrite !digit_append_l by lia.
Qed.

Lemma spec_check13_front (a b b' : string) :
  String.length a = 12%nat -> spec_check13 (a +:+ b) = spec_check13 (a +:+ b').
Proof.
  intros H. unfold spec_check13, spec_checksum13. do 4 f_equal.
  apply map_ext_in. intros i Hi. apply in_seq in Hi.
  by rewrite !digit_append_l by lia.
Qed.

Lemma spec_render10_byte (v : Z) :
  0 <= v <= 10 ->
  exists c, spec_render10 v = String c "" /\ (is_digit c = true \/ c = "X"%char).
Proof.
  intros H.
  small_cases v; eexists; (split; [reflexivity |]); (by left) || (by right).
Qed.

(** ** The loop once the prefix is known *)

Section KnownPrefix.

Context (rmd : rangeData).

Lemma scan_ranges_keeps (reg : string) (chk : Z) (ranges : list rng) (x : ISBN) :
  Prefix (scan_ranges reg chk ranges x) = Prefix x
  /\ RegistrationGroup (scan_ranges reg chk ranges x) = RegistrationGroup x.
Proof. rewrite scan_ranges_spec. by destruct (existsb _ _). Qed.

Lemma step_keeps_prefix (st st' : locals) (d : ascii) :
  Prefix (ret st) <> "" -> step rmd st d = inl st' ->
  Prefix (ret st') = Prefix (ret st).
Proof.
  intros HP. unfold step. rewrite decide_False by done.
  repeat case_decide; repeat case_match; intros [= <-]; cbn; try done.
  apply scan_ranges_keeps.
Qed.

Lemma scan_keeps_prefix (l : string) (st st' : locals) :
  Prefix (ret st) <> "" -> scan rmd l st = inl st' ->
  Prefix (ret st') = Prefix (ret st).
Proof.
  revert st. induction l as [|d l IH]; intros st HP Hscan; simpl in Hscan.
  - by inversion Hscan.
  - destruct (step rmd st d) as [st1 |] eqn:E; [| done].
    pose proof (step_keeps_prefix _ _ _ HP E) as E1.
    rewrite <- E1. apply IH; [by rewrite E1 | done].
Qed.

(** The prefix buffer is neither read nor written once the prefix is set. *)
Lemma step_with_pfx (a : string) (st : locals) (d : ascii) :
  Prefix (ret st) <> "" ->
  step rmd (with_pfx a st) d
  = match step rmd st d with
    | inl st' => inl (with_pfx a st')
    | inr r => inr r
    end.
Proof.
  intros HP. unfold step. cbn [with_pfx ret pfx grp reg pub rs].
  rewrite !(decide_False (P := Prefix (ret st) = "")) by done.
  repeat case_decide; repeat case_match; simplify_eq; reflexivity.
Qed.

Lemma scan_with_pfx (a : string) (l : string) (st : locals) :
  Prefix (ret st) <> "" ->
  scan rmd l (with_pfx a st)
  = match scan rmd l st with
    | inl st' => inl (with_pfx a st')
    | inr r => inr r
    end.
Proof.
  revert st. induction l as [|d l IH]; intros st HP; [reflexivity |].
  simpl. rewrite step_with_pfx by done.
  destruct (step rmd st d) as [st1 |] eqn:E; [| reflexivity].
  apply IH. by rewrite (step_keeps_prefix _ _ _ HP E).
Qed.

(** A 13-digit scan that ends with a prefix has resolved it on an initial
    segment of the digits, and went on from there. *)
Lemma scan_prefix_resolution (l a : string) (st : locals) :
  scan rmd l (mkLocals zeroISBN a "" "" "" registrant.zero) = inl st ->
  Prefix (ret st) <> "" ->
  exists l1 l2,
    l = l1 +:+ l2 /\ Prefix (ret st) = a +:+ l1
    /\ scan rmd l2 (mkLocals (set_Prefix (a +:+ l1) zeroISBN) (a +:+ l1) "" "" ""
                      registrant.zero) = inl st.
Proof.
  revert a. induction l as [|d l IH]; intros a Hscan HP.
  - simpl in Hscan. by inversion Hscan; subst.
  - simpl in Hscan. unfold step in Hscan. cbn [ret pfx grp reg pub rs] in Hscan.
    rewrite decide_True in Hscan by done.
    destruct (rmd !! append a d) eqn:E.
    + exists (String d ""), l. repeat split; [| done].
      apply scan_keeps_prefix in Hscan; [done | apply append_not_empty].
    + destruct (IH _ Hscan HP) as (l1 & l2 & -> & HPx & Hs).
      exists (String d l1), l2. unfold append in HPx, Hs.
      rewrite append_assoc in HPx, Hs. by repeat split.
Qed.

End KnownPrefix.

Lemma snoc_inj (a b : string) (x y : ascii) :
  a +:+ String x "" = b +:+ String y "" -> a = b /\ x = y.
Proof.
  revert b. induction a as [|c a IH]; intros [|c' b] H.
  - by inversion H.
  - rewrite append_cons in H. inversion H as [[E1 E2]]. by destruct b.
  - rewrite append_cons in H. inversion H as [[E1 E2]]. by destruct a.
  - rewrite !append_cons in H. inversion H as [[E1 E2]].
    apply IH in E2 as [-> ->]. done.
Qed.

(** The parse of an input that passes the checks, with a loaded table. *)
Lemma parse_stripped_intro (rmd : rangeData) (isbn body : string) (c : ascii) :
  isbn = body +:+ String c "" -> normalized isbn ->
  len isbn = 10 \/ len isbn = 13 ->
  expected_check_digit isbn = String c "" -> HasRangeData rmd = true ->
  parse_stripped rmd isbn
  = match scan rmd body (start isbn) with
    | inr (x, err) => Normal (x, Some err)
    | inl st => finish isbn (ret st)
    end.
Proof.
  intros E Hn Hl Hd Hr. unfold parse_stripped.
  rewrite chkLength_ok, (chkCharacters_normalized _ Hn), bind_Normal by done.
  rewrite (chkCheckDigit_snoc body c isbn E Hn Hl), bind_Normal.
  rewrite decide_True by done. rewrite Hr. cbn [negb].
  assert (slice_to isbn (len isbn - 1) = Normal body) as ->
    by (subst isbn; apply slice_to_last).
  by rewrite bind_Normal.
Qed.

(** * The elements of an accepted input *)

Lemma same_elements_fields (x y : ISBN) : same_elements x y -> fields y = fields x.
Proof. unfold fields. intros (-> & -> & -> & -> & _). reflexivity. Qed.

(** C1 (as the code has it).  For every input that [ParseISBN] accepts and
    that normalises to 13 bytes, the concatenation
    Prefix + RegistrationGroup + Registrant + Publication is an initial
    segment of the first twelve digits, with no gaps or overlaps; it is all
    twelve digits once the registrant has resolved.  When the registrant
    never resolves, Registrant and Publication are both empty: the digits
    left over appear in no field. *)
Theorem ParseISBN_fields (rmd : rangeData) (isbn : string) (x : ISBN) :
  ParseISBN rmd isbn = Normal (x, None) ->
  len (stripISBN isbn) = 13 ->
  exists rest,
    slice_to (stripISBN isbn) 12 = Normal (fields x +:+ rest)
    /\ (Registrant x <> "" -> rest = "")
    /\ (Registrant x = "" -> Publication x = "").
Proof.
  unfold ParseISBN. set (n := stripISBN isbn). intros Hparse Hl.
  destruct (parse_stripped_accepted _ _ _ Hparse)
    as (_ & body & c & st & E & Hn & Hd & Hr & Hscan & Hfin).
  destruct (finish_13 _ _ _ _ _ E Hn Hl Hd Hfin) as (Hsame & _).
  pose proof (start_phase n) as Hph. rewrite Hl in Hph. cbn [Z.eqb Pos.eqb] in Hph.
  pose proof (scan_phase _ _ _ _ _ _ Hph Hscan) as Hend.
  destruct (phase_fields _ _ _ Hend) as (rest & Hf & Hres & Hunres).
  rewrite !append_nil_l in Hf.
  destruct Hsame as (HP & HG & HR & HPub & HA).
  exists rest. repeat split.
  - replace 12 with (len n - 1) by lia. rewrite E, slice_to_last.
    rewrite Hf. unfold fields. by rewrite HP, HG, HR, HPub.
  - rewrite HR. exact Hres.
  - rewrite HR, HPub. exact Hunres.
Qed.

Lemma ParseISBN_fields_witness :
  exists rest,
    slice_to (stripISBN "978-0822527602") 12
    = Normal (fields (mkISBN "978" "0" "8225" "2760" "English language" "X" "2" true)
              +:+ rest)
    /\ ("8225" <> "" -> rest = "") /\ ("8225" = "" -> "2760" = "").
Proof.
  apply (ParseISBN_fields sample_rmd "978-0822527602"
           (mkISBN "978" "0" "8225" "2760" "English language" "X" "2" true)).
  - vm_compute. reflexivity.
  - vm_compute. reflexivity.
Defined.

(** C1 as stated fails: with the registrant unresolved, Publication does not
    absorb the remaining digits, and the fields stop short of the twelve. *)
Lemma fields_cover_digits_fails :
  ~ fields_cover_digits sample_rmd "9780640000004".
Proof.
  intros H.
  specialize (H (mkISBN "978" "0" "" "" "English language" "" "4" true)
                ltac:(vm_compute; reflexivity) ltac:(vm_compute; reflexivity)).
  vm_compute in H. discriminate H.
Qed.

(** * From ISBN-13 to ISBN-10 and back *)

Lemma normalized_snoc (body : string) (c : ascii) :
  normalized (body +:+ String c "") ->
  all_digits body /\ (is_digit c = true \/ c = "X"%char).
Proof.
  intros (body' & c' & E & Hb & Hc). apply snoc_inj in E as [-> ->]. done.
Qed.

Lemma fields_assoc (x : ISBN) (t : string) :
  Prefix x +:+ RegistrationGroup x +:+ Registrant x +:+ Publication x +:+ t
  = fields x +:+ t.
Proof. unfold fields. by rewrite !append_assoc. Qed.

(** C2 (as the code has it).  For every input [s] that [ParseISBN] accepts,
    that normalises to 13 bytes, whose parsed Prefix is 978 and whose
    registrant has resolved, parsing the ISBN-10 of the result succeeds and
    its ISBN-13 is the normal form of [s] ([s] itself when [s] has neither
    white space nor hyphens). *)
Theorem ISBN10_round_trip (rmd : rangeData) (s : string) (x : ISBN) :
  ParseISBN rmd s = Normal (x, None) ->
  len (stripISBN s) = 13 -> Prefix x = p978 -> Registrant x <> "" ->
  exists y, ParseISBN rmd (ISBN10 x) = Normal (y, None)
            /\ ISBN13 y = stripISBN s.
Proof.
  unfold ParseISBN. set (n := stripISBN s). intros Hparse Hl HPx HRx.
  destruct (parse_stripped_accepted _ _ _ Hparse)
    as (_ & body & c & st & E & Hn & Hd & Hr & Hscan & Hfin).
  destruct (finish_13 _ _ _ _ _ E Hn Hl Hd Hfin)
    as (Hsame & HV & Hcd13 & Hcd10 & _).
  pose proof (same_elements_fields _ _ Hsame) as Hfx.
  destruct Hsame as (HP & HG & HR & HPub & HA).
  rewrite HPx in HP. rewrite HR in HRx.
  (* the loop has consumed all twelve digits *)
  pose proof (start_phase n) as Hph. rewrite Hl in Hph. cbn [Z.eqb Pos.eqb] in Hph.
  pose proof (scan_phase _ _ _ _ _ _ Hph Hscan) as Hend.
  destruct (phase_fields _ _ _ Hend) as (rest & Hf & Hres & _).
  rewrite (Hres HRx), !append_nil_l, append_nil_r in Hf.
  set (d := RegistrationGroup (ret st) +:+ Registrant (ret st) +:+ Publication (ret st)).
  assert (body = p978 +:+ d) as Hbody by (rewrite Hf; unfold fields; by rewrite <- HP).
  assert (all_digits body /\ (is_digit c = true \/ c = "X"%char)) as [Hb Hc]
    by (apply normalized_snoc; by rewrite <- E).
  assert (String.length body = 12%nat) as Hlb.
  { rewrite E, len_append in Hl. unfold len in Hl. simpl in Hl. lia. }
  assert (all_digits d) as Hdd.
  { rewrite Hbody in Hb. apply all_digits_append in Hb. tauto. }
  assert (String.length d = 9%nat) as Hld.
  { rewrite Hbody, length_append in Hlb. simpl in Hlb. lia. }
  (* the ISBN-10 check digit *)
  assert (normalized (d +:+ "X")) as HnX by (exists d, "X"%char; auto).
  assert (len (d +:+ "X") = 10) as HlX by (rewrite len_append; unfold len; simpl; lia).
  destruct (Hcd10 (eq_sym HP)) as [e He].
  replace (RegistrationGroup (ret st) +:+ Registrant (ret st)
           +:+ Publication (ret st) +:+ "X") with (d +:+ "X") in He
    by (unfold d; by rewrite !append_assoc).
  destruct (CalcCheckDigit1x_normalized _ HnX) as [H10 _].
  rewrite (H10 HlX) in He. injection He as Hcd _.
  destruct (spec_render10_byte (spec_check10 (d +:+ "X")) (spec_check10_range _))
    as (c10 & Hc10 & Hok).
  rewrite Hc10 in Hcd.
  (* the input of the second parse *)
  assert (ISBN10 x = d +:+ String c10 "") as ->.
  { unfold ISBN10. rewrite decide_True by done.
    rewrite <- Hcd, HG, HR, HPub. unfold d. by rewrite !append_assoc. }
  set (n10 := d +:+ String c10 "").
  assert (normalized n10) as Hn10 by (exists d, c10; auto).
  assert (len n10 = 10) as Hl10 by (unfold n10; rewrite len_append; unfold len; simpl; lia).
  assert (expected_check_digit n10 = String c10 "") as Hd10.
  { unfold expected_check_digit. rewrite Hl10. cbn [Z.eqb Pos.eqb].
    unfold n10. by rewrite (spec_check10_front d _ "X"). }
  rewrite (stripISBN_normalized _ Hn10).
  rewrite (parse_stripped_intro rmd n10 d c10) by auto.
  (* the second loop repeats the first one after its prefix *)
  assert (start n = mkLocals zeroISBN "" "" "" "" registrant.zero) as Hs13
    by (unfold start; by rewrite Hl).
  rewrite Hs13 in Hscan.
  destruct (scan_prefix_resolution _ _ _ _ Hscan) as (l1 & l2 & Hsplit & Hl1 & Hscan2).
  { rewrite <- HP. done. }
  rewrite !append_nil_l in Hl1, Hscan2. rewrite <- HP in Hl1. subst l1.
  assert (l2 = d) as -> by (apply (inj (String.app p978)); congruence).
  assert (start n10 = with_pfx "" (mkLocals (set_Prefix p978 zeroISBN) p978 "" "" ""
                                     registrant.zero)) as ->
    by (unfold start; by rewrite Hl10).
  rewrite scan_with_pfx, Hscan2 by done.
  cbn [with_pfx ret].
  destruct (finish_total n10 (ret st)) as [y Hy]. exists y. split; [done |].
  destruct (finish_10 _ _ _ _ _ eq_refl Hn10 Hl10 Hd10 Hy)
    as (Hsame' & HV' & _ & Hcd13').
  pose proof (same_elements_fields _ _ Hsame') as Hfy.
  (* the ISBN-13 check digit is that of the first input *)
  assert (CheckDigit13 y = String c "") as Hc13.
  { rewrite Hcd13'. unfold n10. rewrite <- append_assoc, <- Hbody.
    rewrite (spec_check13_front body _ (String c "")) by done.
    rewrite <- E. unfold expected_check_digit in Hd. rewrite Hl in Hd. exact Hd. }
  unfold ISBN13. rewrite HV', fields_assoc, Hfy, Hc13, <- Hf. by rewrite E.
Qed.

Lemma ISBN10_round_trip_witness :
  exists y,
    ParseISBN sample_rmd
      (ISBN10 (mkISBN "978" "88" "912" "3019" "Italy" "7" "5" true))
    = Normal (y, None)
    /\ ISBN13 y = stripISBN "978-8891230195".
Proof.
  apply (ISBN10_round_trip sample_rmd "978-8891230195"
           (mkISBN "978" "88" "912" "3019" "Italy" "7" "5" true)).
  - vm_compute. reflexivity.
  - vm_compute. reflexivity.
  - reflexivity.
  - discriminate.
Defined.

(** C2 as stated fails: with the registrant unresolved the ISBN-10 of the
    result is the bare group, which does not parse. *)
Lemma round_trips_fails : ~ round_trips sample_rmd "9780640000004".
Proof.
  intros H.
  destruct (H (mkISBN "978" "0" "" "" "English language" "" "4" true)
              ltac:(vm_compute; reflexivity) ltac:(vm_compute; reflexivity)
              ltac:(reflexivity)) as (y & e & Hy & E).
  vm_compute in Hy. injection Hy as <- _. discriminate E.
Qed.

(** * Registrant resolution at the bounds of a range *)

Lemma in_range_iff (reg : string) (chk : Z) (rg : rng) :
  len reg = rLen rg ->
  in_range reg chk rg = true <-> rStart rg <= chk <= rEnd rg.
Proof.
  intros Hl. unfold in_range. rewrite Hl, Z.eqb_refl, !andb_true_iff, !Z.leb_le.
  tauto.
Qed.

(** C3.  In the registrant branch of the loop, with a buffer whose length
    is the [rLen] of a rule of the cached rule set and no other rule
    matching it, the registrant resolves to the buffer exactly when the
    buffer's value lies in [[rStart, rEnd]]: it resolves at either bound and
    stays unresolved one below the lower and one above the upper bound. *)
Theorem registrant_range_boundary
  (rmd : rangeData) (st : locals) (d : ascii) (chk : Z) (rg : rng) :
  Prefix (ret st) <> "" -> RegistrationGroup (ret st) <> "" ->
  Registrant (ret st) = "" ->
  Atoi (append (reg st) d) = (chk, None) ->
  In rg (registrant.Ranges (rs st)) ->
  len (append (reg st) d) = rLen rg ->
  (forall rg', In rg' (registrant.Ranges (rs st)) -> rg' <> rg ->
               in_range (append (reg st) d) chk rg' = false) ->
  exists st',
    step rmd st d = inl st'
    /\ (Registrant (ret st') = append (reg st) d <-> rStart rg <= chk <= rEnd rg)
    /\ (Registrant (ret st') = "" <-> ~ rStart rg <= chk <= rEnd rg)
    /\ (rStart rg <= rEnd rg -> chk = rStart rg \/ chk = rEnd rg ->
        Registrant (ret st') = append (reg st) d)
    /\ (chk = rStart rg - 1 \/ chk = rEnd rg + 1 -> Registrant (ret st') = "").
Proof.
  intros HP HG HR HA Hin Hlen Hothers.
  unfold step. rewrite !decide_False, decide_True, HA by done.
  eexists. split; [reflexivity |]. cbn [ret]. rewrite scan_ranges_spec.
  pose proof (in_range_iff _ chk rg Hlen) as Hrg.
  destruct (existsb _ _) eqn:Hex.
  - apply existsb_exists in Hex as (rg' & Hin' & Hm).
    assert (rg' = rg) as ->.
    { destruct (decide (rg' = rg)) as [| Hne]; [done |].
      rewrite (Hothers rg' Hin' Hne) in Hm. done. }
    apply Hrg in Hm. cbn [set_Registrant Registrant].
    pose proof (append_not_empty (reg st) d).
    repeat split; try done; try lia.
  - assert (in_range (append (reg st) d) chk rg = false) as Hm.
    { destruct (in_range _ chk rg) eqn:Hm; [| done].
      assert (existsb (in_range (append (reg st) d) chk) (registrant.Ranges (rs st))
              = true) as Hex' by (apply existsb_exists; eauto).
      congruence. }
    assert (~ rStart rg <= chk <= rEnd rg) as Hout
      by (intros Hi; apply Hrg in Hi; congruence).
    pose proof (append_not_empty (reg st) d).
    rewrite HR. repeat split; try done; try lia; try congruence.
Qed.

Lemma registrant_range_boundary_witness :
  exists st',
    step sample_rmd
      (mkLocals (mkISBN "978" "0" "" "" "English language" "" "" false)
         "978" "0" "37" "" english) "0" = inl st'
    /\ Registrant (ret st') = "370".
Proof.
  destruct (registrant_range_boundary sample_rmd
              (mkLocals (mkISBN "978" "0" "" "" "English language" "" "" false)
                 "978" "0" "37" "" english) "0" 370 (mkRange 370 638 3))
    as (st' & Hstep & _ & _ & Hbound & _).
  - discriminate.
  - discriminate.
  - reflexivity.
  - vm_compute. reflexivity.
  - simpl. tauto.
  - reflexivity.
  - intros rg' Hin Hne. simpl in Hin.
    repeat (destruct Hin as [<- | Hin]; [reflexivity || contradiction |]).
    contradiction.
  - exists st'. split; [exact Hstep |]. apply Hbound; [simpl; lia | by left].
Defined.

(** * The check-digit formulas *)

Lemma decimal_digit_not_X (v : Z) : 0 <= v <= 9 -> decimal_digit v <> "X".
Proof.
  intros H. small_cases v; (discriminate || lia).
Qed.

(** C4.  On a string in normal form, [CalcCheckDigit] returns, for length
    10, the digit (11 - checksum mod 11) mod 11 of the checksum
    sum (10 - i) * digit(i), i = 0..8, as [X] when it is 10 and as one
    decimal digit otherwise; for length 13, the digit
    (10 - checksum mod 10) mod 10 of the checksum
    sum digit(i) + 3 * digit(i+1), i = 0, 2, .., 10, always one decimal digit
    and never [X]. *)
Theorem CalcCheckDigit_formulas (isbn : string) :
  normalized isbn ->
  (len isbn = 10 ->
   CalcCheckDigit isbn
   = Normal (if spec_check10 isbn =? 10 then "X"
             else decimal_digit (spec_check10 isbn), None)
   /\ 0 <= spec_check10 isbn <= 10)
  /\ (len isbn = 13 ->
      CalcCheckDigit isbn = Normal (decimal_digit (spec_check13 isbn), None)
      /\ 0 <= spec_check13 isbn <= 9
      /\ decimal_digit (spec_check13 isbn) <> "X").
Proof.
  intros Hn. destruct (CalcCheckDigit_normalized isbn Hn) as [H10 H13].
  split; intros Hl.
  - split; [exact (H10 Hl) | apply spec_check10_range].
  - pose proof (spec_check13_range isbn) as Hr.
    repeat split; [exact (H13 Hl) | lia.. | by apply decimal_digit_not_X].
Qed.

Lemma CalcCheckDigit_formulas_witness :
  CalcCheckDigit "089686281X"
  = Normal (if spec_check10 "089686281X" =? 10 then "X"
            else decimal_digit (spec_check10 "089686281X"), None)
  /\ 0 <= spec_check10 "089686281X" <= 10.
Proof.
  apply (CalcCheckDigit_formulas "089686281X").
  - exists "089686281", "X"%char.
    split; [reflexivity | split; [reflexivity | right; reflexivity]].
  - reflexivity.
Defined.

(** * ValidateCheckDigit *)

(** [CalcCheckDigit] never panics; with an error it returns the empty
    digit, without one the digit of the formula for the length. *)
Lemma CalcCheckDigit_cases (x : string) :
  (exists e, CalcCheckDigit x = Normal ("", Some e))
  \/ (normalized (stripISBN x)
      /\ CalcCheckDigit x = Normal (expected_check_digit (stripISBN x), None)).
Proof.
  unfold CalcCheckDigit. set (n := stripISBN x).
  destruct (chkLength_cases n) as [[-> Hl] | (-> & _)]; [| left; by eexists].
  destruct (last_byte n) as (body & c & E).
  { intros E. rewrite E in Hl. by destruct Hl. }
  assert (chkCharacters n = _) as -> by (rewrite E; apply chkCharacters_snoc).
  rewrite bind_Normal.
  destruct (match_non_digit body) eqn:Hb; [left; by eexists |].
  destruct (match_non_digit_X (String c "")) eqn:Hc; [left; by eexists |].
  right.
  assert (normalized n) as Hn.
  { exists body, c. repeat split; [done.. |]. by apply match_non_digit_X_byte. }
  split; [done |].
  destruct (CalcCheckDigit1x_normalized n Hn) as [H10 H13].
  unfold expected_check_digit.
  destruct Hl as [Hl | Hl]; rewrite Hl; cbn [Z.eqb Pos.eqb]; auto.
Qed.

Lemma CalcCheckDigit_stripped (x : string) :
  CalcCheckDigit (stripISBN x) = CalcCheckDigit x.
Proof. unfold CalcCheckDigit. by rewrite stripISBN_idem. Qed.

Lemma ValidateCheckDigit_panics (x : string) :
  stripISBN x = "" -> ValidateCheckDigit x = Panic.
Proof. intros E. unfold ValidateCheckDigit. by rewrite E. Qed.

Lemma ValidateCheckDigit_spec (x : string) :
  stripISBN x <> "" ->
  exists b last,
    slice_from (stripISBN x) (len (stripISBN x) - 1) = Normal (String last "")
    /\ ValidateCheckDigit x = Normal b
    /\ (b = true <-> CalcCheckDigit x = Normal (String last "", None)).
Proof.
  intros Hne. unfold ValidateCheckDigit. fold (CalcCheckDigit (stripISBN x)).
  rewrite CalcCheckDigit_stripped.
  destruct (last_byte _ Hne) as (front & last & E).
  assert (slice_from (stripISBN x) (len (stripISBN x) - 1) = Normal (String last ""))
    as -> by (rewrite E; apply slice_from_last).
  rewrite bind_Normal.
  destruct (CalcCheckDigit_cases x) as [[e ->] | [_ ->]]; rewrite bind_Normal.
  - exists false, last. repeat split; done.
  - eexists _, last. repeat split.
    + intros Hb. apply bool_decide_eq_true_1 in Hb. by rewrite Hb.
    + intros [= <-]. by apply bool_decide_eq_true_2.
Qed.




(** * ISBN10 *)

(** C6.  [ISBN10] looks at the Prefix only: an invalid record with Prefix
    978 gets its ISBN-10, where [ISBN13] and [String] return the empty
    string. *)
Theorem ISBN10_ignores_IsValid :
  let x := mkISBN "978" "0" "590" "13205" "English language" "9" "3" false in
  ISBN10 x = "0590132059" /\ ISBN13 x = "" /\ String_ x = ""
  /\ ~ no_ISBN10_when_invalid x.
Proof.
  repeat split. intros H. specialize (H eq_refl). discriminate H.
Qed.

(** * Parsing without range data *)




(** * Trailing garbage *)

(** C8 (as the code has it).  ["9780590132053F"] has 14 bytes: whatever the
    range table, [ParseISBN] fails on it at the length check, with the
    [InvalidLength] error and the zero record. *)
Theorem ParseISBN_trailing_garbage (rmd : rangeData) :
  ParseISBN rmd "9780590132053F" = Normal (zeroISBN, Some errLength)
  /\ InvalidLength errLength.
Proof. split; reflexivity. Qed.

(** C8 as stated fails: the error is not [InvalidCharacter]. *)
Lemma fails_with_InvalidCharacter_fails :
  ~ fails_with_InvalidCharacter sample_rmd "9780590132053F".
Proof.
  intros (x & e & H & He). vm_compute in H. injection H as _ <-.
  destruct He as [He | He]; discriminate He.
Qed.

(** * ParseISBN never panics *)

(** C9 (as the code has it).  For every input and every range table
    [ParseISBN] returns a record and possibly an error.  In the 13-to-10
    branch the string handed to [CalcCheckDigit10] is the resolved elements
    followed by [X]: at most ten bytes, exactly ten once the registrant has
    resolved.  [CalcCheckDigit10] does not panic on it: on fewer than ten
    bytes it stops with the conversion error at the [X], and CheckDigit10 is
    left empty. *)
Theorem ParseISBN_total (rmd : rangeData) (isbn : string) :
  (exists r, ParseISBN rmd isbn = Normal r)
  /\ (forall x,
        ParseISBN rmd isbn = Normal (x, None) ->
        len (stripISBN isbn) = 13 -> Prefix x = p978 ->
        let s := RegistrationGroup x +:+ Registrant x +:+ Publication x +:+ "X" in
        len s <= 10
        /\ (Registrant x <> "" -> len s = 10)
        /\ (exists e, CalcCheckDigit10 s = Normal (CheckDigit10 x, e))
        /\ (len s < 10 -> CheckDigit10 x = "")).
Proof.
  split; [apply parse_stripped_total |].
  intros x Hparse Hl HPx s. unfold ParseISBN in Hparse.
  set (n := stripISBN isbn) in *.
  destruct (parse_stripped_accepted _ _ _ Hparse)
    as (_ & body & c & st & E & Hn & Hd & Hr & Hscan & Hfin).
  destruct (finish_13 _ _ _ _ _ E Hn Hl Hd Hfin)
    as (Hsame & HV & Hcd13 & Hcd10 & _).
  pose proof (same_elements_fields _ _ Hsame) as Hfx.
  destruct Hsame as (HP & HG & HR & HPub & HA).
  pose proof (start_phase n) as Hph. rewrite Hl in Hph. cbn [Z.eqb Pos.eqb] in Hph.
  pose proof (scan_phase _ _ _ _ _ _ Hph Hscan) as Hend.
  destruct (phase_fields _ _ _ Hend) as (rest & Hf & Hres & _).
  rewrite !append_nil_l, <- Hfx in Hf.
  assert (String.length body = 12%nat) as Hlb.
  { rewrite E, len_append in Hl. unfold len in Hl. simpl in Hl. lia. }
  set (d := RegistrationGroup x +:+ Registrant x +:+ Publication x).
  assert (s = d +:+ "X") as Hs by (unfold s, d; by rewrite !append_assoc).
  assert (String.length d + String.length rest = 9)%nat as Hld.
  { rewrite Hf in Hlb. unfold fields in Hlb. fold d in Hlb. rewrite HPx in Hlb.
    rewrite !length_append in Hlb. simpl in Hlb. lia. }
  assert (len s = Z.of_nat (String.length d) + 1) as Hls
    by (rewrite Hs, len_append; unfold len; simpl; lia).
  destruct (Hcd10 ltac:(congruence)) as [e He].
  rewrite <- HG, <- HR, <- HPub in He. fold s in He.
  repeat split.
  - lia.
  - intros HRx. rewrite <- HR in Hres. rewrite (Hres HRx) in Hld. simpl in Hld. lia.
  - by exists e.
  - intros Hshort. rewrite Hs in He.
    destruct (CalcCheckDigit10_short d "") as [e' He']; [lia |].
    congruence.
Qed.

Lemma ParseISBN_total_witness :
  let x := mkISBN "978" "0" "" "" "English language" "" "4" true in
  let s := RegistrationGroup x +:+ Registrant x +:+ Publication x +:+ "X" in
  len s <= 10 /\ (len s < 10 -> CheckDigit10 x = "").
Proof.
  intros x s.
  destruct (proj2 (ParseISBN_total sample_rmd "9780640000004") x)
    as (H1 & _ & _ & H2).
  - vm_compute. reflexivity.
  - vm_compute. reflexivity.
  - reflexivity.
  - split; [exact H1 | exact H2].
Defined.

(** C9 as stated fails: with the registrant unresolved the string handed to
    [CalcCheckDigit10] is the group and the [X], two bytes. *)
Lemma cross_input_long_fails : ~ cross_input_long sample_rmd "9780640000004".
Proof.
  intros H.
  specialize (H (mkISBN "978" "0" "" "" "English language" "" "4" true)
                ltac:(vm_compute; reflexivity) ltac:(vm_compute; reflexivity)
                ltac:(reflexivity) ltac:(reflexivity)).
  vm_compute in H. by apply H.
Qed.

(** * ValidateCheckDigit on an empty normal form *)

(** C10.  On the empty string, and on every input made of white space and
    hyphens only, [ValidateCheckDigit] panics at [isbn[len(isbn)-1:]]: no
    boolean is returned. *)
Theorem ValidateCheckDigit_empty :
  ValidateCheckDigit "" = Panic /\ ValidateCheckDigit " - " = Panic
  /\ ~ validate_returns "".
Proof.
  repeat split. intros [b H]. discriminate H.
Qed.

(** On every other input it returns a boolean. *)
Lemma ValidateCheckDigit_returns (x : string) :
  stripISBN x <> "" -> validate_returns x.
Proof.
  intros H. destruct (ValidateCheckDigit_spec x H) as (b & _ & _ & Hb & _).
  by exists b.
Qed.

(** * The records ParseISBN returns with an error *)

(** An error always comes with the zero record: the [return ret, err] of the
    loop body is never taken, and an invalid record returned by [ParseISBN]
    has no ISBN-10. *)
Lemma ParseISBN_error_zero (rmd : rangeData) (isbn : string) (x : ISBN) (e : error) :
  ParseISBN rmd isbn = Normal (x, Some e) -> x = zeroISBN.
Proof.
  unfold ParseISBN. set (n := stripISBN isbn). intros H.
  destruct (parse_stripped_cases rmd n)
    as [(_ & _ & E)
       | (Hl & body & c & Hi &
          [(_ & E) | [(_ & _ & E) | [(_ & _ & E) | [(_ & _ & _ & E)
          | (Hn & Hd & Hr & E)]]]])]; rewrite E in H; try by injection H.
  destruct (normalized_snoc body c) as [Hb _]; [by rewrite <- Hi |].
  destruct (scan_digits rmd _ body "" (start n) (start_phase n)) as [st Hst].
  - by rewrite append_nil_l.
  - rewrite append_nil_l. rewrite Hi, len_append in Hl. unfold len in Hl.
    simpl in Hl. lia.
  - rewrite Hst in H. destruct (finish_total n (ret st)) as [y Hy].
    rewrite Hy in H. done.
Qed.

Lemma ParseISBN_invalid_no_ISBN10
  (rmd : rangeData) (isbn : string) (x : ISBN) (e : option error) :
  ParseISBN rmd isbn = Normal (x, e) -> IsValid x = false -> ISBN10 x = "".
Proof.
  intros H HV. destruct e as [e |].
  - by rewrite (ParseISBN_error_zero _ _ _ _ H).
  - unfold ParseISBN in H.
    destruct (parse_stripped_accepted _ _ _ H)
      as (Hl & body & c & st & E & Hn & Hd & Hr & Hscan & Hfin).
    destruct Hl as [Hl | Hl].
    + destruct (finish_10 _ _ _ _ _ E Hn Hl Hd Hfin) as (_ & HV' & _). congruence.
    + destruct (finish_13 _ _ _ _ _ E Hn Hl Hd Hfin) as (_ & HV' & _). congruence.
Qed.

(** * Normalisation *)






(** * When ParseISBN succeeds *)

Lemma passes_checks_iff (isbn : string) :
  passes_checks isbn
  <-> (len isbn = 10 \/ len isbn = 13) /\ normalized isbn
      /\ exists body c, isbn = body +:+ String c ""
                        /\ expected_check_digit isbn = String c "".
Proof.
  unfold passes_checks. split.
  - intros (Hl & Hc & Hd).
    destruct (chkLength_cases isbn) as [[_ Hlen] | [E _]]; [| congruence].
    assert (isbn <> "") as Hne by (intros ->; by destruct Hlen).
    pose proof (chkCharacters_pass isbn Hne Hc) as Hn.
    destruct (last_byte isbn Hne) as (body & c & E).
    rewrite (chkCheckDigit_snoc body c isbn E Hn Hlen) in Hd.
    case_decide; [| done]. repeat split; [done.. |]. by exists body, c.
  - intros (Hl & Hn & body & c & E & Hd).
    rewrite (chkLength_ok _ Hl), (chkCharacters_normalized _ Hn).
    rewrite (chkCheckDigit_snoc body c isbn E Hn Hl), decide_True by done. done.
Qed.

Lemma parse_stripped_accepts_iff (rmd : rangeData) (isbn : string) :
  (exists x, parse_stripped rmd isbn = Normal (x, None))
  <-> passes_checks isbn /\ HasRangeData rmd = true.
Proof.
  split.
  - intros [x H].
    destruct (parse_stripped_accepted _ _ _ H)
      as (Hl & body & c & st & E & Hn & Hd & Hr & _).
    split; [| done]. apply passes_checks_iff. repeat split; [done.. |].
    by exists body, c.
  - intros [Hp Hr]. apply passes_checks_iff in Hp as (Hl & Hn & body & c & E & Hd).
    rewrite (parse_stripped_intro rmd isbn body c E Hn Hl Hd Hr).
    assert (all_digits body) as Hb.
    { destruct (normalized_snoc body c) as [Hb _]; [by rewrite <- E | done]. }
    destruct (scan_digits rmd _ body "" (start isbn) (start_phase isbn)) as [st ->].
    + by rewrite append_nil_l.
    + rewrite append_nil_l. rewrite E, len_append in Hl. unfold len in Hl.
      simpl in Hl. lia.
    + destruct (finish_total isbn (ret st)) as [y ->]. by exists y.
Qed.

(** X3.  [ParseISBN] succeeds exactly when the normal form of the input
    passes the length, character and check-digit checks and the range table
    is not empty: an element that does not resolve never makes the parse
    fail. *)
Theorem ParseISBN_accepts_iff (rmd : rangeData) (isbn : string) :
  (exists x, ParseISBN rmd isbn = Normal (x, None))
  <-> passes_checks (stripISBN isbn) /\ HasRangeData rmd = true.
Proof. apply parse_stripped_accepts_iff. Qed.

(** X4.  [ParseISBN] always returns; with an error the record is the zero
    value, without one [IsValid] is set: the record is valid exactly when
    there is no error. *)
Theorem ParseISBN_valid_iff_no_error (rmd : rangeData) (isbn : string) :
  exists x e,
    ParseISBN rmd isbn = Normal (x, e)
    /\ (e <> None -> x = zeroISBN)
    /\ (IsValid x = true <-> e = None).
Proof.
  destruct (parse_stripped_total rmd (stripISBN isbn)) as [[x e] H].
  exists x, e. split; [exact H |].
  destruct e as [e |].
  - pose proof (ParseISBN_error_zero rmd isbn x e H) as ->.
    repeat split; done.
  - split; [done |]. split; [done | intros _].
    unfold ParseISBN in H.
    destruct (parse_stripped_accepted _ _ _ H)
      as (Hl & body & c & st & E & Hn & Hd & Hr & Hscan & Hfin).
    destruct Hl as [Hl | Hl].
    + by destruct (finish_10 _ _ _ _ _ E Hn Hl Hd Hfin) as (_ & HV & _).
    + by destruct (finish_13 _ _ _ _ _ E Hn Hl Hd Hfin) as (_ & HV & _).
Qed.

(** * ValidateCheckDigit and ParseISBN agree *)

Lemma ValidateCheckDigit_true_iff (x : string) :
  ValidateCheckDigit x = Normal true <-> passes_checks (stripISBN x).
Proof.
  split.
  - intros H.
    assert (stripISBN x <> "") as Hne
      by (intros E; rewrite (ValidateCheckDigit_panics x E) in H; done).
    destruct (ValidateCheckDigit_spec x Hne) as (b & last & Hs & Hv & Hb).
    rewrite Hv in H. injection H as ->. destruct Hb as [Hb _].
    specialize (Hb eq_refl).
    destruct (CalcCheckDigit_cases x) as [[e He] | [Hn He]]; [congruence |].
    rewrite He in Hb. injection Hb as Hb.
    destruct (last_byte _ Hne) as (front & c & E).
    assert (c = last) as ->.
    { rewrite E, slice_from_last in Hs. by injection Hs. }
    apply passes_checks_iff. repeat split; [| done | by exists front, last].
    destruct (chkLength_cases (stripISBN x)) as [[_ Hl] | (_ & H1 & H2)]; [done |].
    unfold CalcCheckDigit in He. rewrite chkLength_err in He by done. done.
  - intros Hp. pose proof Hp as Hp'.
    apply passes_checks_iff in Hp as (Hl & Hn & body & c & E & Hd).
    assert (stripISBN x <> "") as Hne by (rewrite E; by destruct body).
    destruct (ValidateCheckDigit_spec x Hne) as (b & last & Hs & Hv & Hb).
    rewrite Hv. f_equal. apply Hb.
    rewrite E, slice_from_last in Hs. injection Hs as <-.
    destruct (CalcCheckDigit_cases x) as [[e He] | [_ He]].
    + unfold CalcCheckDigit in He. destruct Hp' as (H1 & H2 & _).
      rewrite H1, H2, bind_Normal in He. cbn beta iota in He.
      destruct (CalcCheckDigit1x_normalized _ Hn) as [H10 H13].
      destruct Hl as [Hl | Hl]; rewrite Hl in He; cbn [Z.eqb Pos.eqb] in He.
      * rewrite (H10 Hl) in He. done.
      * rewrite (H13 Hl) in He. done.
    + by rewrite He, Hd.
Qed.

(** X5.  With range data loaded, [ParseISBN] succeeds on exactly the inputs
    on which [ValidateCheckDigit] returns true. *)
Theorem ValidateCheckDigit_iff_ParseISBN (rmd : rangeData) (x : string) :
  HasRangeData rmd = true ->
  ValidateCheckDigit x = Normal true
  <-> exists r, ParseISBN rmd x = Normal (r, None).
Proof.
  intros Hr. unfold ParseISBN.
  rewrite ValidateCheckDigit_true_iff, parse_stripped_accepts_iff. tauto.
Qed.

Lemma ValidateCheckDigit_iff_ParseISBN_witness :
  ValidateCheckDigit "88 04 47328 2" = Normal true
  <-> exists r, ParseISBN sample_rmd "88 04 47328 2" = Normal (r, None).
Proof.
  apply (ValidateCheckDigit_iff_ParseISBN sample_rmd "88 04 47328 2").
  reflexivity.
Defined.

(** * The digit CalcCheckDigit returns *)

Lemma expected_check_digit_byte (isbn : string) :
  exists c, expected_check_digit isbn = String c ""
            /\ (is_digit c = true \/ (c = "X"%char /\ len isbn = 10)).
Proof.
  unfold expected_check_digit. destruct (len isbn =? 10) eqn:E.
  - apply Z.eqb_eq in E.
    destruct (spec_render10_byte _ (spec_check10_range isbn)) as (c & Hc & [H | H]);
      exists c; auto.
  - pose proof (spec_check13_range isbn) as Hr. unfold decimal_digit.
    revert Hr. generalize (spec_check13 isbn). intros v Hr.
    eexists. split; [reflexivity | left].
    small_cases v; (reflexivity || lia).
Qed.

(** X6.  [CalcCheckDigit] always returns.  With an error, which is the
    length or the character error, the digit is empty; without one the digit
    is a single byte, a decimal digit or, for a 10-byte normal form only,
    [X]. *)
Theorem CalcCheckDigit_result (x : string) :
  (exists e, CalcCheckDigit x = Normal ("", Some e)
             /\ (InvalidLength e \/ InvalidCharacter e))
  \/ (exists c, CalcCheckDigit x = Normal (String c "", None)
                /\ (is_digit c = true
                    \/ (c = "X"%char /\ len (stripISBN x) = 10))).
Proof.
  unfold CalcCheckDigit. set (n := stripISBN x).
  unfold InvalidLength, InvalidCharacter.
  destruct (chkLength_cases n) as [[-> Hl] | (-> & _)];
    [| left; eexists; split; [reflexivity | by left]].
  destruct (last_byte n) as (body & c & E).
  { intros E. rewrite E in Hl. by destruct Hl. }
  assert (chkCharacters n = _) as -> by (rewrite E; apply chkCharacters_snoc).
  rewrite bind_Normal.
  destruct (match_non_digit body) eqn:Hb;
    [left; eexists; split; [reflexivity | auto] |].
  destruct (match_non_digit_X (String c "")) eqn:Hc;
    [left; eexists; split; [reflexivity | auto] |].
  right.
  assert (normalized n) as Hn.
  { exists body, c. repeat split; [done.. |]. by apply match_non_digit_X_byte. }
  destruct (CalcCheckDigit1x_normalized n Hn) as [H10 H13].
  destruct (expected_check_digit_byte n) as (d & Hd & Hok).
  exists d. split; [| done]. rewrite <- Hd. unfold expected_check_digit.
  destruct Hl as [Hl | Hl]; rewrite Hl; cbn [Z.eqb Pos.eqb]; auto.
Qed.

(** * The computed digit completes the input *)

Lemma expected_check_digit_front (front a b : string) :
  len (front +:+ a) = len (front +:+ b) ->
  len (front +:+ a) = 10 \/ len (front +:+ a) = 13 ->
  len a = 1 ->
  expected_check_digit (front +:+ a) = expected_check_digit (front +:+ b).
Proof.
  intros Hab Hl Ha. unfold expected_check_digit. rewrite <- Hab.
  rewrite len_append, Ha in Hl. unfold len in Hl.
  destruct Hl as [Hl | Hl].
  - replace (len (front +:+ a)) with 10 by (rewrite len_append, Ha; unfold len; lia).
    cbn [Z.eqb Pos.eqb]. f_equal. apply spec_check10_front. lia.
  - replace (len (front +:+ a)) with 13 by (rewrite len_append, Ha; unfold len; lia).
    cbn [Z.eqb Pos.eqb]. f_equal. apply spec_check13_front. lia.
Qed.

(** X7.  When [CalcCheckDigit] returns a digit for an input, the normal form
    of the input with its last byte replaced by that digit has a correct
    check digit: [ValidateCheckDigit] returns true on it, and
    [CalcCheckDigit] returns the same digit again. *)
Theorem CalcCheckDigit_completes (x front : string) (last : ascii) (cd : string) :
  stripISBN x = front +:+ String last "" ->
  CalcCheckDigit x = Normal (cd, None) ->
  ValidateCheckDigit (front +:+ cd) = Normal true
  /\ CalcCheckDigit (front +:+ cd) = Normal (cd, None).
Proof.
  intros E Hc.
  destruct (CalcCheckDigit_cases x) as [[e He] | [Hn He]]; [congruence |].
  rewrite He in Hc. injection Hc as Hcd.
  assert (len (stripISBN x) = 10 \/ len (stripISBN x) = 13) as Hl.
  { destruct (chkLength_cases (stripISBN x)) as [[_ Hl] | (_ & H1 & H2)]; [done |].
    unfold CalcCheckDigit in He. rewrite chkLength_err in He by done. done. }
  destruct (expected_check_digit_byte (stripISBN x)) as (c & Hd & Hok).
  rewrite Hd in Hcd. subst cd.
  rewrite E in Hn. apply normalized_snoc in Hn as [Hfront _].
  set (n' := front +:+ String c "").
  assert (normalized n') as Hn'.
  { exists front, c. repeat split; [done |]. tauto. }
  assert (len n' = len (stripISBN x)) as Hlen
    by (unfold n'; rewrite E, !len_append; reflexivity).
  assert (expected_check_digit n' = String c "") as Hd'.
  { rewrite <- Hd, E. unfold n'. apply expected_check_digit_front.
    - by rewrite !len_append.
    - fold n'. by rewrite Hlen.
    - reflexivity. }
  assert (passes_checks (stripISBN n')) as Hp.
  { rewrite (stripISBN_normalized _ Hn'). apply passes_checks_iff.
    repeat split; [by rewrite Hlen | done |]. by exists front, c. }
  split; [by apply ValidateCheckDigit_true_iff |].
  destruct (CalcCheckDigit_cases n') as [[e He'] | [_ He']].
  - apply ValidateCheckDigit_true_iff in Hp.
    assert (stripISBN n' <> "") as Hne
      by (rewrite (stripISBN_normalized _ Hn'); unfold n'; by destruct front).
    destruct (ValidateCheckDigit_spec n' Hne) as (b & l' & _ & Hv & Hb).
    rewrite Hv in Hp. injection Hp as ->. destruct Hb as [Hb _].
    rewrite (Hb eq_refl) in He'. done.
  - by rewrite He', (stripISBN_normalized _ Hn'), Hd'.
Qed.

Lemma CalcCheckDigit_completes_witness :
  ValidateCheckDigit ("089686281" +:+ "X") = Normal true
  /\ CalcCheckDigit ("089686281" +:+ "X") = Normal ("X", None).
Proof.
  apply (CalcCheckDigit_completes "0-89686-281-0" "089686281" "0"%char "X").
  - reflexivity.
  - vm_compute. reflexivity.
Defined.

(** * What the digit loop resolves *)

Lemma segment_snoc (buf : string) (d : ascii) (q r : string) :
  append buf d = q +:+ r ->
  (r = "" /\ q = append buf d) \/ (exists r', r = append r' d /\ buf = q +:+ r').
Proof.
  intros H. destruct (decide (r = "")) as [-> | Hr].
  - left. by rewrite append_nil_r in H.
  - right. destruct (last_byte r Hr) as (r' & c & ->).
    unfold append in H. rewrite <- append_assoc in H.
    apply snoc_inj in H as [-> ->]. by exists r'.
Qed.

Lemma unmatched_nil (test : string -> bool) : unmatched test "".
Proof. intros q r Hq H. destruct q; [done | discriminate H]. Qed.

Lemma unmatched_snoc_miss (test : string -> bool) (buf : string) (d : ascii) :
  unmatched test buf -> test (append buf d) = false ->
  unmatched test (append buf d).
Proof.
  intros Hu Hm q r Hq H.
  destruct (segment_snoc _ _ _ _ H) as [[_ ->] | (r' & _ & E)]; [done |].
  by apply (Hu q r').
Qed.

Lemma unmatched_snoc_hit (test : string -> bool) (buf : string) (d : ascii) :
  unmatched test buf -> test (append buf d) = true ->
  first_match test (append buf d).
Proof.
  intros Hu Hm. split; [done |]. intros q r Hq Hr H.
  destruct (segment_snoc _ _ _ _ H) as [[-> _] | (r' & _ & E)]; [done |].
  by apply (Hu q r').
Qed.

Lemma fits_iff (rs : registrant.t) (q : string) (chk : Z) :
  Atoi q = (chk, None) ->
  fits rs q = existsb (in_range q chk) (registrant.Ranges rs).
Proof. intros H. unfold fits. by rewrite H. Qed.

Lemma in_range_true (reg : string) (chk : Z) (rg : rng) :
  in_range reg chk rg = true ->
  len reg = rLen rg /\ rStart rg <= chk <= rEnd rg.
Proof.
  unfold in_range. rewrite !andb_true_iff, Z.eqb_eq, !Z.leb_le. tauto.
Qed.

Lemma fits_true (rs : registrant.t) (q : string) :
  fits rs q = true ->
  exists chk rg,
    Atoi q = (chk, None) /\ In rg (registrant.Ranges rs)
    /\ len q = rLen rg /\ rStart rg <= chk <= rEnd rg.
Proof.
  unfold fits. destruct (Atoi q) as [chk [e |]]; [done |]. intros H.
  apply existsb_exists in H as (rg & Hin & Hm).
  exists chk, rg. split; [done |]. split; [done |]. by apply in_range_true.
Qed.

Section Resolution.

Context (rmd : rangeData).

Lemma step_resolution (p0 done : string) (st st' : locals) (d : ascii) :
  phase p0 done st -> resolution rmd p0 st -> step rmd st d = inl st' ->
  resolution rmd p0 st'.
Proof.
  intros Hph Hres Hstep. unfold step in Hstep.
  destruct Hph as [Hp0 HP HG HR HPub Hpfx Hgrp Hreg Hpub
                  | HP HPne HG HR HPub Hdone Hreg Hpub
                  | HP HPne HG HGne HR HPub Hdone Hpub
                  | HP HPne HG HGne HR HRne HPub Hdone].
  - destruct Hres as [_ Hu HA | ? | ? | ?]; try congruence.
    rewrite decide_True in Hstep by done.
    destruct (rmd !! append (pfx st) d) eqn:E; inversion Hstep; subst st'; clear Hstep.
    + apply unresolved_group; cbn; try done.
      * apply append_not_empty.
      * intros _. apply unmatched_snoc_hit; [done |].
        unfold is_prefix_key. apply bool_decide_eq_true_2. by rewrite E.
      * rewrite Hgrp. apply unmatched_nil.
    + apply unresolved_prefix; cbn; try done.
      apply unmatched_snoc_miss; [done |].
      unfold is_prefix_key. apply bool_decide_eq_false_2. rewrite E. by intros [? ?].
  - destruct Hres as [? | _ _ Hpm Hu HA | ? | ?]; try congruence.
    rewrite decide_False, decide_True in Hstep by done.
    destruct (lookup_group rmd (Prefix (ret st)) (append (grp st) d)) eqn:E;
      inversion Hstep; subst st'; clear Hstep.
    + apply unresolved_registrant; cbn; try done.
      * apply append_not_empty.
      * apply unmatched_snoc_hit; [done |].
        unfold is_group_key. apply bool_decide_eq_true_2. by rewrite E.
      * rewrite Hreg. apply unmatched_nil.
    + apply unresolved_group; cbn; try done.
      apply unmatched_snoc_miss; [done |].
      unfold is_group_key. apply bool_decide_eq_false_2. rewrite E. by intros [? ?].
  - destruct Hres as [? | ? | _ _ _ Hpm Hgm Hrs HA Hu | ?]; try congruence.
    rewrite decide_False in Hstep by done.
    rewrite decide_False in Hstep by (rewrite HG; done).
    rewrite decide_True in Hstep by done.
    destruct (Atoi (append (reg st) d)) as [chk [e |]] eqn:E; [done |].
    inversion Hstep; subst st'; clear Hstep.
    rewrite scan_ranges_spec. rewrite <- (fits_iff _ _ _ E).
    destruct (fits (rs st) (append (reg st) d)) eqn:Hf.
    + apply resolved_registrant; cbn; try done.
      * by rewrite HG.
      * apply append_not_empty.
      * by apply unmatched_snoc_hit.
    + apply unresolved_registrant; cbn; try done.
      * by rewrite HG.
      * by apply unmatched_snoc_miss.
  - destruct Hres as [? | ? | ? | _ _ _ Hpm Hgm Hrs HA Hrm]; try congruence.
    rewrite decide_False in Hstep by done.
    rewrite decide_False in Hstep by (rewrite HG; done).
    rewrite decide_False in Hstep by (rewrite HR; done).
    inversion Hstep; subst st'; clear Hstep.
    apply resolved_registrant; cbn; try done.
    + by rewrite HG.
    + by rewrite HR.
Qed.

Lemma scan_resolution (p0 l done : string) (st st' : locals) :
  phase p0 done st -> resolution rmd p0 st -> scan rmd l st = inl st' ->
  resolution rmd p0 st'.
Proof.
  revert done st. induction l as [|d l IH]; intros done st Hph Hres Hscan.
  - simpl in Hscan. by inversion Hscan; subst.
  - simpl in Hscan. destruct (step rmd st d) as [st1 |] eqn:E; [| done].
    eapply IH; [| | exact Hscan].
    + by eapply step_phase.
    + by eapply step_resolution.
Qed.

Lemma start_resolution (isbn : string) :
  resolution rmd (if len isbn =? 10 then p978 else "") (start isbn).
Proof.
  unfold start. destruct (len isbn =? 10).
  - apply unresolved_group; cbn; try done. apply unmatched_nil.
  - apply unresolved_prefix; cbn; try done. apply unmatched_nil.
Qed.

End Resolution.

Lemma resolution_summary (rmd : rangeData) (p0 done : string) (st : locals) :
  phase p0 done st -> resolution rmd p0 st ->
  exists rest,
    p0 +:+ done = fields (ret st) +:+ rest
    /\ (Prefix (ret st) = "" ->
        unmatched (is_prefix_key rmd) rest /\ RegistrationGroup (ret st) = "")
    /\ (Prefix (ret st) <> "" -> p0 = "" ->
        first_match (is_prefix_key rmd) (Prefix (ret st)))
    /\ (Prefix (ret st) <> "" -> RegistrationGroup (ret st) = "" ->
        unmatched (is_group_key rmd (Prefix (ret st))) rest)
    /\ (RegistrationGroup (ret st) = "" ->
        Agency (ret st) = "" /\ Registrant (ret st) = "")
    /\ (RegistrationGroup (ret st) <> "" ->
        first_match (is_group_key rmd (Prefix (ret st))) (RegistrationGroup (ret st))
        /\ lookup_group rmd (Prefix (ret st)) (RegistrationGroup (ret st)) = Some (rs st)
        /\ Agency (ret st) = registrant.Agency (rs st)
        /\ (Registrant (ret st) = "" -> unmatched (fits (rs st)) rest)
        /\ (Registrant (ret st) <> "" ->
            first_match (fits (rs st)) (Registrant (ret st)) /\ rest = "")).
Proof.
  unfold fields.
  intros [Hp0 HP HG HR HPub Hpfx Hgrp Hreg Hpub
         | HP HPne HG HR HPub Hdone Hreg Hpub
         | HP HPne HG HGne HR HPub Hdone Hpub
         | HP HPne HG HGne HR HRne HPub Hdone] Hres.
  - destruct Hres as [_ Hu HA | ? | ? | ?]; try congruence.
    exists done. rewrite HP, HG, HR, HPub, Hp0, <- Hpfx.
    split; [done |]. split; [done |]. split; [done |]. split; [done |].
    split; done.
  - destruct Hres as [? | _ _ Hpm Hu HA | ? | ?]; try congruence.
    exists (grp st).
    rewrite HG, HR, HPub, <- Hdone, !append_nil_l.
    split; [by rewrite HP, !append_assoc |].
    split; [intros ?; congruence |].
    split; [intros _ ->; rewrite append_nil_l in HP; rewrite HP; by apply Hpm |].
    split; [done |]. split; done.
  - destruct Hres as [? | ? | _ _ _ Hpm Hgm Hrs HA Hu | ?]; try congruence.
    exists (reg st).
    rewrite HR, HPub, <- Hdone, !append_nil_l.
    split; [by rewrite HP, HG, !append_assoc |].
    rewrite HG.
    split; [intros ?; congruence |].
    split; [intros _ ->; rewrite append_nil_l in HP; rewrite HP; by apply Hpm |].
    split; [intros _ ?; congruence |].
    split; [intros ?; congruence |].
    intros _. split; [done |]. split; [done |]. split; [done |]. split; done.
  - destruct Hres as [? | ? | ? | _ _ _ Hpm Hgm Hrs HA Hrm]; try congruence.
    exists "".
    rewrite HPub, <- Hdone.
    split; [by rewrite HP, HG, HR, !append_assoc, append_nil_r |].
    rewrite HG, HR.
    split; [intros ?; congruence |].
    split; [intros _ ->; rewrite append_nil_l in HP; rewrite HP; by apply Hpm |].
    split; [intros _ ?; congruence |].
    split; [intros ?; congruence |].
    intros _. split; [done |]. split; [done |]. split; [done |].
    split; [intros ?; congruence | done].
Qed.

(** The summary for the record [ParseISBN] returns. *)
Lemma ParseISBN_resolution (rmd : rangeData) (isbn : string) (x : ISBN) :
  ParseISBN rmd isbn = Normal (x, None) ->
  exists body c rest rs,
    stripISBN isbn = body +:+ String c ""
    /\ (if len (stripISBN isbn) =? 10 then p978 else "") +:+ body = fields x +:+ rest
    /\ (len (stripISBN isbn) = 10 -> Prefix x = p978)
    /\ (Prefix x = "" ->
        unmatched (is_prefix_key rmd) rest /\ RegistrationGroup x = "")
    /\ (Prefix x <> "" -> len (stripISBN isbn) = 13 ->
        first_match (is_prefix_key rmd) (Prefix x))
    /\ (Prefix x <> "" -> RegistrationGroup x = "" ->
        unmatched (is_group_key rmd (Prefix x)) rest)
    /\ (RegistrationGroup x = "" -> Agency x = "" /\ Registrant x = "")
    /\ (RegistrationGroup x <> "" ->
        first_match (is_group_key rmd (Prefix x)) (RegistrationGroup x)
        /\ lookup_group rmd (Prefix x) (RegistrationGroup x) = Some rs
        /\ Agency x = registrant.Agency rs
        /\ (Registrant x = "" -> unmatched (fits rs) rest)
        /\ (Registrant x <> "" -> first_match (fits rs) (Registrant x) /\ rest = "")).
Proof.
  unfold ParseISBN. set (n := stripISBN isbn). intros Hparse.
  destruct (parse_stripped_accepted _ _ _ Hparse)
    as (Hl & body & c & st & E & Hn & Hd & Hr & Hscan & Hfin).
  assert (same_elements (ret st) x) as Hsame.
  { destruct Hl as [Hl | Hl].
    - by destruct (finish_10 _ _ _ _ _ E Hn Hl Hd Hfin).
    - by destruct (finish_13 _ _ _ _ _ E Hn Hl Hd Hfin). }
  pose proof (same_elements_fields _ _ Hsame) as Hfx.
  destruct Hsame as (HP & HG & HR & HPub & HA).
  pose proof (scan_phase _ _ _ _ _ _ (start_phase n) Hscan) as Hend.
  pose proof (scan_resolution rmd _ _ _ _ _ (start_phase n) (start_resolution rmd n) Hscan)
    as Hres.
  rewrite append_nil_l in Hend.
  destruct (resolution_summary _ _ _ _ Hend Hres)
    as (rest & Hf & H1 & H2 & H3 & H4 & H5).
  exists body, c, rest, (rs st).
  rewrite HP, HG, HR, HA, Hfx.
  split; [done |]. split; [done |]. split.
  { intros Hl10.
    assert (Prefix (ret (start n)) = p978) as Hs by (unfold start; by rewrite Hl10).
    pose proof (scan_keeps_prefix rmd body (start n) st) as Hk.
    rewrite Hs in Hk. by apply Hk. }
  split; [exact H1 |].
  split; [intros HPne Hl13; apply H2; [done | by rewrite Hl13] |].
  split; [exact H3 |]. split; [exact H4 | exact H5].
Qed.

(** X8.  The elements of an accepted input come from the range table: the
    prefix of a 13-digit input, when resolved, is a key of the table (for a
    10-digit input it is 978); a resolved registration group is a key of the
    prefix's groups and Agency is that group's agency; a resolved registrant
    has the length of one of the group's ranges and its value lies within
    the bounds of that range.  With the group unresolved, Agency and
    Registrant are empty. *)
Theorem resolved_elements_in_table (rmd : rangeData) (isbn : string) (x : ISBN) :
  ParseISBN rmd isbn = Normal (x, None) ->
  (len (stripISBN isbn) = 10 -> Prefix x = p978)
  /\ (len (stripISBN isbn) = 13 -> Prefix x <> "" -> is_Some (rmd !! Prefix x))
  /\ (RegistrationGroup x = "" -> Agency x = "" /\ Registrant x = "")
  /\ (RegistrationGroup x <> "" ->
      exists rs,
        lookup_group rmd (Prefix x) (RegistrationGroup x) = Some rs
        /\ Agency x = registrant.Agency rs
        /\ (Registrant x <> "" ->
            exists chk rg,
              Atoi (Registrant x) = (chk, None)
              /\ In rg (registrant.Ranges rs)
              /\ len (Registrant x) = rLen rg
              /\ rStart rg <= chk <= rEnd rg)).
Proof.
  intros H.
  destruct (ParseISBN_resolution _ _ _ H)
    as (body & c & rest & rs & E & Hf & H10 & H1 & H2 & H3 & H4 & H5).
  split; [done |]. split.
  { intros Hl HP. destruct (H2 HP Hl) as [Hk _].
    by apply bool_decide_eq_true_1 in Hk. }
  split; [done |].
  intros HG. destruct (H5 HG) as (_ & Hrs & HA & _ & Hreg).
  exists rs. split; [done |]. split; [done |].
  intros HR. destruct (Hreg HR) as [[Hfit _] _]. by apply fits_true.
Qed.

Lemma resolved_elements_in_table_witness :
  exists rs,
    lookup_group sample_rmd "978" "88" = Some rs
    /\ "Italy" = registrant.Agency rs
    /\ ("912" <> "" ->
        exists chk rg,
          Atoi "912" = (chk, None) /\ In rg (registrant.Ranges rs)
          /\ len "912" = rLen rg /\ rStart rg <= chk <= rEnd rg).
Proof.
  destruct (resolved_elements_in_table sample_rmd "978-8891230195"
              (mkISBN "978" "88" "912" "3019" "Italy" "7" "5" true))
    as (_ & _ & _ & H).
  - vm_compute. reflexivity.
  - apply H. discriminate.
Defined.

(** X9.  Resolution takes the first match: no shorter non-empty initial
    segment of a resolved prefix is a key of the table, none of a resolved
    registration group is a group of the prefix, and none of a resolved
    registrant fits a range of the group. *)
Theorem elements_are_first_matches
  (rmd : rangeData) (isbn : string) (x : ISBN) (q r : string) :
  ParseISBN rmd isbn = Normal (x, None) -> q <> "" -> r <> "" ->
  (len (stripISBN isbn) = 13 -> Prefix x = q +:+ r -> rmd !! q = None)
  /\ (RegistrationGroup x = q +:+ r -> lookup_group rmd (Prefix x) q = None)
  /\ (Registrant x = q +:+ r ->
      forall rs, lookup_group rmd (Prefix x) (RegistrationGroup x) = Some rs ->
                 fits rs q = false).
Proof.
  intros H Hq Hr.
  destruct (ParseISBN_resolution _ _ _ H)
    as (body & c & rest & rs & E & Hf & H10 & H1 & H2 & H3 & H4 & H5).
  assert (forall s : string, s = q +:+ r -> s <> "") as Hne
    by (intros s ->; by destruct q).
  split; [| split].
  - intros Hl HP. destruct (H2 (Hne _ HP) Hl) as [_ Hmin].
    specialize (Hmin q r Hq Hr HP). apply bool_decide_eq_false_1 in Hmin.
    destruct (rmd !! q) eqn:Eq; [| done]. exfalso. apply Hmin. by eexists.
  - intros HG. destruct (H5 (Hne _ HG)) as ([_ Hmin] & _).
    specialize (Hmin q r Hq Hr HG). apply bool_decide_eq_false_1 in Hmin.
    destruct (lookup_group rmd (Prefix x) q) eqn:Eq; [| done].
    exfalso. apply Hmin. by eexists.
  - intros HR rs' Hrs'.
    assert (RegistrationGroup x <> "") as HG.
    { intros HG. destruct (H4 HG) as [_ HR0]. by apply (Hne _ HR). }
    destruct (H5 HG) as (_ & Hrs & _ & _ & Hreg).
    assert (rs' = rs) as -> by congruence.
    destruct (Hreg (Hne _ HR)) as [[_ Hmin] _]. by apply (Hmin q r).
Qed.

Lemma elements_are_first_matches_witness :
  sample_rmd !! "97" = None
  /\ forall rs, lookup_group sample_rmd "978" "0" = Some rs -> fits rs "82" = false.
Proof.
  split.
  - destruct (elements_are_first_matches sample_rmd "9780822527602"
                (mkISBN "978" "0" "8225" "2760" "English language" "X" "2" true)
                "97" "8") as (H1 & _).
    + vm_compute. reflexivity.
    + discriminate.
    + discriminate.
    + apply H1; reflexivity.
  - destruct (elements_are_first_matches sample_rmd "9780822527602"
                (mkISBN "978" "0" "8225" "2760" "English language" "X" "2" true)
                "82" "25") as (_ & _ & H3).
    + vm_compute. reflexivity.
    + discriminate.
    + discriminate.
    + apply H3. reflexivity.
Defined.

(** X10.  The digits that follow the resolved elements never matched: with
    the prefix unresolved no non-empty initial segment of the digits is a
    key of the table; with the group unresolved no initial segment of the
    digits after the prefix is a group of the prefix; with the registrant
    unresolved no initial segment of the digits after the group fits a range
    of the group.  With the registrant resolved no digit is left over. *)
Theorem leftover_digits_never_match (rmd : rangeData) (isbn : string) (x : ISBN) :
  ParseISBN rmd isbn = Normal (x, None) ->
  exists body c rest,
    stripISBN isbn = body +:+ String c ""
    /\ (if len (stripISBN isbn) =? 10 then p978 else "") +:+ body = fields x +:+ rest
    /\ (Prefix x = "" -> unmatched (is_prefix_key rmd) rest)
    /\ (Prefix x <> "" -> RegistrationGroup x = "" ->
        unmatched (is_group_key rmd (Prefix x)) rest)
    /\ (RegistrationGroup x <> "" -> Registrant x = "" ->
        forall rs, lookup_group rmd (Prefix x) (RegistrationGroup x) = Some rs ->
                   unmatched (fits rs) rest)
    /\ (Registrant x <> "" -> rest = "").
Proof.
  intros H.
  destruct (ParseISBN_resolution _ _ _ H)
    as (body & c & rest & rs & E & Hf & H10 & H1 & H2 & H3 & H4 & H5).
  exists body, c, rest. repeat split; try done.
  - intros HP. by destruct (H1 HP).
  - intros HG HR rs' Hrs'. destruct (H5 HG) as (_ & Hrs & _ & Hu & _).
    assert (rs' = rs) as -> by congruence. by apply Hu.
  - intros HR.
    assert (RegistrationGroup x <> "") as HG
      by (intros HG; by destruct (H4 HG)).
    destruct (H5 HG) as (_ & _ & _ & _ & Hreg). by destruct (Hreg HR).
Qed.

Lemma leftover_digits_never_match_witness :
  exists body c rest,
    stripISBN "9780640000004" = body +:+ String c ""
    /\ (if len (stripISBN "9780640000004") =? 10 then p978 else "") +:+ body
       = fields (mkISBN "978" "0" "" "" "English language" "" "4" true) +:+ rest
    /\ ("978" = "" -> unmatched (is_prefix_key sample_rmd) rest)
    /\ ("978" <> "" -> "0" = "" -> unmatched (is_group_key sample_rmd "978") rest)
    /\ ("0" <> "" -> "" = "" ->
        forall rs, lookup_group sample_rmd "978" "0" = Some rs ->
                   unmatched (fits rs) rest)
    /\ ("" <> "" -> rest = "").
Proof.
  apply (leftover_digits_never_match sample_rmd "9780640000004"
           (mkISBN "978" "0" "" "" "English language" "" "4" true)).
  vm_compute. reflexivity.
Defined.

(** * The shape of an accepted record *)

(** The locals at the start of the loop for a 10-digit input. *)
Lemma start_10 (isbn : string) :
  len isbn = 10 ->
  start isbn = mkLocals (set_Prefix p978 zeroISBN) "" "" "" "" registrant.zero.
Proof. intros H. unfold start. by rewrite H. Qed.

Lemma start_13 (isbn : string) :
  len isbn = 13 -> start isbn = mkLocals zeroISBN "" "" "" "" registrant.zero.
Proof. intros H. unfold start. by rewrite H. Qed.

Lemma ISBN_eq (x : ISBN) (cd10 cd13 : string) (y : ISBN) :
  same_elements y x -> CheckDigit10 x = cd10 -> CheckDigit13 x = cd13 ->
  IsValid x = true ->
  x = mkISBN (Prefix y) (RegistrationGroup y) (Registrant y) (Publication y)
        (Agency y) cd10 cd13 true.
Proof.
  intros (HP & HG & HR & HPub & HA) H10 H13 HV. destruct x. simpl in *. by subst.
Qed.

(** An accepted 10-digit input whose registrant has resolved. *)
Lemma accepted_10 (rmd : rangeData) (n : string) (x : ISBN) :
  parse_stripped rmd n = Normal (x, None) -> len n = 10 -> Registrant x <> "" ->
  exists d c st,
    n = d +:+ String c "" /\ String.length d = 9%nat /\ all_digits d
    /\ spec_render10 (spec_check10 n) = String c ""
    /\ HasRangeData rmd = true
    /\ scan rmd d (mkLocals (set_Prefix p978 zeroISBN) "" "" "" "" registrant.zero)
       = inl st
    /\ Prefix (ret st) = p978
    /\ d = RegistrationGroup (ret st) +:+ Registrant (ret st) +:+ Publication (ret st)
    /\ Registrant (ret st) <> ""
    /\ x = mkISBN p978 (RegistrationGroup (ret st)) (Registrant (ret st))
             (Publication (ret st)) (Agency (ret st)) (String c "")
             (decimal_digit (spec_check13 (p978 +:+ n))) true.
Proof.
  intros Hparse Hl HRx.
  destruct (parse_stripped_accepted _ _ _ Hparse)
    as (_ & d & c & st & E & Hn & Hd & Hr & Hscan & Hfin).
  destruct (finish_10 _ _ _ _ _ E Hn Hl Hd Hfin) as (Hsame & HV & H10 & H13).
  pose proof (ISBN_eq _ _ _ _ Hsame H10 H13 HV) as Hx.
  destruct Hsame as (HP & HG & HR & HPub & HA). rewrite HR in HRx.
  pose proof (start_phase n) as Hph. rewrite Hl in Hph. cbn [Z.eqb Pos.eqb] in Hph.
  pose proof (scan_phase _ _ _ _ _ _ Hph Hscan) as Hend.
  destruct (phase_fields _ _ _ Hend) as (rest & Hf & Hres & _).
  rewrite (Hres HRx), append_nil_l, append_nil_r in Hf.
  rewrite (start_10 n Hl) in Hscan.
  assert (Prefix (ret st) = p978) as HP978
    by (by apply (scan_keeps_prefix rmd d _ st) in Hscan).
  rewrite HP978 in Hx.
  assert (all_digits d) as Hdd
    by (destruct (normalized_snoc d c) as [Hb _]; [by rewrite <- E | done]).
  exists d, c, st.
  split; [done |]. split.
  { rewrite E, len_append in Hl. unfold len in Hl. simpl in Hl. lia. }
  split; [done |]. split.
  { unfold expected_check_digit in Hd. by rewrite Hl in Hd. }
  split; [done |]. split; [done |]. split; [done |].
  split; [| done].
  unfold fields in Hf. rewrite HP978 in Hf.
  by apply (inj (String.app p978)) in Hf.
Qed.

(** An accepted 13-digit input with prefix 978 whose registrant has
    resolved. *)
Lemma accepted_13_978 (rmd : rangeData) (n : string) (x : ISBN) :
  parse_stripped rmd n = Normal (x, None) -> len n = 13 ->
  Prefix x = p978 -> Registrant x <> "" ->
  exists d c st,
    n = (p978 +:+ d) +:+ String c "" /\ String.length d = 9%nat /\ all_digits d
    /\ decimal_digit (spec_check13 n) = String c ""
    /\ HasRangeData rmd = true
    /\ scan rmd d (mkLocals (set_Prefix p978 zeroISBN) "" "" "" "" registrant.zero)
       = inl st
    /\ d = RegistrationGroup (ret st) +:+ Registrant (ret st) +:+ Publication (ret st)
    /\ x = mkISBN p978 (RegistrationGroup (ret st)) (Registrant (ret st))
             (Publication (ret st)) (Agency (ret st))
             (spec_render10 (spec_check10 (d +:+ "X"))) (String c "") true.
Proof.
  intros Hparse Hl HPx HRx.
  destruct (parse_stripped_accepted _ _ _ Hparse)
    as (_ & body & c & st & E & Hn & Hd & Hr & Hscan & Hfin).
  destruct (finish_13 _ _ _ _ _ E Hn Hl Hd Hfin)
    as (Hsame & HV & Hcd13 & Hcd10 & _).
  destruct Hsame as (HP & HG & HR & HPub & HA).
  rewrite HPx in HP. rewrite HR in HRx.
  pose proof (start_phase n) as Hph. rewrite Hl in Hph. cbn [Z.eqb Pos.eqb] in Hph.
  pose proof (scan_phase _ _ _ _ _ _ Hph Hscan) as Hend.
  destruct (phase_fields _ _ _ Hend) as (rest & Hf & Hres & _).
  rewrite (Hres HRx), !append_nil_l, append_nil_r in Hf.
  set (d := RegistrationGroup (ret st) +:+ Registrant (ret st) +:+ Publication (ret st)).
  assert (body = p978 +:+ d) as Hbody by (rewrite Hf; unfold fields; by rewrite <- HP).
  assert (all_digits body) as Hb
    by (destruct (normalized_snoc body c) as [Hb _]; [by rewrite <- E | done]).
  assert (String.length body = 12%nat) as Hlb.
  { rewrite E, len_append in Hl. unfold len in Hl. simpl in Hl. lia. }
  assert (all_digits d) as Hdd.
  { rewrite Hbody in Hb. apply all_digits_append in Hb. tauto. }
  assert (String.length d = 9%nat) as Hld.
  { rewrite Hbody, length_append in Hlb. simpl in Hlb. lia. }
  assert (normalized (d +:+ "X")) as HnX by (exists d, "X"%char; auto).
  assert (len (d +:+ "X") = 10) as HlX by (rewrite len_append; unfold len; simpl; lia).
  destruct (Hcd10 (eq_sym HP)) as [e He].
  replace (RegistrationGroup (ret st) +:+ Registrant (ret st)
           +:+ Publication (ret st) +:+ "X") with (d +:+ "X") in He
    by (unfold d; by rewrite !append_assoc).
  destruct (CalcCheckDigit1x_normalized _ HnX) as [H10 _].
  rewrite (H10 HlX) in He. injection He as Hcd _.
  rewrite (start_13 n Hl) in Hscan.
  destruct (scan_prefix_resolution _ _ _ _ Hscan) as (l1 & l2 & Hsplit & Hl1 & Hscan2).
  { rewrite <- HP. done. }
  rewrite !append_nil_l in Hl1, Hscan2. rewrite <- HP in Hl1. subst l1.
  assert (l2 = d) as -> by (apply (inj (String.app p978)); congruence).
  pose proof (scan_with_pfx rmd "" d
                (mkLocals (set_Prefix p978 zeroISBN) p978 "" "" "" registrant.zero)
                ltac:(done)) as Hw.
  rewrite Hscan2 in Hw. cbn [with_pfx ret grp reg pub rs] in Hw.
  exists d, c, (with_pfx "" st). cbn [with_pfx ret].
  split; [by rewrite <- Hbody |]. split; [done |]. split; [done |]. split.
  { unfold expected_check_digit in Hd. by rewrite Hl in Hd. }
  split; [done |]. split; [exact Hw |]. split; [done |].
  destruct x. simpl in *. by subst.
Qed.

(** The loop over [978] and then [d], when 978 is the first key met. *)
Lemma scan_978 (rmd : rangeData) (d : string) :
  rmd !! "9" = None -> rmd !! "97" = None -> is_Some (rmd !! "978") ->
  scan rmd (p978 +:+ d) (mkLocals zeroISBN "" "" "" "" registrant.zero)
  = scan rmd d (mkLocals (set_Prefix p978 zeroISBN) p978 "" "" "" registrant.zero).
Proof.
  intros H9 H97 [m H978].
  change (p978 +:+ d) with (String "9" (String "7" (String "8" d))).
  cbn [scan]. unfold step at 1. cbn [ret pfx grp reg pub rs Prefix zeroISBN].
  rewrite decide_True by done. change (append "" "9") with "9". rewrite H9.
  unfold step at 1. cbn [ret pfx grp reg pub rs Prefix zeroISBN].
  rewrite decide_True by done. change (append "9" "7") with "97". rewrite H97.
  unfold step at 1. cbn [ret pfx grp reg pub rs Prefix zeroISBN].
  rewrite decide_True by done. change (append "97" "8") with "978". rewrite H978.
  reflexivity.
Qed.

Lemma parse_10_of_loop (rmd : rangeData) (d : string) (c : ascii) (st : locals) :
  all_digits d -> String.length d = 9%nat -> is_digit c = true \/ c = "X"%char ->
  spec_render10 (spec_check10 (d +:+ String c "")) = String c "" ->
  HasRangeData rmd = true ->
  scan rmd d (mkLocals (set_Prefix p978 zeroISBN) "" "" "" "" registrant.zero)
  = inl st ->
  parse_stripped rmd (d +:+ String c "")
  = Normal (mkISBN p978 (RegistrationGroup (ret st)) (Registrant (ret st))
              (Publication (ret st)) (Agency (ret st)) (String c "")
              (decimal_digit (spec_check13 (p978 +:+ d +:+ String c ""))) true,
            None).
Proof.
  intros Hd Hld Hc Hcd Hr Hscan. set (n := d +:+ String c "").
  assert (normalized n) as Hn by (exists d, c; auto).
  assert (len n = 10) as Hl by (unfold n; rewrite len_append; unfold len; simpl; lia).
  assert (expected_check_digit n = String c "") as He
    by (unfold expected_check_digit; by rewrite Hl).
  rewrite (parse_stripped_intro rmd n d c) by auto.
  rewrite (start_10 n Hl), Hscan.
  destruct (finish_total n (ret st)) as [y Hy]. rewrite Hy.
  destruct (finish_10 _ _ _ _ _ eq_refl Hn Hl He Hy) as (Hsame & HV & H10 & H13).
  rewrite (ISBN_eq _ _ _ _ Hsame H10 H13 HV).
  assert (Prefix (ret st) = p978) as HP
    by (by apply (scan_keeps_prefix rmd d _ st) in Hscan).
  by rewrite HP.
Qed.

Lemma parse_13_of_loop (rmd : rangeData) (d : string) (c : ascii) (st : locals) :
  all_digits d -> String.length d = 9%nat -> is_digit c = true ->
  decimal_digit (spec_check13 ((p978 +:+ d) +:+ String c "")) = String c "" ->
  HasRangeData rmd = true ->
  rmd !! "9" = None -> rmd !! "97" = None -> is_Some (rmd !! "978") ->
  scan rmd d (mkLocals (set_Prefix p978 zeroISBN) "" "" "" "" registrant.zero)
  = inl st ->
  d = RegistrationGroup (ret st) +:+ Registrant (ret st) +:+ Publication (ret st) ->
  parse_stripped rmd ((p978 +:+ d) +:+ String c "")
  = Normal (mkISBN p978 (RegistrationGroup (ret st)) (Registrant (ret st))
              (Publication (ret st)) (Agency (ret st))
              (spec_render10 (spec_check10 (d +:+ "X"))) (String c "") true,
            None).
Proof.
  intros Hd Hld Hc Hcd Hr H9 H97 H978 Hscan Hfields.
  set (n := (p978 +:+ d) +:+ String c "").
  assert (normalized n) as Hn.
  { exists (p978 +:+ d), c. repeat split; [| by left].
    apply all_digits_append. by split. }
  assert (len n = 13) as Hl
    by (unfold n; rewrite !len_append; unfold len; simpl; lia).
  assert (expected_check_digit n = String c "") as He
    by (unfold expected_check_digit; by rewrite Hl).
  rewrite (parse_stripped_intro rmd n (p978 +:+ d) c) by auto.
  rewrite (start_13 n Hl), scan_978 by done.
  pose proof (scan_with_pfx rmd p978 d
                (mkLocals (set_Prefix p978 zeroISBN) "" "" "" "" registrant.zero)
                ltac:(done)) as Hw.
  rewrite Hscan in Hw. unfold with_pfx in Hw. cbn [ret grp reg pub rs] in Hw.
  rewrite Hw. cbn [ret].
  assert (Prefix (ret st) = p978) as HP
    by (by apply (scan_keeps_prefix rmd d _ st) in Hscan).
  destruct (finish_total n (ret st)) as [y Hy]. rewrite Hy.
  destruct (finish_13 _ _ _ _ _ eq_refl Hn Hl He Hy)
    as (Hsame & HV & H13 & H10 & _).
  destruct (H10 HP) as [e He10].
  replace (RegistrationGroup (ret st) +:+ Registrant (ret st)
           +:+ Publication (ret st) +:+ "X") with (d +:+ "X") in He10
    by (rewrite Hfields; by rewrite !append_assoc).
  assert (normalized (d +:+ "X")) as HnX by (exists d, "X"%char; auto).
  assert (len (d +:+ "X") = 10) as HlX by (rewrite len_append; unfold len; simpl; lia).
  destruct (CalcCheckDigit1x_normalized _ HnX) as [HX _].
  rewrite (HX HlX) in He10. injection He10 as Hcd10 _.
  rewrite (ISBN_eq _ _ _ _ Hsame (eq_sym Hcd10) H13 HV). by rewrite HP.
Qed.

(** * Conversions that parse back to the same record *)

(** X11.  For an accepted input whose registrant has resolved, the
    conversion to the input's own format is the normal form of the input,
    and parsing it again returns the same record. *)
Theorem own_format_round_trip (rmd : rangeData) (s : string) (x : ISBN) :
  ParseISBN rmd s = Normal (x, None) -> Registrant x <> "" ->
  (len (stripISBN s) = 13 ->
   ISBN13 x = stripISBN s /\ ParseISBN rmd (ISBN13 x) = Normal (x, None))
  /\ (len (stripISBN s) = 10 ->
      ISBN10 x = stripISBN s /\ ParseISBN rmd (ISBN10 x) = Normal (x, None)).
Proof.
  intros Hparse HRx.
  assert (ParseISBN rmd (stripISBN s) = Normal (x, None)) as Hagain
    by (unfold ParseISBN in *; by rewrite stripISBN_idem).
  unfold ParseISBN in Hparse. set (n := stripISBN s) in *.
  split; intros Hl.
  - assert (ISBN13 x = n) as ->; [| done].
    destruct (parse_stripped_accepted _ _ _ Hparse)
      as (_ & body & c & st & E & Hn & Hd & _ & Hscan & Hfin).
    destruct (finish_13 _ _ _ _ _ E Hn Hl Hd Hfin) as (Hsame & HV & Hcd13 & _).
    pose proof (same_elements_fields _ _ Hsame) as Hfx.
    destruct Hsame as (_ & _ & HR & _).
    pose proof (start_phase n) as Hph. rewrite Hl in Hph. cbn [Z.eqb Pos.eqb] in Hph.
    pose proof (scan_phase _ _ _ _ _ _ Hph Hscan) as Hend.
    destruct (phase_fields _ _ _ Hend) as (rest & Hf & Hres & _).
    rewrite Hres, !append_nil_l, append_nil_r in Hf by congruence.
    unfold ISBN13. by rewrite HV, fields_assoc, Hfx, Hcd13, <- Hf.
  - assert (ISBN10 x = n) as ->; [| done].
    destruct (accepted_10 _ _ _ Hparse Hl HRx)
      as (d & c & st & E & _ & _ & _ & _ & _ & _ & Hd & _ & ->).
    unfold ISBN10. cbn. rewrite decide_True by done.
    rewrite E, Hd. by rewrite !append_assoc.
Qed.

Lemma own_format_round_trip_witness :
  (len (stripISBN "88 04 47328 2") = 13 ->
   ISBN13 (mkISBN "978" "88" "04" "47328" "Italy" "2" "2" true)
   = stripISBN "88 04 47328 2"
   /\ ParseISBN sample_rmd (ISBN13 (mkISBN "978" "88" "04" "47328" "Italy" "2" "2" true))
      = Normal (mkISBN "978" "88" "04" "47328" "Italy" "2" "2" true, None))
  /\ (len (stripISBN "88 04 47328 2") = 10 ->
      ISBN10 (mkISBN "978" "88" "04" "47328" "Italy" "2" "2" true)
      = stripISBN "88 04 47328 2"
      /\ ParseISBN sample_rmd (ISBN10 (mkISBN "978" "88" "04" "47328" "Italy" "2" "2" true))
         = Normal (mkISBN "978" "88" "04" "47328" "Italy" "2" "2" true, None)).
Proof.
  apply (own_format_round_trip sample_rmd "88 04 47328 2").
  - vm_compute. reflexivity.
  - discriminate.
Defined.

(** X12.  For an accepted 10-digit input whose registrant has resolved, and
    a table in which neither [9] nor [97] is a prefix, parsing the ISBN-13 of
    the result returns the same record. *)
Theorem ISBN13_round_trip (rmd : rangeData) (s : string) (x : ISBN) :
  ParseISBN rmd s = Normal (x, None) ->
  len (stripISBN s) = 10 -> Registrant x <> "" ->
  rmd !! "9" = None -> rmd !! "97" = None ->
  ParseISBN rmd (ISBN13 x) = Normal (x, None).
Proof.
  intros Hparse Hl HRx H9 H97.
  destruct (ParseISBN_resolution _ _ _ Hparse)
    as (body0 & c0 & rest0 & rs0 & _ & _ & HP978 & _ & _ & _ & H4 & H5).
  assert (is_Some (rmd !! "978")) as H978.
  { assert (RegistrationGroup x <> "") as HG by (intros HG; by destruct (H4 HG)).
    destruct (H5 HG) as (_ & Hrs & _). rewrite (HP978 Hl) in Hrs.
    unfold lookup_group, p978 in Hrs. destruct (rmd !! "978"); [by eexists |].
    unfold default in Hrs. by rewrite lookup_empty in Hrs. }
  unfold ParseISBN in Hparse.
  destruct (accepted_10 _ _ _ Hparse Hl HRx)
    as (d & c & st & E & Hld & Hd & Hcd & Hr & Hscan & HP & Hfields & HRst & Hx).
  destruct (expected_check_digit_byte (p978 +:+ stripISBN s)) as (c13 & Hc13 & Hok).
  assert (len (p978 +:+ stripISBN s) = 13) as Hl13
    by (rewrite len_append, Hl; reflexivity).
  unfold expected_check_digit in Hc13. rewrite Hl13 in Hc13.
  cbn [Z.eqb Pos.eqb] in Hc13.
  destruct Hok as [Hok | [_ Hbad]]; [| lia].
  assert (ISBN13 x = (p978 +:+ d) +:+ String c13 "") as HI.
  { rewrite Hx. unfold ISBN13. cbn. rewrite Hc13, Hfields.
    by rewrite !append_assoc. }
  unfold ParseISBN. rewrite HI.
  assert (normalized ((p978 +:+ d) +:+ String c13 "")) as Hn13.
  { exists (p978 +:+ d), c13. repeat split; [| by left].
    apply all_digits_append. by split. }
  rewrite (stripISBN_normalized _ Hn13).
  rewrite (parse_13_of_loop rmd d c13 st); try done.
  - rewrite Hx, Hc13, <- Hcd, E.
    by rewrite (spec_check10_front d "X" (String c "") Hld).
  - rewrite (spec_check13_front (p978 +:+ d) (String c13 "") (String c ""))
      by (rewrite length_append, Hld; reflexivity).
    by rewrite append_assoc, <- E.
Qed.

Lemma ISBN13_round_trip_witness :
  ParseISBN sample_rmd
    (ISBN13 (mkISBN "978" "0" "89686" "281" "English language" "X" "4" true))
  = Normal (mkISBN "978" "0" "89686" "281" "English language" "X" "4" true, None).
Proof.
  apply (ISBN13_round_trip sample_rmd "089686281x").
  - vm_compute. reflexivity.
  - vm_compute. reflexivity.
  - discriminate.
  - vm_compute. reflexivity.
  - vm_compute. reflexivity.
Defined.

(** X13.  For an accepted 13-digit input with prefix 978 whose registrant
    has resolved, parsing the ISBN-10 of the result returns the same
    record. *)
Theorem ISBN10_reparses_to_same_record (rmd : rangeData) (s : string) (x : ISBN) :
  ParseISBN rmd s = Normal (x, None) ->
  len (stripISBN s) = 13 -> Prefix x = p978 -> Registrant x <> "" ->
  ParseISBN rmd (ISBN10 x) = Normal (x, None).
Proof.
  intros Hparse Hl HPx HRx. unfold ParseISBN in Hparse.
  destruct (accepted_13_978 _ _ _ Hparse Hl HPx HRx)
    as (d & c & st & E & Hld & Hd & Hcd & Hr & Hscan & Hfields & Hx).
  destruct (spec_render10_byte (spec_check10 (d +:+ "X")) (spec_check10_range _))
    as (c10 & Hc10 & Hok).
  assert (ISBN10 x = d +:+ String c10 "") as HI.
  { rewrite Hx. unfold ISBN10. cbn. rewrite decide_True by done.
    rewrite Hc10, Hfields. by rewrite !append_assoc. }
  unfold ParseISBN. rewrite HI.
  assert (normalized (d +:+ String c10 "")) as Hn10 by (exists d, c10; auto).
  rewrite (stripISBN_normalized _ Hn10).
  rewrite (parse_10_of_loop rmd d c10 st); try done.
  - rewrite Hx, Hc10, <- Hcd, E, <- append_assoc.
    by rewrite (spec_check13_front (p978 +:+ d) (String c10 "") (String c ""))
      by (rewrite length_append, Hld; reflexivity).
  - by rewrite (spec_check10_front d (String c10 "") "X" Hld).
Qed.

Lemma ISBN10_reparses_to_same_record_witness :
  ParseISBN sample_rmd
    (ISBN10 (mkISBN "978" "0" "590" "13205" "English language" "9" "3" true))
  = Normal (mkISBN "978" "0" "590" "13205" "English language" "9" "3" true, None).
Proof.
  apply (ISBN10_reparses_to_same_record sample_rmd "9780590132053").
  - vm_compute. reflexivity.
  - vm_compute. reflexivity.
  - reflexivity.
  - discriminate.
Defined.

(** * Errors the check digit detects *)

Lemma spec_checksum10_weighted (s : string) :
  spec_checksum10 s = weighted_sum weights10 s.
Proof.
  unfold spec_checksum10, weights10, sumZ, digit.
  do 9 (destruct s as [|? s]; [cbn; lia |]). cbn. lia.
Qed.

Lemma spec_checksum13_weighted (s : string) :
  spec_checksum13 s = weighted_sum weights13 s.
Proof.
  unfold spec_checksum13, weights13, sumZ, digit.
  do 12 (destruct s as [|? s]; [cbn; lia |]). cbn. lia.
Qed.

(** Replacing one byte changes the sum by the weight of its position times
    the difference of the two values. *)
Lemma weighted_sum_substitute (ws : list Z) (a b : string) (c c' : ascii) :
  weighted_sum ws (a +:+ String c b)
  = weighted_sum ws (a +:+ String c' b)
    + nth (String.length a) ws 0 * (code c - code c').
Proof.
  revert ws. induction a as [|x a IH]; intros [|w ws].
  - cbn. lia.
  - rewrite !append_nil_l. cbn. lia.
  - rewrite !append_cons. cbn. destruct (String.length a); lia.
  - rewrite !append_cons. cbn [weighted_sum String.length nth]. rewrite (IH ws). lia.
Qed.

(** Swapping two neighbours changes the sum by the difference of their
    weights times the difference of their values. *)
Lemma weighted_sum_transpose (ws : list Z) (a b : string) (c c' : ascii) :
  weighted_sum ws (a +:+ String c (String c' b))
  = weighted_sum ws (a +:+ String c' (String c b))
    + (nth (String.length a) ws 0 - nth (S (String.length a)) ws 0)
      * (code c - code c').
Proof.
  revert ws. induction a as [|x a IH]; intros [|w ws].
  - cbn. lia.
  - rewrite !append_nil_l. destruct ws as [|w' ws]; cbn; lia.
  - rewrite !append_cons. cbn. destruct (String.length a); lia.
  - rewrite !append_cons. cbn [weighted_sum String.length nth]. rewrite (IH ws). lia.
Qed.

Lemma spec_render10_inj (u v : Z) :
  0 <= u <= 10 -> 0 <= v <= 10 -> spec_render10 u = spec_render10 v -> u = v.
Proof.
  intros Hu Hv. small_cases u; small_cases v; intros H;
    try reflexivity; try lia; discriminate H.
Qed.

Lemma decimal_digit_inj (u v : Z) :
  0 <= u <= 9 -> 0 <= v <= 9 -> decimal_digit u = decimal_digit v -> u = v.
Proof.
  intros Hu Hv. small_cases u; small_cases v; intros H;
    try reflexivity; try lia; discriminate H.
Qed.

Lemma code_inj (c c' : ascii) : code c = code c' -> c = c'.
Proof.
  unfold code. intros H. apply N2Z.inj in H.
  by rewrite <- (ascii_N_embedding c), <- (ascii_N_embedding c'), H.
Qed.

(** A weighted difference that is not a multiple of the modulus changes the
    check value. *)
Lemma check13_differs (S' w delta : Z) :
  w = 1 \/ w = 3 -> - 9 <= delta <= 9 -> delta <> 0 ->
  (10 - (S' + w * delta) mod 10) mod 10 <> (10 - S' mod 10) mod 10.
Proof.
  intros Hw Hd Hne H. destruct Hw as [-> | ->]; Z.div_mod_to_equations; lia.
Qed.

Lemma check10_differs (S' w delta : Z) :
  1 <= w <= 10 -> - 10 <= delta <= 10 -> delta <> 0 ->
  (11 - (S' + w * delta) mod 11) mod 11 <> (11 - S' mod 11) mod 11.
Proof.
  intros Hw Hd Hne H.
  assert (w = 1 \/ w = 2 \/ w = 3 \/ w = 4 \/ w = 5 \/ w = 6 \/ w = 7 \/ w = 8
          \/ w = 9 \/ w = 10) as D by lia.
  repeat (destruct D as [-> | D]; [Z.div_mod_to_equations; lia |]).
  subst w. Z.div_mod_to_equations. lia.
Qed.

Lemma weight10_range (k : nat) :
  (k <= 8)%nat -> 1 <= nth k weights10 0 <= 10.
Proof. intros H. do 9 (destruct k as [|k]; [cbn; lia |]). lia. Qed.

Lemma weight10_step (k : nat) :
  (k <= 7)%nat -> nth k weights10 0 - nth (S k) weights10 0 = 1.
Proof. intros H. do 8 (destruct k as [|k]; [reflexivity |]). lia. Qed.

Lemma weight13_cases (k : nat) :
  (k <= 11)%nat -> nth k weights13 0 = 1 \/ nth k weights13 0 = 3.
Proof. intros H. do 12 (destruct k as [|k]; [cbn; lia |]). lia. Qed.

Lemma all_digits_middle (a b : string) (c : ascii) :
  all_digits (a +:+ String c b) -> 48 <= code c <= 57.
Proof.
  intros H. apply all_digits_append in H as [_ H].
  apply all_digits_cons in H as [H _]. by apply is_digit_code.
Qed.

(** The check digit a string in normal form should have differs after the
    substitution of one of the digits before the last byte. *)
Lemma expected_check_digit_substitute (a b : string) (c c' : ascii) (l : ascii) :
  let n := (a +:+ String c b) +:+ String l "" in
  let n' := (a +:+ String c' b) +:+ String l "" in
  normalized n -> normalized n' -> len n = 10 \/ len n = 13 -> c <> c' ->
  expected_check_digit n <> expected_check_digit n'.
Proof.
  intros n n' Hn Hn' Hl Hc.
  apply normalized_snoc in Hn as [Hd _]. apply normalized_snoc in Hn' as [Hd' _].
  pose proof (all_digits_middle _ _ _ Hd) as Hcode.
  pose proof (all_digits_middle _ _ _ Hd') as Hcode'.
  assert (code c - code c' <> 0) as Hdelta
    by (intros H; apply Hc, code_inj; lia).
  assert (len n' = len n) as Hlen by (unfold n, n'; by rewrite !len_append).
  assert (Z.of_nat (String.length a) + len b + 2 = len n) as Hpos.
  { unfold n. rewrite !len_append. unfold len. simpl. lia. }
  unfold expected_check_digit. rewrite Hlen.
  pose proof (len_nonneg b) as Hb.
  destruct Hl as [Hl | Hl]; rewrite Hl; cbn [Z.eqb Pos.eqb]; intros H.
  - apply spec_render10_inj in H; [| apply spec_check10_range..].
    unfold spec_check10 in H. rewrite !spec_checksum10_weighted in H.
    unfold n, n' in H.
    rewrite !append_assoc, !append_cons in H.
    rewrite (weighted_sum_substitute _ a (b +:+ String l "") c c') in H.
    revert H. apply check10_differs; [| lia | done].
    apply weight10_range. lia.
  - apply decimal_digit_inj in H; [| apply spec_check13_range..].
    unfold spec_check13 in H. rewrite !spec_checksum13_weighted in H.
    unfold n, n' in H.
    rewrite !append_assoc, !append_cons in H.
    rewrite (weighted_sum_substitute _ a (b +:+ String l "") c c') in H.
    revert H. apply check13_differs; [| lia | done].
    apply weight13_cases. lia.
Qed.

(** X14.  No single substitution goes unnoticed: when a string in normal
    form of length 10 or 13 has a correct check digit, the string in normal
    form that differs from it in exactly one byte (a digit, or the check
    character itself) fails [chkCheckDigit] with the check-digit error. *)
Theorem chkCheckDigit_detects_substitution (a b : string) (c c' : ascii) :
  normalized (a +:+ String c b) -> normalized (a +:+ String c' b) ->
  len (a +:+ String c b) = 10 \/ len (a +:+ String c b) = 13 ->
  c <> c' ->
  chkCheckDigit (a +:+ String c b) = Normal (true, None) ->
  chkCheckDigit (a +:+ String c' b) = Normal (false, Some errCheckDigit).
Proof.
  intros Hn Hn' Hl Hc Hok.
  assert (len (a +:+ String c' b) = len (a +:+ String c b)) as Hlen
    by (by rewrite !len_append).
  destruct (decide (b = "")) as [-> | Hb].
  - rewrite (chkCheckDigit_snoc a c _ eq_refl Hn Hl) in Hok.
    rewrite (chkCheckDigit_snoc a c' _ eq_refl Hn') by (by rewrite Hlen).
    case_decide as He; [| done].
    rewrite decide_False; [done |].
    rewrite <- (expected_check_digit_front a (String c "") (String c' "")), He;
      [congruence | by rewrite Hlen | done | done].
  - destruct (last_byte b Hb) as (b' & l & ->).
    assert (forall x, a +:+ String x (b' +:+ String l "")
                      = (a +:+ String x b') +:+ String l "") as Ex
      by (intros x; by rewrite append_assoc, append_cons).
    rewrite !Ex in *.
    rewrite (chkCheckDigit_snoc _ l _ eq_refl Hn Hl) in Hok.
    rewrite (chkCheckDigit_snoc _ l _ eq_refl Hn') by (by rewrite Hlen).
    case_decide as He; [| done].
    rewrite decide_False; [done |].
    intros H.
    apply (expected_check_digit_substitute a b' c c' l Hn Hn' Hl Hc). congruence.
Qed.

Lemma chkCheckDigit_detects_substitution_witness :
  chkCheckDigit ("97805" +:+ String "7" "0132053")
  = Normal (false, Some errCheckDigit).
Proof.
  apply (chkCheckDigit_detects_substitution "97805" "0132053" "9" "7").
  - exists "978059013205", "3"%char.
    split; [reflexivity | split; [reflexivity | left; reflexivity]].
  - exists "978057013205", "3"%char.
    split; [reflexivity | split; [reflexivity | left; reflexivity]].
  - right. reflexivity.
  - discriminate.
  - vm_compute. reflexivity.
Defined.

Lemma weight13_step (k : nat) :
  (k <= 10)%nat ->
  nth k weights13 0 - nth (S k) weights13 0 = 2
  \/ nth k weights13 0 - nth (S k) weights13 0 = - 2.
Proof. intros H. do 11 (destruct k as [|k]; [cbn; lia |]). lia. Qed.

Lemma check13_same_iff (S' w delta : Z) :
  w = 2 \/ w = - 2 -> - 9 <= delta <= 9 ->
  (10 - (S' + w * delta) mod 10) mod 10 = (10 - S' mod 10) mod 10
  <-> delta = 0 \/ delta = 5 \/ delta = - 5.
Proof.
  intros Hw Hd. split.
  - intros H. destruct Hw as [-> | ->]; Z.div_mod_to_equations; lia.
  - intros [-> | [-> | ->]]; destruct Hw as [-> | ->];
      Z.div_mod_to_equations; lia.
Qed.

Lemma normalized_transpose (a b : string) (c c' l : ascii) :
  normalized ((a +:+ String c (String c' b)) +:+ String l "") ->
  normalized ((a +:+ String c' (String c b)) +:+ String l "")
  /\ 48 <= code c <= 57 /\ 48 <= code c' <= 57.
Proof.
  intros Hn. apply normalized_snoc in Hn as [Hd Hl].
  apply all_digits_append in Hd as [Ha Hd].
  apply all_digits_cons in Hd as [Hc Hd]. apply all_digits_cons in Hd as [Hc' Hd].
  split; [| split; by apply is_digit_code].
  eexists _, l. split; [reflexivity |]. split; [| done].
  apply all_digits_append. split; [done |].
  apply all_digits_cons. split; [done |]. by apply all_digits_cons.
Qed.

(** X15.  In a 10-byte string in normal form with a correct check digit,
    swapping two different neighbouring digits among the first nine makes
    [chkCheckDigit] fail with the check-digit error. *)
Theorem chkCheckDigit10_detects_transposition (a b : string) (c c' l : ascii) :
  let n := (a +:+ String c (String c' b)) +:+ String l "" in
  let n' := (a +:+ String c' (String c b)) +:+ String l "" in
  normalized n -> len n = 10 -> c <> c' ->
  chkCheckDigit n = Normal (true, None) ->
  chkCheckDigit n' = Normal (false, Some errCheckDigit).
Proof.
  intros n n' Hn Hl Hc Hok.
  destruct (normalized_transpose _ _ _ _ _ Hn) as (Hn' & Hcode & Hcode').
  fold n' in Hn'.
  assert (len n' = 10) as Hl'.
  { rewrite <- Hl. unfold n, n'. rewrite !len_append. unfold len. simpl. lia. }
  rewrite (chkCheckDigit_snoc _ l n eq_refl Hn (or_introl Hl)) in Hok.
  rewrite (chkCheckDigit_snoc _ l n' eq_refl Hn' (or_introl Hl')).
  case_decide as He; [| done].
  rewrite decide_False; [done |]. intros He'.
  assert (expected_check_digit n = expected_check_digit n') as H by congruence.
  unfold expected_check_digit in H. rewrite Hl, Hl' in H. cbn [Z.eqb Pos.eqb] in H.
  apply spec_render10_inj in H; [| apply spec_check10_range..].
  unfold spec_check10 in H. rewrite !spec_checksum10_weighted in H.
  unfold n, n' in H. rewrite !append_assoc, !append_cons in H.
  rewrite (weighted_sum_transpose _ a (b +:+ String l "") c c') in H.
  assert (String.length a <= 7)%nat as Hk.
  { unfold n in Hl. rewrite !len_append in Hl. unfold len in Hl. simpl in Hl. lia. }
  rewrite (weight10_step _ Hk) in H.
  revert H. apply check10_differs; [lia | lia |].
  intros Hz. apply Hc, code_inj. lia.
Qed.

Lemma chkCheckDigit10_detects_transposition_witness :
  chkCheckDigit (("05" +:+ String "7" (String "4" "92824")) +:+ String "6" "")
  = Normal (false, Some errCheckDigit).
Proof.
  apply (chkCheckDigit10_detects_transposition "05" "92824" "4" "7" "6").
  - exists "054792824", "6"%char.
    split; [reflexivity | split; [reflexivity | left; reflexivity]].
  - reflexivity.
  - discriminate.
  - vm_compute. reflexivity.
Defined.

(** X16.  In a 13-byte string in normal form with a correct check digit,
    swapping two neighbouring digits among the first twelve goes unnoticed
    by [chkCheckDigit] exactly when the two digits are equal or differ by
    five; every other swap fails with the check-digit error. *)
Theorem chkCheckDigit13_transposition (a b : string) (c c' l : ascii) :
  let n := (a +:+ String c (String c' b)) +:+ String l "" in
  let n' := (a +:+ String c' (String c b)) +:+ String l "" in
  normalized n -> len n = 13 ->
  chkCheckDigit n = Normal (true, None) ->
  (chkCheckDigit n' = Normal (true, None)
   <-> code c - code c' = 0 \/ code c - code c' = 5 \/ code c - code c' = - 5)
  /\ (chkCheckDigit n' = Normal (true, None)
      \/ chkCheckDigit n' = Normal (false, Some errCheckDigit)).
Proof.
  intros n n' Hn Hl Hok.
  destruct (normalized_transpose _ _ _ _ _ Hn) as (Hn' & Hcode & Hcode').
  fold n' in Hn'.
  assert (len n' = 13) as Hl'.
  { rewrite <- Hl. unfold n, n'. rewrite !len_append. unfold len. simpl. lia. }
  rewrite (chkCheckDigit_snoc _ l n eq_refl Hn (or_intror Hl)) in Hok.
  rewrite (chkCheckDigit_snoc _ l n' eq_refl Hn' (or_intror Hl')).
  case_decide as He; [| done].
  assert (String.length a <= 10)%nat as Hk.
  { unfold n in Hl. rewrite !len_append in Hl. unfold len in Hl. simpl in Hl. lia. }
  assert (expected_check_digit n = expected_check_digit n'
          <-> code c - code c' = 0 \/ code c - code c' = 5 \/ code c - code c' = - 5)
    as Hiff.
  { unfold expected_check_digit. rewrite Hl, Hl'. cbn [Z.eqb Pos.eqb].
    unfold spec_check13. rewrite !spec_checksum13_weighted.
    unfold n, n'. rewrite !append_assoc, !append_cons.
    rewrite (weighted_sum_transpose _ a (b +:+ String l "") c c').
    rewrite <- (check13_same_iff
                  (weighted_sum weights13
                     (a +:+ String c' (String c (b +:+ String l ""))))
                  _ (code c - code c') (weight13_step _ Hk)) by lia.
    split; [| by intros ->].
    apply decimal_digit_inj.
    - pose proof (Z.mod_pos_bound
                    (10 - (weighted_sum weights13
                             (a +:+ String c' (String c (b +:+ String l "")))
                           + (nth (String.length a) weights13 0
                              - nth (S (String.length a)) weights13 0)
                             * (code c - code c')) mod 10) 10). lia.
    - pose proof (Z.mod_pos_bound
                    (10 - weighted_sum weights13
                            (a +:+ String c' (String c (b +:+ String l ""))) mod 10)
                    10). lia. }
  split.
  - rewrite <- Hiff. case_decide as He'; split; try done; try congruence.
  - case_decide; auto.
Qed.

Lemma chkCheckDigit13_transposition_witness :
  (chkCheckDigit (("97" +:+ String "0" (String "8" "59013205"))
                  +:+ String "3" "")
   = Normal (true, None)
   <-> code "8" - code "0" = 0 \/ code "8" - code "0" = 5
       \/ code "8" - code "0" = - 5)
  /\ (chkCheckDigit (("97" +:+ String "0" (String "8" "59013205")) +:+ String "3" "")
      = Normal (true, None)
      \/ chkCheckDigit (("97" +:+ String "0" (String "8" "59013205")) +:+ String "3" "")
         = Normal (false, Some errCheckDigit)).
Proof.
  apply (chkCheckDigit13_transposition "97" "59013205" "8" "0" "3").
  - exists "978059013205", "3"%char.
    split; [reflexivity | split; [reflexivity | left; reflexivity]].
  - reflexivity.
  - vm_compute. reflexivity.
Defined.

(** * The displayed form *)

Lemma stripISBN_hyphen (t : string) : stripISBN ("-" +:+ t) = stripISBN t.
Proof. reflexivity. Qed.

Lemma stripISBN_joined (a t : string) :
  all_digits a -> stripISBN (a +:+ "-" +:+ t) = a +:+ stripISBN t.
Proof.
  intros Ha. by rewrite stripISBN_append, stripISBN_hyphen, (stripISBN_digits a Ha).
Qed.

Lemma all_digits_fields (x : ISBN) :
  all_digits (fields x) ->
  all_digits (Prefix x) /\ all_digits (RegistrationGroup x)
  /\ all_digits (Registrant x) /\ all_digits (Publication x).
Proof.
  unfold fields. intros H.
  apply all_digits_append in H as [H1 H]. apply all_digits_append in H as [H2 H].
  apply all_digits_append in H as [H3 H4]. done.
Qed.

(** X17.  For an accepted 13-digit input whose prefix is not 978 and whose
    registrant has resolved, the hyphenated [String] of the result parses
    back to the same record. *)
Theorem String_round_trip (rmd : rangeData) (s : string) (x : ISBN) :
  ParseISBN rmd s = Normal (x, None) ->
  len (stripISBN s) = 13 -> Prefix x <> p978 -> Registrant x <> "" ->
  ParseISBN rmd (String_ x) = Normal (x, None).
Proof.
  intros Hparse Hl HPx HRx. unfold ParseISBN in *. set (n := stripISBN s) in *.
  assert (stripISBN (String_ x) = n) as ->; [| done].
  destruct (parse_stripped_accepted _ _ _ Hparse)
    as (_ & body & c & st & E & Hn & Hd & _ & Hscan & Hfin).
  destruct (finish_13 _ _ _ _ _ E Hn Hl Hd Hfin) as (Hsame & HV & Hcd13 & _).
  pose proof (same_elements_fields _ _ Hsame) as Hfx.
  destruct Hsame as (_ & _ & HR & _).
  pose proof (start_phase n) as Hph. rewrite Hl in Hph. cbn [Z.eqb Pos.eqb] in Hph.
  pose proof (scan_phase _ _ _ _ _ _ Hph Hscan) as Hend.
  destruct (phase_fields _ _ _ Hend) as (rest & Hf & Hres & _).
  rewrite Hres, !append_nil_l, append_nil_r, <- Hfx in Hf by congruence.
  destruct (normalized_snoc body c) as [Hb Hc]; [by rewrite <- E |].
  rewrite Hf in Hb. destruct (all_digits_fields x Hb) as (H1 & H2 & H3 & H4).
  unfold String_. rewrite HV, decide_False by done. cbn [Join].
  rewrite !stripISBN_joined, Hcd13, (stripISBN_clean_byte c Hc) by done.
  by rewrite fields_assoc, <- Hf.
Qed.

Lemma String_round_trip_witness :
  ParseISBN sample_rmd_979
    (String_ (mkISBN "979" "10" "90636" "07" "France" "" "1" true))
  = Normal (mkISBN "979" "10" "90636" "07" "France" "" "1" true, None).
Proof.
  apply (String_round_trip sample_rmd_979 "979-10-90636-07-1").
  - vm_compute. reflexivity.
  - vm_compute. reflexivity.
  - discriminate.
  - discriminate.
Defined.

Lemma String_978_length (G R P A : string) (c10 c13 : ascii) :
  all_digits (G +:+ R +:+ P) -> String.length (G +:+ R +:+ P) = 9%nat ->
  is_digit c10 = true \/ c10 = "X"%char -> is_digit c13 = true \/ c13 = "X"%char ->
  len (stripISBN (String_ (mkISBN p978 G R P A (String c10 "") (String c13 "") true)))
  = 25.
Proof.
  intros Hd Hlen H10 H13.
  apply all_digits_append in Hd as [HG Hd]. apply all_digits_append in Hd as [HR HP].
  unfold String_. cbn [IsValid Prefix RegistrationGroup Registrant Publication
                         CheckDigit10 CheckDigit13 Join].
  rewrite decide_True by done.
  rewrite !append_assoc.
  rewrite !stripISBN_joined by done.
  rewrite (stripISBN_append (String c13 "")), (stripISBN_clean_byte c13 H13).
  change (stripISBN (" (" +:+ ?t)) with (String "(" (stripISBN t)).
  rewrite !stripISBN_joined by done.
  rewrite (stripISBN_append (String c10 "")), (stripISBN_clean_byte c10 H10).
  change (stripISBN ")") with ")".
  rewrite !length_append in Hlen.
  rewrite !len_append. unfold len. cbn [String.length]. rewrite !length_append.
  cbn [String.length]. change (String.length p978) with 3%nat. lia.
Qed.

(** X18.  For an accepted input with prefix 978 whose registrant has
    resolved, [String] appends the ISBN-10 in parentheses, and that text
    does not parse: [ParseISBN] fails on it with the length error. *)
Theorem String_978_does_not_parse (rmd : rangeData) (s : string) (x : ISBN) :
  ParseISBN rmd s = Normal (x, None) ->
  Prefix x = p978 -> Registrant x <> "" ->
  ParseISBN rmd (String_ x) = Normal (zeroISBN, Some errLength).
Proof.
  intros Hparse HPx HRx. unfold ParseISBN in *.
  assert (len (stripISBN (String_ x)) = 25) as Hlen.
  { destruct (parse_stripped_accepted _ _ _ Hparse) as (Hl & _).
    destruct Hl as [Hl | Hl].
    - destruct (accepted_10 _ _ _ Hparse Hl HRx)
        as (d & c & st & E & Hld & Hd & Hcd & _ & _ & _ & Hf & _ & ->).
      destruct (spec_render10_byte _ (spec_check10_range (stripISBN s)))
        as (c' & Hc' & Hok).
      assert (c' = c) as -> by congruence.
      apply String_978_length; rewrite <- ?Hf; try done.
      left. unfold decimal_digit.
      pose proof (spec_check13_range (p978 +:+ stripISBN s)) as Hr. revert Hr.
      generalize (spec_check13 (p978 +:+ stripISBN s)). intros v Hr.
      small_cases v; (reflexivity || lia).
    - destruct (accepted_13_978 _ _ _ Hparse Hl HPx HRx)
        as (d & c & st & E & Hld & Hd & Hcd & _ & _ & Hf & ->).
      destruct (spec_render10_byte _ (spec_check10_range (d +:+ "X")))
        as (c10 & -> & Hok).
      destruct (normalized_snoc (p978 +:+ d) c) as [_ Hc].
      { rewrite <- E.
        by destruct (parse_stripped_accepted _ _ _ Hparse) as (_ & ? & ? & ? & _ & ? & _). }
      apply String_978_length; rewrite <- ?Hf; done. }
  destruct (parse_stripped_cases rmd (stripISBN (String_ x)))
    as [(_ & _ & ->) | ([Hl | Hl] & _)]; [done | lia | lia].
Qed.

Lemma String_978_does_not_parse_witness :
  ParseISBN sample_rmd
    (String_ (mkISBN "978" "0" "547" "92824" "English language" "6" "1" true))
  = Normal (zeroISBN, Some errLength).
Proof.
  apply (String_978_does_not_parse sample_rmd "0547928246").
  - vm_compute. reflexivity.
  - reflexivity.
  - discriminate.
Defined.


(** ** The loader *)

Lemma bind_Normal_inv {A B : Type} (m : go A) (f : A -> go B) (b : B) :
  m ≫= f = Normal b -> exists a, m = Normal a /\ f a = Normal b.
Proof. destruct m as [a |]; [by exists a | done]. Qed.

Lemma lookup_group_insert (rmd : rangeData) (p g p' g' : string) (reg : registrant.t) :
  lookup_group (<[p := <[g := reg]> (default ∅ (rmd !! p))]> rmd) p' g'
  = if decide (p = p' /\ g = g') then Some reg else lookup_group rmd p' g'.
Proof.
  unfold lookup_group.
  destruct (decide (p = p')) as [<- | Hp].
  - rewrite lookup_insert_eq. cbn [from_option id].
    destruct (decide (g = g')) as [<- | Hg].
    + rewrite lookup_insert_eq. by rewrite decide_True.
    + rewrite lookup_insert_ne by done. rewrite decide_False by (intros [_ ?]; done).
      done.
  - rewrite lookup_insert_ne by done. by rewrite decide_False by (intros [? _]; done).
Qed.

Lemma HasRangeData_true (rmd : rangeData) :
  HasRangeData rmd = true <-> rmd <> ∅.
Proof.
  unfold HasRangeData. rewrite Z.ltb_lt.
  split.
  - intros H ->. rewrite map_size_empty in H. lia.
  - intros H. apply map_size_non_empty_iff in H. lia.
Qed.

Section LoaderFacts.

Context (toInt : string -> Z * option error).

Lemma load_rule_spec (reg : registrant.t) (log : list error) (rule : xml.Rule)
    (reg' : registrant.t) (log' : list error) :
  load_rule toInt (reg, log) rule = Normal (reg', log') ->
  registrant.Agency reg' = registrant.Agency reg
  /\ (registrant.Ranges reg' = registrant.Ranges reg
      \/ exists r, registrant.Ranges reg' = (registrant.Ranges reg ++ [r])%list
                   /\ rule_range toInt rule r).
Proof.
  unfold load_rule.
  destruct (toInt (xml.Length rule)) as [n [e |]] eqn:HL.
  { intros [= <- <-]. auto. }
  destruct (0 <? n) eqn:Hn; [| intros [= <- <-]; auto].
  intros H.
  apply bind_Normal_inv in H as (lo & Hlo & H).
  apply bind_Normal_inv in H as (s0 & Hs0 & H).
  destruct (toInt s0) as [a [e |]] eqn:Ha.
  { injection H as <- <-. auto. }
  apply bind_Normal_inv in H as (hi & Hhi & H).
  apply bind_Normal_inv in H as (s1 & Hs1 & H).
  destruct (toInt s1) as [b [e |]] eqn:Hb.
  { injection H as <- <-. auto. }
  destruct (b =? 0) eqn:Hb0.
  { injection H as <- <-. auto. }
  injection H as <- <-. cbn [registrant.Agency registrant.Ranges].
  split; [done |]. right. exists (mkRange a b n). split; [done |].
  unfold rule_range. cbn [rStart rEnd rLen].
  split; [done |]. split; [lia |]. split; [lia |].
  unfold token in Hlo, Hhi.
  destruct (Split (xml.Range rule)) as [| lo' [| hi' rest]]; try done.
  cbn in Hlo, Hhi. injection Hlo as ->. injection Hhi as ->.
  by exists lo, hi, rest, s0, s1.
Qed.

Lemma load_rules_spec (rules : list xml.Rule) (reg : registrant.t) (log : list error)
    (reg' : registrant.t) (log' : list error) :
  load_rules toInt (reg, log) rules = Normal (reg', log') ->
  registrant.Agency reg' = registrant.Agency reg
  /\ exists new,
       registrant.Ranges reg' = (registrant.Ranges reg ++ new)%list
       /\ Forall (fun r => exists rule, In rule rules /\ rule_range toInt rule r) new.
Proof.
  revert reg log.
  induction rules as [| rule rules IH]; intros reg log H.
  - injection H as <- <-. split; [done |]. exists []. by rewrite app_nil_r.
  - cbn [load_rules] in H. apply bind_Normal_inv in H as ([reg1 log1] & H1 & H).
    apply load_rule_spec in H1 as [HA1 HR1].
    apply IH in H as (HA & new & HR & Hnew).
    split; [congruence |].
    assert (Forall (fun r => exists rule0, In rule0 (rule :: rules)
                                           /\ rule_range toInt rule0 r) new) as Hnew'.
    { eapply Forall_impl; [exact Hnew |].
      intros r (rule0 & Hin & Hr). exists rule0. split; [by right | done]. }
    destruct HR1 as [HR1 | (r & HR1 & Hr)].
    + exists new. split; [congruence | done].
    + exists (r :: new). split.
      * rewrite HR, HR1, <- app_assoc. done.
      * constructor; [| done]. exists rule. split; [by left | done].
Qed.

Lemma load_group_spec (rmd : rangeData) (log : list error) (rg : xml.Group)
    (rmd' : rangeData) (log' : list error) :
  load_group toInt (rmd, log) rg = Normal (rmd', log') ->
  exists p g reg,
    group_key rg p g /\ built_from toInt rg reg
    /\ rmd' = <[p := <[g := reg]> (default ∅ (rmd !! p))]> rmd.
Proof.
  unfold load_group. intros H.
  apply bind_Normal_inv in H as (p & Hp & H).
  apply bind_Normal_inv in H as (g & Hg & H).
  apply bind_Normal_inv in H as ([reg log1] & Hreg & H).
  injection H as <- <-.
  exists p, g, reg. split.
  { unfold group_key. unfold token in Hp, Hg.
    destruct (Split (xml.Prefix rg)) as [| p' [| g' rest]]; try done.
    cbn in Hp, Hg. injection Hp as ->. injection Hg as ->. by exists rest. }
  split; [| done].
  apply load_rules_spec in Hreg as (HA & new & HR & Hnew).
  cbn [registrant.Agency registrant.Ranges] in HA, HR.
  split; [done |]. rewrite HR. done.
Qed.

(** Every entry of the table after the loop satisfies what the entries
    before it and the entries built from the groups satisfy. *)
Lemma load_groups_entries (Q : string -> string -> registrant.t -> Prop)
    (groups : list xml.Group) (rmd : rangeData) (log : list error)
    (rmd' : rangeData) (log' : list error) :
  load_groups toInt (rmd, log) groups = Normal (rmd', log') ->
  (forall rg p g reg,
      In rg groups -> group_key rg p g -> built_from toInt rg reg -> Q p g reg) ->
  (forall p g reg, lookup_group rmd p g = Some reg -> Q p g reg) ->
  forall p g reg, lookup_group rmd' p g = Some reg -> Q p g reg.
Proof.
  revert rmd log.
  induction groups as [| rg groups IH]; intros rmd log H HQ Hold.
  - injection H as <- <-. done.
  - cbn [load_groups] in H. apply bind_Normal_inv in H as ([rmd1 log1] & H1 & H).
    apply load_group_spec in H1 as (p1 & g1 & reg1 & Hk & Hb & ->).
    eapply IH; [exact H | |].
    + intros rg0 p g reg Hin. apply HQ. by right.
    + intros p g reg. rewrite lookup_group_insert.
      destruct (decide (p1 = p /\ g1 = g)) as [[<- <-] | _].
      * intros [= <-]. apply (HQ rg); [by left | done | done].
      * apply Hold.
Qed.

(** Every group of the document is a key of the table after the loop, and
    no key is lost. *)
Lemma load_groups_keys (groups : list xml.Group) (rmd : rangeData) (log : list error)
    (rmd' : rangeData) (log' : list error) :
  load_groups toInt (rmd, log) groups = Normal (rmd', log') ->
  (forall p g, is_Some (lookup_group rmd p g) -> is_Some (lookup_group rmd' p g))
  /\ (forall rg, In rg groups ->
        exists p g, group_key rg p g /\ is_Some (lookup_group rmd' p g)).
Proof.
  revert rmd log.
  induction groups as [| rg groups IH]; intros rmd log H.
  - injection H as <- <-. split; [done |]. intros rg [].
  - cbn [load_groups] in H. apply bind_Normal_inv in H as ([rmd1 log1] & H1 & H).
    apply load_group_spec in H1 as (p1 & g1 & reg1 & Hk & Hb & ->).
    apply IH in H as [Hkeep Hnew].
    split.
    + intros p g Hs. apply Hkeep. rewrite lookup_group_insert.
      by destruct (decide (p1 = p /\ g1 = g)).
    + intros rg0 [<- | Hin]; [| by apply Hnew].
      exists p1, g1. split; [done |]. apply Hkeep.
      rewrite lookup_group_insert. by rewrite decide_True.
Qed.

Lemma load_groups_panic (rg : xml.Group) (groups : list xml.Group) :
  (forall st, load_group toInt st rg = Panic) ->
  In rg groups ->
  forall st, load_groups toInt st groups = Panic.
Proof.
  intros HP. induction groups as [| rg0 groups IH]; intros Hin st; [done |].
  cbn [load_groups].
  destruct Hin as [-> | Hin]; [by rewrite HP |].
  destruct (load_group toInt st rg0) as [st' |]; [| done].
  by apply IH.
Qed.

Lemma load_rules_panic (rule : xml.Rule) (rules : list xml.Rule) :
  (forall st, load_rule toInt st rule = Panic) ->
  In rule rules ->
  forall st, load_rules toInt st rules = Panic.
Proof.
  intros HP. induction rules as [| rule0 rules IH]; intros Hin st; [done |].
  cbn [load_rules].
  destruct Hin as [-> | Hin]; [by rewrite HP |].
  destruct (load_rule toInt st rule0) as [st' |]; [| done].
  by apply IH.
Qed.

Lemma LoadRangeData_unfold (rmd0 : rangeData) (doc : list xml.Group) :
  LoadRangeData toInt rmd0 doc
  = '(rmd, log) ← load_groups toInt (∅, []) doc; mret (rmd, log, (true, None)).
Proof. reflexivity. Qed.

Lemma LoadRangeData_Normal (rmd0 : rangeData) (doc : list xml.Group)
    (rmd : rangeData) (log : list error) (res : bool * option error) :
  LoadRangeData toInt rmd0 doc = Normal (rmd, log, res) ->
  load_groups toInt (∅, []) doc = Normal (rmd, log) /\ res = (true, None).
Proof.
  rewrite LoadRangeData_unfold. intros H.
  apply bind_Normal_inv in H as ([rmd1 log1] & H1 & H).
  injection H as <- <- <-. done.
Qed.

End LoaderFacts.

Lemma group_key_functional (rg : xml.Group) (p g p' g' : string) :
  group_key rg p g -> group_key rg p' g' -> p = p' /\ g = g'.
Proof. intros [rest H] [rest' H']. rewrite H in H'. by injection H' as <- <- _. Qed.

Lemma Split_no_hyphen (s : string) :
  every_byte (fun c => c <> "-"%char) s -> Split s = [s].
Proof.
  unfold every_byte. induction s as [| c s IH]; [done |].
  cbn [list_ascii_of_string Split]. intros H.
  apply Forall_cons in H as [Hc Hs].
  destruct (Ascii.eqb_spec c "-") as [-> | _]; [done |].
  by rewrite (IH Hs).
Qed.

Section LoaderResults.

Context (toInt : string -> Z * option error).

Lemma load_groups_app (pre post : list xml.Group) (st : rangeData * list error) :
  load_groups toInt st (pre ++ post)
  = st' ← load_groups toInt st pre; load_groups toInt st' post.
Proof.
  revert st. induction pre as [| rg pre IH]; intros st; [done |].
  cbn [app load_groups].
  destruct (load_group toInt st rg) as [st' |]; [| done]. apply IH.
Qed.

(** Groups stored under other keys leave an entry alone. *)
Lemma load_groups_other_keys (p g : string) (groups : list xml.Group)
    (rmd : rangeData) (log : list error) (rmd' : rangeData) (log' : list error) :
  load_groups toInt (rmd, log) groups = Normal (rmd', log') ->
  (forall rg, In rg groups -> ~ group_key rg p g) ->
  lookup_group rmd' p g = lookup_group rmd p g.
Proof.
  revert rmd log.
  induction groups as [| rg groups IH]; intros rmd log H Hno.
  - by injection H as <- <-.
  - cbn [load_groups] in H. apply bind_Normal_inv in H as ([rmd1 log1] & H1 & H).
    apply load_group_spec in H1 as (p1 & g1 & reg1 & Hk & _ & ->).
    rewrite (IH _ _ H) by (intros rg0 Hin; apply Hno; by right).
    rewrite lookup_group_insert.
    destruct (decide (p1 = p /\ g1 = g)) as [[<- <-] | _]; [| done].
    destruct (Hno rg); [by left | done].
Qed.

Lemma load_rule_short_range (rule : xml.Rule) (n : Z) (lo : string)
    (rest : list string) (st : registrant.t * list error) :
  toInt (xml.Length rule) = (n, None) ->
  Split (xml.Range rule) = lo :: rest ->
  len lo < n ->
  load_rule toInt st rule = Panic.
Proof.
  intros HL HS Hn. destruct st as [reg log]. unfold load_rule.
  rewrite HL, HS.
  assert (0 < n) as H0 by (unfold len in Hn; lia).
  apply Z.ltb_lt in H0 as ->.
  assert (slice_to lo n = Panic) as HP.
  { unfold slice_to. apply Z.ltb_lt in Hn as ->. by rewrite orb_true_r. }
  unfold token. cbn [lookup list_lookup mbind go_bind]. by rewrite HP.
Qed.

Lemma load_group_rules_panic (rg : xml.Group) (st : rangeData * list error) :
  (forall st', load_rules toInt st' (xml.Rules rg) = Panic) ->
  load_group toInt st rg = Panic.
Proof.
  intros HP. destruct st as [rmd log]. unfold load_group.
  destruct (token (Split (xml.Prefix rg)) 0) as [p |]; [| done].
  destruct (token (Split (xml.Prefix rg)) 1) as [g |]; [| done].
  cbn. by rewrite HP.
Qed.

End LoaderResults.

(** X19.  Every entry of the table that [LoadRangeData] leaves behind stems
    from a group record of the document, whatever the table held before:
    the record's prefix text splits into the entry's two keys, the agency
    is the record's, and every range comes from one of the record's rules,
    with a positive length, a non-zero upper bound, and bounds read from
    the first [rLen] bytes of the two halves of the rule's range text. *)
Theorem loaded_entries_from_document (toInt : string -> Z * option error)
    (rmd0 : rangeData) (doc : list xml.Group)
    (rmd : rangeData) (log : list error) (res : bool * option error)
    (p g : string) (reg : registrant.t) :
  LoadRangeData toInt rmd0 doc = Normal (rmd, log, res) ->
  lookup_group rmd p g = Some reg ->
  exists rg,
    In rg doc /\ group_key rg p g
    /\ registrant.Agency reg = xml.Agency rg
    /\ Forall (fun r =>
                 0 < rLen r /\ rEnd r <> 0
                 /\ exists rule, In rule (xml.Rules rg) /\ rule_range toInt rule r)
         (registrant.Ranges reg).
Proof.
  intros H. apply LoadRangeData_Normal in H as [H _].
  apply (load_groups_entries toInt
           (fun p g reg => exists rg, In rg doc /\ group_key rg p g
              /\ registrant.Agency reg = xml.Agency rg
              /\ Forall (fun r => 0 < rLen r /\ rEnd r <> 0
                           /\ exists rule, In rule (xml.Rules rg)
                                           /\ rule_range toInt rule r)
                   (registrant.Ranges reg))
           doc ∅ [] rmd log H).
  - intros rg p' g' reg' Hin Hk [HA HR]. exists rg.
    split; [done |]. split; [done |]. split; [done |].
    eapply Forall_impl; [exact HR |].
    intros r (rule & Hrule & Hr). pose proof Hr as (_ & Hl & He & _).
    split; [done |]. split; [done |]. by exists rule.
  - intros p' g' reg'. unfold lookup_group. rewrite lookup_empty.
    cbn [from_option id]. by rewrite lookup_empty.
Qed.

Lemma loaded_entries_from_document_witness :
  exists rg,
    In rg sample_doc /\ group_key rg "978" "0"
    /\ "English language" = xml.Agency rg
    /\ Forall (fun r =>
                 0 < rLen r /\ rEnd r <> 0
                 /\ exists rule, In rule (xml.Rules rg) /\ rule_range Atoi rule r)
         [mkRange 0 19 2; mkRange 200 227 3].
Proof.
  apply (loaded_entries_from_document Atoi sample_rmd sample_doc sample_loaded
           [] (true, None) "978" "0"
           (registrant.mk "English language" [mkRange 0 19 2; mkRange 200 227 3])).
  - vm_compute. reflexivity.
  - vm_compute. reflexivity.
Defined.

(** X20.  When [LoadRangeData] gets through the document it reports
    [true, nil]; every group record is then in the table under the first
    two pieces of its prefix text, and [HasRangeData] holds exactly when
    the document has a group record: loading a document without groups
    succeeds and leaves the package without range data. *)
Theorem loaded_groups_are_keys (toInt : string -> Z * option error)
    (rmd0 : rangeData) (doc : list xml.Group)
    (rmd : rangeData) (log : list error) (res : bool * option error) :
  LoadRangeData toInt rmd0 doc = Normal (rmd, log, res) ->
  res = (true, None)
  /\ (HasRangeData rmd = true <-> doc <> [])
  /\ forall rg, In rg doc ->
       exists p g, group_key rg p g /\ is_Some (lookup_group rmd p g).
Proof.
  intros H. apply LoadRangeData_Normal in H as [H ->].
  split; [done |].
  pose proof (load_groups_keys toInt _ _ _ _ _ H) as [_ Hkeys].
  split; [| done].
  rewrite HasRangeData_true. split.
  - intros Hne ->. by injection H as <-.
  - intros Hdoc. destruct doc as [| rg doc]; [done |].
    destruct (Hkeys rg) as (p & g & _ & [reg Hreg]); [by left |].
    intros ->. unfold lookup_group in Hreg. rewrite lookup_empty in Hreg.
    cbn [from_option id] in Hreg. by rewrite lookup_empty in Hreg.
Qed.

Lemma loaded_groups_are_keys_witness :
  (true, None) = (true, @None error)
  /\ (HasRangeData sample_loaded = true <-> sample_doc <> [])
  /\ forall rg, In rg sample_doc ->
       exists p g, group_key rg p g /\ is_Some (lookup_group sample_loaded p g).
Proof.
  apply (loaded_groups_are_keys Atoi sample_rmd sample_doc sample_loaded []).
  vm_compute. reflexivity.
Defined.

(** X21.  Of several group records with the same prefix text pieces the
    last one wins: the entry under a key is built from the last record of
    the document stored under that key. *)
Theorem last_group_record_wins (toInt : string -> Z * option error)
    (rmd0 : rangeData) (pre post : list xml.Group) (rg : xml.Group)
    (rmd : rangeData) (log : list error) (res : bool * option error)
    (p g : string) :
  LoadRangeData toInt rmd0 (pre ++ rg :: post) = Normal (rmd, log, res) ->
  group_key rg p g ->
  (forall rg', In rg' post -> ~ group_key rg' p g) ->
  exists reg log1 log2,
    lookup_group rmd p g = Some reg
    /\ load_rules toInt (registrant.mk (xml.Agency rg) [], log1) (xml.Rules rg)
       = Normal (reg, log2).
Proof.
  intros H Hk Hpost. apply LoadRangeData_Normal in H as [H _].
  rewrite load_groups_app in H.
  apply bind_Normal_inv in H as ([rmd1 log1] & _ & H).
  cbn [load_groups] in H.
  apply bind_Normal_inv in H as ([rmd2 log2] & Hrg & H).
  rewrite (load_groups_other_keys toInt p g post _ _ _ _ H Hpost).
  unfold load_group in Hrg.
  apply bind_Normal_inv in Hrg as (p' & Hp & Hrg).
  apply bind_Normal_inv in Hrg as (g' & Hg & Hrg).
  apply bind_Normal_inv in Hrg as ([reg log3] & Hreg & Hrg).
  injection Hrg as <- <-.
  destruct Hk as [rest HS]. rewrite HS in Hp, Hg.
  injection Hp as <-. injection Hg as <-.
  exists reg, log1, log3. split; [| done].
  rewrite lookup_group_insert. by rewrite decide_True.
Qed.

Lemma last_group_record_wins_witness :
  exists reg log1 log2,
    lookup_group sample_loaded "978" "88" = Some reg
    /\ load_rules Atoi (registrant.mk "Italy" [], log1)
         [xml.mkRule "0000000-1999999" "2"]
       = Normal (reg, log2).
Proof.
  apply (last_group_record_wins Atoi sample_rmd
           [xml.mkGroup "978-0" "English language"
              [xml.mkRule "0000000-1999999" "2"; xml.mkRule "2000000-2279999" "3";
               xml.mkRule "0000000-0000000" "0"]]
           []
           (xml.mkGroup "978-88" "Italy" [xml.mkRule "0000000-1999999" "2"])
           sample_loaded [] (true, None)).
  - vm_compute. reflexivity.
  - exists []. reflexivity.
  - intros rg' [].
Defined.

(** X22.  A group record whose prefix text has no hyphen makes
    [LoadRangeData] panic: [tokens[1]] is out of range. *)
Theorem LoadRangeData_prefix_without_hyphen (toInt : string -> Z * option error)
    (rmd0 : rangeData) (doc : list xml.Group) (rg : xml.Group) :
  In rg doc ->
  every_byte (fun c => c <> "-"%char) (xml.Prefix rg) ->
  LoadRangeData toInt rmd0 doc = Panic.
Proof.
  intros Hin Hno. rewrite LoadRangeData_unfold.
  rewrite (load_groups_panic toInt rg doc); [done | | done].
  intros [rmd log]. unfold load_group. by rewrite (Split_no_hyphen _ Hno).
Qed.

Lemma LoadRangeData_prefix_without_hyphen_witness :
  LoadRangeData Atoi sample_rmd
    [xml.mkGroup "978-0" "English language" []; xml.mkGroup "9788" "Italy" []]
  = Panic.
Proof.
  apply (LoadRangeData_prefix_without_hyphen Atoi sample_rmd _
           (xml.mkGroup "9788" "Italy" [])).
  - right. left. reflexivity.
  - unfold every_byte. cbn [xml.Prefix list_ascii_of_string].
    repeat constructor; discriminate.
Defined.

(** X23.  A rule whose length exceeds the number of bytes before the first
    hyphen of its range text makes [LoadRangeData] panic: the slice
    [tokens[0][:rLen]] is out of range. *)
Theorem LoadRangeData_length_beyond_range (toInt : string -> Z * option error)
    (rmd0 : rangeData) (doc : list xml.Group) (rg : xml.Group) (rule : xml.Rule)
    (n : Z) (lo : string) (rest : list string) :
  In rg doc ->
  In rule (xml.Rules rg) ->
  toInt (xml.Length rule) = (n, None) ->
  Split (xml.Range rule) = lo :: rest ->
  len lo < n ->
  LoadRangeData toInt rmd0 doc = Panic.
Proof.
  intros Hrg Hrule HL HS Hn. rewrite LoadRangeData_unfold.
  rewrite (load_groups_panic toInt rg doc); [done | | done].
  intros st. apply load_group_rules_panic. intros st'.
  apply (load_rules_panic toInt rule); [| done].
  intros st''. by apply (load_rule_short_range toInt rule n lo rest).
Qed.

Lemma LoadRangeData_length_beyond_range_witness :
  LoadRangeData Atoi sample_rmd
    [xml.mkGroup "978-0" "English language" [xml.mkRule "0000000-1999999" "8"]]
  = Panic.
Proof.
  apply (LoadRangeData_length_beyond_range Atoi sample_rmd _
           (xml.mkGroup "978-0" "English language" [xml.mkRule "0000000-1999999" "8"])
           (xml.mkRule "0000000-1999999" "8") 8 "0000000" ["1999999"]).
  - left. reflexivity.
  - left. reflexivity.
  - vm_compute. reflexivity.
  - vm_compute. reflexivity.
  - vm_compute. reflexivity.
Defined.

(** X24.  Loader and parser together: with the table that [LoadRangeData]
    left behind, the group that [ParseISBN] resolves is a group record of
    the document (its prefix text is the record's Prefix and
    RegistrationGroup joined by a hyphen, up to further pieces) and Agency
    is that record's agency; a resolved Registrant has the length of one of
    the record's rules and its value lies within the bounds read from that
    rule. *)
Theorem parsed_elements_from_document (toInt : string -> Z * option error)
    (rmd0 : rangeData) (doc : list xml.Group)
    (rmd : rangeData) (log : list error) (res : bool * option error)
    (isbn : string) (x : ISBN) :
  LoadRangeData toInt rmd0 doc = Normal (rmd, log, res) ->
  ParseISBN rmd isbn = Normal (x, None) ->
  RegistrationGroup x <> "" ->
  exists rg,
    In rg doc
    /\ group_key rg (Prefix x) (RegistrationGroup x)
    /\ Agency x = xml.Agency rg
    /\ (Registrant x <> "" ->
        exists rule r chk,
          In rule (xml.Rules rg) /\ rule_range toInt rule r
          /\ Atoi (Registrant x) = (chk, None)
          /\ len (Registrant x) = rLen r
          /\ rStart r <= chk <= rEnd r).
Proof.
  intros Hload Hparse HG.
  destruct (ParseISBN_resolution _ _ _ Hparse)
    as (body & c & rest & rs & _ & _ & _ & _ & _ & _ & _ & H5).
  destruct (H5 HG) as (_ & Hrs & HA & _ & Hreg).
  apply LoadRangeData_Normal in Hload as [Hload _].
  destruct (load_groups_entries toInt
              (fun p g reg => exists rg, In rg doc /\ group_key rg p g
                 /\ built_from toInt rg reg)
              doc ∅ [] rmd log Hload) with (p := Prefix x) (g := RegistrationGroup x)
              (reg := rs) as (rg & Hin & Hk & Hagency & Hranges).
  - intros rg p' g' reg' Hin Hk Hb. by exists rg.
  - intros p' g' reg'. unfold lookup_group. rewrite lookup_empty.
    cbn [from_option id]. by rewrite lookup_empty.
  - done.
  - exists rg. split; [done |]. split; [done |]. split; [congruence |].
    intros HR. destruct (Hreg HR) as [[Hfit _] _].
    apply fits_true in Hfit as (chk & r & Hchk & Hr & Hlen & Hb).
    rewrite Forall_forall in Hranges.
    destruct (Hranges r) as (rule & Hrule & Hrr).
    { by apply list_elem_of_In. }
    by exists rule, r, chk.
Qed.

Lemma parsed_elements_from_document_witness :
  exists rg,
    In rg sample_doc
    /\ group_key rg "978" "0"
    /\ "English language" = xml.Agency rg
    /\ ("19" <> "" ->
        exists rule r chk,
          In rule (xml.Rules rg) /\ rule_range Atoi rule r
          /\ Atoi "19" = (chk, None)
          /\ len "19" = rLen r
          /\ rStart r <= chk <= rEnd r).
Proof.
  apply (parsed_elements_from_document Atoi sample_rmd sample_doc sample_loaded
           [] (true, None) "0-19-852663-6"
           (mkISBN "978" "0" "19" "852663" "English language" "6" "6" true)).
  - vm_compute. reflexivity.
  - vm_compute. reflexivity.
  - discriminate.
Defined.

(** X25.  [UnloadRangeData] reports [true, nil] and leaves the package
    without range data: whatever was loaded before, [HasRangeData] is false
    afterwards and [ParseISBN] returns the zero record with an error for
    every input. *)
Theorem ParseISBN_after_unload (rmd0 : rangeData) (isbn : string) :
  exists rmd e,
    UnloadRangeData rmd0 = (rmd, (true, None))
    /\ HasRangeData rmd = false
    /\ ParseISBN rmd isbn = Normal (zeroISBN, Some e).
Proof.
  exists ∅.
  destruct (parse_stripped_total ∅ (stripISBN isbn)) as [[x [e |]] H].
  - exists e. split; [reflexivity |]. split; [reflexivity |].
    by rewrite <- (ParseISBN_error_zero ∅ isbn x e H).
  - assert (HasRangeData ∅ = true) as Hr.
    { by apply (parse_stripped_accepts_iff ∅ (stripISBN isbn)); exists x. }
    done.
Qed.
